(** * Cyber Range configuration service and clients: a shallow embedding

    The development follows the Go sources:
    - [internal/server/server.go]: inventory loading, MAC matching, the
      cloud-init declaration parser and the three HTTP handlers;
    - [internal/client/mac.go]: local MAC discovery;
    - [cmd/client/*/main.go]: the bounded retry loop of the delivery client;
    - [internal/client/openwrt/network.go], [internal/client/linux/network.go]
      and the Windows netsh applier: the backend appliers.

    Go strings are modelled as byte strings ([string] of [ascii]).  Case
    mapping, case folding and white space are those of the Go [strings]
    package on strings of ASCII bytes ([is_ascii]), where Go works byte by
    byte as well.  On other strings Go decodes runes and applies the
    Unicode tables, which are not modelled: bytes from 0x80 upwards are
    left as they are.  A statement whose truth depends on the case mapping of
    an arbitrary string therefore carries the hypothesis [is_ascii]. *)

From stdpp Require Import gmap strings list fin_maps pretty.
From Stdlib Require Import ZArith Ascii String.

Local Open Scope string_scope.
Local Open Scope list_scope.

(* ===================================================================== *)
(** * The Go [strings] functions used by the program                      *)
(* ===================================================================== *)

Module GoStrings.

(** The strings on which the model of [ToLower], [ToUpper], [EqualFold]
    and [TrimSpace] is exact: every byte is below 0x80. *)
Fixpoint is_ascii (s : string) : bool :=
  match s with
  | EmptyString => true
  | String c s' => (N_of_ascii c <? 128)%N && is_ascii s'
  end.

Definition is_upper (c : ascii) : bool :=
  (65 <=? N_of_ascii c)%N && (N_of_ascii c <=? 90)%N.

Definition is_lower (c : ascii) : bool :=
  (97 <=? N_of_ascii c)%N && (N_of_ascii c <=? 122)%N.

(** [c += 'a' - 'A'] for ['A' <= c <= 'Z'] *)
Definition lower_byte (c : ascii) : ascii :=
  if is_upper c then ascii_of_N (N_of_ascii c + 32) else c.

(** [c -= 'a' - 'A'] for ['a' <= c <= 'z'] *)
Definition upper_byte (c : ascii) : ascii :=
  if is_lower c then ascii_of_N (N_of_ascii c - 32) else c.

(** [asciiSpace]: tab, line feed, vertical tab, form feed, carriage
    return and space. *)
Definition is_space (c : ascii) : bool :=
  let n := N_of_ascii c in
  ((9 <=? n)%N && (n <=? 13)%N) || (n =? 32)%N.

Fixpoint map_bytes (f : ascii → ascii) (s : string) : string :=
  match s with
  | EmptyString => EmptyString
  | String c s' => String (f c) (map_bytes f s')
  end.

(** [strings.ToLower] and [strings.ToUpper] on ASCII strings; a byte from
    0x80 upwards is kept, where Go maps the rune it belongs to. *)
Definition ToLower : string → string := map_bytes lower_byte.
Definition ToUpper : string → string := map_bytes upper_byte.

Fixpoint TrimLeft (s : string) : string :=
  match s with
  | String c s' => if is_space c then TrimLeft s' else s
  | EmptyString => EmptyString
  end.

(** Drops the trailing white space: a byte is kept when it is not a space
    or when something is kept after it. *)
Fixpoint TrimRight (s : string) : string :=
  match s with
  | EmptyString => EmptyString
  | String c s' =>
      match TrimRight s' with
      | EmptyString => if is_space c then EmptyString else String c EmptyString
      | t => String c t
      end
  end.

(** [strings.TrimSpace] for the six ASCII white-space bytes; Go also trims
    the white-space runes outside ASCII. *)
Definition TrimSpace (s : string) : string := TrimRight (TrimLeft s).

Fixpoint HasPrefix (s p : string) : bool :=
  match p, s with
  | EmptyString, _ => true
  | String a p', String b s' => Ascii.eqb a b && HasPrefix s' p'
  | String _ _, EmptyString => false
  end.

Fixpoint Contains (s substr : string) : bool :=
  HasPrefix s substr ||
  match s with
  | EmptyString => false
  | String _ s' => Contains s' substr
  end.

(** [strings.EqualFold] on ASCII strings: equality up to the case of the
    letters A to Z.  Go folds runes outside ASCII as well (the Kelvin sign
    with k), which is not modelled. *)
Fixpoint EqualFold (s t : string) : bool :=
  match s, t with
  | EmptyString, EmptyString => true
  | String a s', String b t' =>
      Ascii.eqb (lower_byte a) (lower_byte b) && EqualFold s' t'
  | _, _ => false
  end.

(** [ReplaceAll s old new] for a non-empty [old]: matches are found left to
    right and do not overlap.  [skip] counts the bytes of a match that are
    still to be dropped. *)
Fixpoint replace_from (old new : string) (skip : nat) (s : string) : string :=
  match s with
  | EmptyString => EmptyString
  | String c s' =>
      match skip with
      | S k => replace_from old new k s'
      | O =>
          if HasPrefix s old
          then new +:+ replace_from old new (String.length old - 1) s'
          else String c (replace_from old new 0 s')
      end
  end.

(** With an empty [old], Go inserts [new] before every byte and at the
    end of the string. *)
Fixpoint intersperse (new s : string) : string :=
  match s with
  | EmptyString => new
  | String c s' => new +:+ String c (intersperse new s')
  end.

Definition ReplaceAll (s old new : string) : string :=
  match old with
  | EmptyString => intersperse new s
  | _ => replace_from old new 0 s
  end.

Fixpoint Join (elems : list string) (sep : string) : string :=
  match elems with
  | [] => EmptyString
  | [e] => e
  | e :: rest => e +:+ sep +:+ Join rest sep
  end.

(** [Split s sep] for a one-byte separator. *)
Fixpoint split_byte (sep : ascii) (cur : string) (s : string) : list string :=
  match s with
  | EmptyString => [String.rev cur]
  | String c s' =>
      if Ascii.eqb c sep
      then String.rev cur :: split_byte sep EmptyString s'
      else split_byte sep (String c cur) s'
  end.

Definition Split (s : string) (sep : ascii) : list string :=
  split_byte sep EmptyString s.

Fixpoint IndexByte (s : string) (c : ascii) : option nat :=
  match s with
  | EmptyString => None
  | String a s' => if Ascii.eqb a c then Some 0 else S <$> IndexByte s' c
  end.

End GoStrings.

Import GoStrings.

(** Go functions return a value together with an [error]; [Err] carries the
    message of the error. *)
Inductive result (A : Type) : Type :=
| Ok (a : A)
| Err (e : string).
Arguments Ok {A} a.
Arguments Err {A} e.

Definition is_ok {A} (r : result A) : bool :=
  match r with Ok _ => true | Err _ => false end.

(* ===================================================================== *)
(** * Package [config]: the shared data shapes                            *)
(* ===================================================================== *)

(** The fields are the ones the server and the appliers read and write
    ([Routes] of a [NetworkConfig], [Networks] of a [ConfigResponse],
    [Ethernets] of a [CloudInitNetwork]). *)

Record Route := mkRoute { To : string; Via : string }.

Record NetworkConfig := mkNetworkConfig {
  DHCP : bool;
  Address : string;
  Gateway : string;
  DNS : list string;
  Routes : list Route
}.

Record LXDInstance := mkLXDInstance {
  Name : string;
  Config : gmap string string
}.

Record CloudInitEthernet := mkCloudInitEthernet {
  DHCP4 : bool;
  Addresses : list string;
  Gateway4 : string;
  EthRoutes : list Route;           (* [Routes] of the ethernet *)
  NameserverAddresses : list string (* [Nameservers.Addresses] *)
}.

Record CloudInitNetwork := mkCloudInitNetwork {
  Version : Z;
  Ethernets : gmap string CloudInitEthernet
}.

Record ConfigResponse := mkConfigResponse {
  Hostname : string;
  Network : NetworkConfig;
  Networks : gmap string NetworkConfig
}.

(** The zero value of a [NetworkConfig], and the DHCP default. *)
Definition zeroNetworkConfig : NetworkConfig := mkNetworkConfig false "" "" [] [].
Definition dhcpNetworkConfig : NetworkConfig := mkNetworkConfig true "" "" [] [].

Definition set_Gateway (g : string) (nc : NetworkConfig) : NetworkConfig :=
  mkNetworkConfig (DHCP nc) (Address nc) g (DNS nc) (Routes nc).
Definition set_Address (a : string) (nc : NetworkConfig) : NetworkConfig :=
  mkNetworkConfig (DHCP nc) a (Gateway nc) (DNS nc) (Routes nc).
Definition set_DNS (d : list string) (nc : NetworkConfig) : NetworkConfig :=
  mkNetworkConfig (DHCP nc) (Address nc) (Gateway nc) d (Routes nc).
Definition set_Routes (r : list Route) (nc : NetworkConfig) : NetworkConfig :=
  mkNetworkConfig (DHCP nc) (Address nc) (Gateway nc) (DNS nc) r.

(** Reading a Go [map[string]string]: a missing key gives the empty string. *)
Definition map_get (m : gmap string string) (k : string) : string :=
  default "" (m !! k).

(* ===================================================================== *)
(** * Package [server]                                                    *)
(* ===================================================================== *)

Module Server.

(** Time stamps are instants on the clock of the server process. *)
Definition Time := Z.

Record Server := mkServer {
  instancesFile : string;
  instances : list LXDInstance;
  lastActivity : Time
}.

Record Request := mkRequest {
  Method : string;
  Path : string;
  Query : gmap string (list string)
}.

(** [r.URL.Query().Get(key)]: the first value of the key, or the empty
    string. *)
Definition Query_Get (q : gmap string (list string)) (key : string) : string :=
  match q !! key with
  | Some (v :: _) => v
  | _ => ""
  end.

(** What a handler writes: the body is kept structured, its JSON or text
    rendering is not modelled. *)
Inductive Body :=
| ErrorText (msg : string)                        (* [http.Error] *)
| ConfigJSON (r : ConfigResponse)                 (* the encoded response *)
| ReloadedText (n : nat)                          (* "Reloaded %d instances" *)
| StatusJSON (n : nat) (last idle : Time).        (* the status object *)

Record Response := mkResponse { Status : Z; body : Body }.

Definition StatusOK : Z := 200.
Definition StatusBadRequest : Z := 400.
Definition StatusNotFound : Z := 404.
Definition StatusMethodNotAllowed : Z := 405.
Definition StatusInternalServerError : Z := 500.

Definition http_Error (msg : string) (code : Z) : Response :=
  mkResponse code (ErrorText msg).

(** ** Matching *)

(** Line 100 of [HandleConfig]. *)
Definition normalizeMAC (mac : string) : string :=
  ToLower (ReplaceAll mac "-" ":").

(** The inner loop of [findInstanceByMAC]: some key containing "hwaddr"
    holds a value equal to [mac] up to case.  The loop returns the instance
    at the first such key, so the order of the keys does not matter. *)
Definition hasMAC (inst : LXDInstance) (mac : string) : bool :=
  existsb (λ kv, Contains kv.1 "hwaddr" && EqualFold kv.2 mac)
          (map_to_list (Config inst)).

Fixpoint findInstanceByMAC_in (insts : list LXDInstance) (mac : string)
  : option LXDInstance :=
  match insts with
  | [] => None
  | inst :: rest =>
      if hasMAC inst mac then Some inst else findInstanceByMAC_in rest mac
  end.

Definition findInstanceByMAC (s : Server) (mac : string) : option LXDInstance :=
  findInstanceByMAC_in (instances s) mac.

(** ** The cloud-init declaration parser *)

Definition isDefaultRoute (r : Route) : bool :=
  String.eqb (To r) "default" || String.eqb (To r) "0.0.0.0/0".

(** One iteration of the loop over [eth.Routes]. *)
Definition processRoute (netConfig : NetworkConfig) (route : Route) : NetworkConfig :=
  if isDefaultRoute route then
    if String.eqb (Gateway netConfig) "" then set_Gateway (Via route) netConfig
    else netConfig
  else set_Routes (Routes netConfig ++ [route]) netConfig.

(** The body of the loop over [cloudInit.Ethernets]. *)
Definition parseEthernet (eth : CloudInitEthernet) : NetworkConfig :=
  let netConfig := mkNetworkConfig (DHCP4 eth) "" "" [] [] in
  let netConfig :=
    match Addresses eth with
    | a :: _ => set_Address a netConfig
    | [] => netConfig
    end in
  let netConfig :=
    if negb (String.eqb (Gateway4 eth) "") then set_Gateway (Gateway4 eth) netConfig
    else netConfig in
  let netConfig := fold_left processRoute (EthRoutes eth) netConfig in
  set_DNS (NameserverAddresses eth) netConfig.

Section Service.

(** [yaml.Unmarshal] into a [CloudInitNetwork] and [json.Unmarshal] into
    a slice of instances are library functions of the byte string. *)
Variable yaml_Unmarshal : string → result CloudInitNetwork.
Variable json_Unmarshal : string → result (list LXDInstance).
(** Whether the JSON encoder fails on a response. *)
Variable json_Encode_fails : ConfigResponse → bool.
(** What [http.ServeMux] answers by itself to a request on a path that no
    registered pattern matches: 404, or a redirect (301) to the cleaned
    path when the path is not clean. *)
Variable mux_unmatched : Request → Response.

Definition parseAllNetworkConfigs (instance : LXDInstance)
  : gmap string NetworkConfig :=
  let cloudInitConfig := map_get (Config instance) "cloud-init.network-config" in
  if String.eqb (TrimSpace (ToUpper cloudInitConfig)) "DHCP" then ∅
  else
    match yaml_Unmarshal cloudInitConfig with
    | Err _ => ∅
    | Ok cloudInit => parseEthernet <$> Ethernets cloudInit
    end.

(** ** Loading the inventory *)

(** [fs] is [os.ReadFile] at the moment of the call. *)
Definition loadInstances (fs : string → result string) (s : Server)
  : Server * option string :=
  match fs (instancesFile s) with
  | Err e => (s, Some ("failed to read instances file: " +:+ e))
  | Ok data =>
      match json_Unmarshal data with
      | Err e => (s, Some ("failed to parse instances JSON: " +:+ e))
      | Ok insts => (mkServer (instancesFile s) insts (lastActivity s), None)
      end
  end.

Definition Reload := loadInstances.

Definition NewServer (file : string) (now : Time) (fs : string → result string)
  : result Server :=
  match loadInstances fs (mkServer file [] now) with
  | (_, Some e) => Err e
  | (s, None) => Ok s
  end.

(** ** Activity *)

Definition updateActivity (now : Time) (s : Server) : Server :=
  mkServer (instancesFile s) (instances s) now.

Definition GetLastActivity (s : Server) : Time := lastActivity s.

(** ** Handlers

    A handler runs at instant [now] on the state of the server and gives
    the new state and the response.  [range] is the order in which this
    call ranges over the map of networks. *)

Definition HandleConfig (now : Time)
    (range : gmap string NetworkConfig → list (string * NetworkConfig))
    (r : Request) (s : Server) : Server * Response :=
  let s := updateActivity now s in
  if negb (String.eqb (Method r) "GET") then
    (s, http_Error "Method not allowed" StatusMethodNotAllowed)
  else
    let mac := Query_Get (Query r) "mac" in
    if String.eqb mac "" then
      (s, http_Error "Missing 'mac' query parameter" StatusBadRequest)
    else
      let mac := normalizeMAC mac in
      match findInstanceByMAC s mac with
      | None => (s, http_Error "Instance not found" StatusNotFound)
      | Some instance =>
          let networks := parseAllNetworkConfigs instance in
          let primaryNetwork :=
            match range networks with
            | (_, netCfg) :: _ => netCfg
            | [] => zeroNetworkConfig
            end in
          let primaryNetwork :=
            if (size networks =? 0)%nat then dhcpNetworkConfig
            else primaryNetwork in
          let response := mkConfigResponse (Name instance) primaryNetwork networks in
          if json_Encode_fails response then
            (s, http_Error "Internal server error" StatusInternalServerError)
          else (s, mkResponse StatusOK (ConfigJSON response))
      end.

Definition HandleReload (now : Time) (fs : string → result string)
    (r : Request) (s : Server) : Server * Response :=
  let s := updateActivity now s in
  if negb (String.eqb (Method r) "POST") then
    (s, http_Error "Method not allowed" StatusMethodNotAllowed)
  else
    match Reload fs s with
    | (s, Some _) => (s, http_Error "Failed to reload" StatusInternalServerError)
    | (s, None) => (s, mkResponse StatusOK (ReloadedText (List.length (instances s))))
    end.

Definition HandleStatus (now : Time) (r : Request) (s : Server)
  : Server * Response :=
  if negb (String.eqb (Method r) "GET") then
    (s, http_Error "Method not allowed" StatusMethodNotAllowed)
  else
    let instanceCount := List.length (instances s) in
    let lastActivity := GetLastActivity s in
    (s, mkResponse StatusOK
          (StatusJSON instanceCount lastActivity (now - lastActivity)%Z)).

(** [RegisterRoutes]: the three patterns match their path exactly; the
    mux answers every other path itself, without calling a handler. *)
Definition ServeHTTP (now : Time)
    (range : gmap string NetworkConfig → list (string * NetworkConfig))
    (fs : string → result string)
    (r : Request) (s : Server) : Server * Response :=
  if String.eqb (Path r) "/config" then HandleConfig now range r s
  else if String.eqb (Path r) "/reload" then HandleReload now fs r s
  else if String.eqb (Path r) "/status" then HandleStatus now r s
  else (s, mux_unmatched r).

End Service.

End Server.

(* ===================================================================== *)
(** * Package [client]: local MAC discovery                               *)
(* ===================================================================== *)

Module Client.

(** [net.Interface], with the fields the client reads. *)
Record Interface := mkInterface {
  ifName : string;
  Flags : Z;
  HardwareAddr : list Byte.byte
}.

Definition FlagUp : Z := Z.shiftl 1 0.
Definition FlagLoopback : Z := Z.shiftl 1 2.

Definition hexDigit : string := "0123456789abcdef".

(** [hexDigit[n]]; the index is always below 16. *)
Definition hexDigit_at (n : N) : ascii :=
  default "0"%char (String.get (N.to_nat n) hexDigit).

(** The two digits [hexDigit[b>>4]] and [hexDigit[b&0xF]] of a byte. *)
Definition hex_of_byte (b : Byte.byte) (rest : string) : string :=
  let n := Byte.to_N b in
  String (hexDigit_at (N.shiftr n 4)) (String (hexDigit_at (N.land n 15)) rest).

(** The loop of [HardwareAddr.String] from index 1 on: a colon, then the
    two digits. *)
Fixpoint hw_tail (a : list Byte.byte) : string :=
  match a with
  | [] => ""
  | b :: a' => String ":"%char (hex_of_byte b (hw_tail a'))
  end.

(** [net.HardwareAddr.String] of the Go standard library. *)
Definition HardwareAddr_String (a : list Byte.byte) : string :=
  match a with
  | [] => ""
  | b :: a' => hex_of_byte b (hw_tail a')
  end.

(** The loop of [GetPrimaryMAC] over the interfaces. *)
Fixpoint firstValidMAC (interfaces : list Interface) : result string :=
  match interfaces with
  | [] => Err "no valid network interface found"
  | iface :: rest =>
      if negb (Z.land (Flags iface) FlagLoopback =? 0)%Z then firstValidMAC rest
      else if (List.length (HardwareAddr iface) =? 0)%nat then firstValidMAC rest
      else if (Z.land (Flags iface) FlagUp =? 0)%Z then firstValidMAC rest
      else
        let mac := HardwareAddr_String (HardwareAddr iface) in
        if negb (String.eqb mac "") then Ok (ToLower mac)
        else firstValidMAC rest
  end.

(** [net_Interfaces] is the answer of [net.Interfaces()]. *)
Definition GetPrimaryMAC (net_Interfaces : result (list Interface)) : result string :=
  match net_Interfaces with
  | Err e => Err ("failed to get network interfaces: " +:+ e)
  | Ok interfaces => firstValidMAC interfaces
  end.

(** [net_InterfaceByName] is [net.InterfaceByName]. *)
Definition GetMACByName (net_InterfaceByName : string → result Interface)
    (name : string) : result string :=
  match net_InterfaceByName name with
  | Err e => Err ("interface " +:+ name +:+ " not found: " +:+ e)
  | Ok iface =>
      if (List.length (HardwareAddr iface) =? 0)%nat
      then Err ("interface " +:+ name +:+ " has no MAC address")
      else Ok (ToLower (HardwareAddr_String (HardwareAddr iface)))
  end.

End Client.

(* ===================================================================== *)
(** * The delivery client: bounded retry ([cmd/client/*/main.go])         *)
(* ===================================================================== *)

Module Delivery.

(** What one [http.Get] gives: a transport-level error, or a response
    with its status code and body. *)
Inductive HttpOutcome :=
| TransportError (e : string)
| HttpResponse (status : Z) (body : string).

(** What the client has done so far: the attempts made, the [http.Get]
    calls issued and the durations slept, oldest first.  Log lines are
    not kept. *)
Record Client := mkClient {
  attempts : nat;
  httpCalls : nat;
  sleeps : list Z
}.

Definition fresh : Client := mkClient 0 0 [].

Definition Second : Z := 1000000000.
Definition StatusOK : Z := 200.

Inductive ProcessOutcome :=
| Exit (code : Z)
| Fetched (cfg : ConfigResponse).

Section Fetch.

(** [url.Parse] fails or not on the server URL. *)
Variable url_Parse_error : string → option string.
(** The JSON decoder on the body of a response. *)
Variable json_Decode : string → result ConfigResponse.
(** The network: the outcome of the k-th [http.Get] of the run, for the
    server URL and the MAC of the query. *)
Variable net : nat → string → string → HttpOutcome.

Definition time_Sleep (d : Z) (c : Client) : Client :=
  mkClient (attempts c) (httpCalls c) (sleeps c ++ [d]).

Definition requestConfig (serverURL mac : string) (c : Client)
  : Client * result ConfigResponse :=
  let c := mkClient (S (attempts c)) (httpCalls c) (sleeps c) in
  match url_Parse_error serverURL with
  | Some e => (c, Err ("invalid server URL: " +:+ e))
  | None =>
      let k := httpCalls c in
      let c := mkClient (attempts c) (S k) (sleeps c) in
      match net k serverURL mac with
      | TransportError e => (c, Err ("request failed: " +:+ e))
      | HttpResponse status body =>
          if negb (status =? StatusOK)%Z then
            (c, Err ("server returned " +:+ pretty status +:+ ": " +:+ body))
          else
            match json_Decode body with
            | Err e => (c, Err ("failed to parse response: " +:+ e))
            | Ok cfg => (c, Ok cfg)
            end
      end
  end.

(** The [for i := 0; i < maxRetries; i++] loop, with [n] iterations
    left. *)
Fixpoint retryLoop (serverURL mac : string) (maxRetries retryDelay : Z)
    (n : nat) (i : Z) (lastErr : option string) (c : Client)
  : Client * result ConfigResponse :=
  match n with
  | O =>
      (c, Err ("failed after " +:+ pretty maxRetries +:+ " retries: "
               +:+ default "%!w(<nil>)" lastErr))
  | S n' =>
      let c := if (0 <? i)%Z then time_Sleep retryDelay c else c in
      match requestConfig serverURL mac c with
      | (c, Ok cfg) => (c, Ok cfg)
      | (c, Err e) =>
          retryLoop serverURL mac maxRetries retryDelay n' (i + 1)%Z (Some e) c
      end
  end.

Definition requestConfigWithRetry (serverURL mac : string)
    (maxRetries retryDelay : Z) (c : Client) : Client * result ConfigResponse :=
  retryLoop serverURL mac maxRetries retryDelay (Z.to_nat maxRetries) 0 None c.

(** The fetch step of [main] of the Windows and OpenWrt clients:
    [log.Fatalf] ends the process with status 1. *)
Definition main_fetch (serverURL mac : string) (c : Client)
  : Client * ProcessOutcome :=
  match requestConfigWithRetry serverURL mac 10 (15 * Second) c with
  | (c, Err _) => (c, Exit 1)
  | (c, Ok cfg) => (c, Fetched cfg)
  end.

(** The calls made so far agree with the attempts, unless the URL does
    not parse and no call is ever made. *)
Definition in_step (serverURL : string) (c : Client) : Prop :=
  url_Parse_error serverURL = None → httpCalls c = attempts c.

(** What the k-th attempt of a run gives (k from 0). *)
Definition attempt (serverURL mac : string) (k : nat) : result ConfigResponse :=
  (requestConfig serverURL mac (mkClient k k [])).2.

(** The first attempt among the [n] attempts from the k-th on that
    succeeds, with its configuration. *)
Fixpoint firstSuccess (serverURL mac : string) (n k : nat)
  : option (nat * ConfigResponse) :=
  match n with
  | O => None
  | S n' =>
      match attempt serverURL mac k with
      | Ok cfg => Some (k, cfg)
      | Err _ => firstSuccess serverURL mac n' (S k)
      end
  end.

End Fetch.

End Delivery.

(* ===================================================================== *)
(** * Package [openwrt]: the interface name mapping                       *)
(* ===================================================================== *)

Module OpenWrtNames.

Definition InterfaceMapping : gmap string string :=
  list_to_map
    [ ("eth0", "wan"); ("eth-0", "wan");
      ("eth1", "lan"); ("eth-1", "lan");
      ("eth2", "lan2"); ("eth-2", "lan2");
      ("eth3", "lan3"); ("eth-3", "lan3") ].

Definition MapInterfaceName (cloudInitName : string) : string :=
  match InterfaceMapping !! cloudInitName with
  | Some uciName => uciName
  | None =>
      let name := ToLower cloudInitName in
      let name := ReplaceAll name "eth-" "" in
      let name := ReplaceAll name "eth" "" in
      if String.eqb name "0" then "wan"
      else if String.eqb name "1" then "lan"
      else "lan" +:+ name
  end.

(** The rule as the comment in the source words it ("strip eth- or eth
    prefix and use as suffix"): only a leading [eth-] or [eth] is
    removed. *)
Definition stripEthPrefix (name : string) : string :=
  if HasPrefix name "eth-" then String.substring 4 (String.length name - 4) name
  else if HasPrefix name "eth" then String.substring 3 (String.length name - 3) name
  else name.

Definition MapInterfaceName_documented (cloudInitName : string) : string :=
  match InterfaceMapping !! cloudInitName with
  | Some uciName => uciName
  | None =>
      let suffix := stripEthPrefix cloudInitName in
      if String.eqb suffix "0" then "wan"
      else if String.eqb suffix "1" then "lan"
      else "lan" +:+ suffix
  end.

End OpenWrtNames.

(* ===================================================================== *)
(** * Effects of the appliers                                             *)
(* ===================================================================== *)

(** An applier acts on the host through external commands, files and the
    log.  A run is the sequence of these effects, oldest first. *)
Inductive Effect :=
| Exec (argv : list string)                       (* [exec.Command(...)] run *)
| WriteFile (name content : string) (perm : Z)    (* [os.WriteFile] *)
| MkdirAll (path : string) (perm : Z)             (* [os.MkdirAll] *)
| Log (line : string).                            (* [log.Printf] *)

Definition Trace := list Effect.

Definition is_WriteFile (e : Effect) : bool :=
  match e with WriteFile _ _ _ => true | _ => false end.

(** The host: given what has been done so far, the output and the error (if
    any) of the next effect. *)
Definition Host := Trace → Effect → string * option string.

(** Computations that extend the trace and return a value or an error; an
    error ends the function, as [return err] does. *)
Definition E (A : Type) : Type := Trace → result A * Trace.

#[local] Instance E_ret : MRet E := λ A a h, (Ok a, h).
#[local] Instance E_bind : MBind E := λ A B f m h,
  match m h with
  | (Ok a, h') => f a h'
  | (Err e, h') => (Err e, h')
  end.

Definition fail {A} (e : string) : E A := λ h, (Err e, h).

(** [fmt.Errorf(prefix + "%w", err)] on the error path of [m]. *)
Definition wrap {A} (prefix : string) (m : E A) : E A := λ h,
  match m h with
  | (Err e, h') => (Err (prefix +:+ e), h')
  | r => r
  end.

(** The error of [m] as a value: [err := f()]. *)
Definition catch {A} (m : E A) : E (result A) := λ h,
  match m h with (r, h') => (Ok r, h') end.

Definition fmt_bool (b : bool) : string := if b then "true" else "false".

(** [%v] of a slice of strings. *)
Definition fmt_args (args : list string) : string :=
  "[" +:+ Join args " " +:+ "]".

Definition LF : string := String (ascii_of_nat 10) EmptyString.

Section Appliers.

Variable host : Host.

(** Running a command gives its output and its error; the caller decides
    what an error means. *)
Definition run (argv : list string) : E (string * option string) := λ h,
  (Ok (host h (Exec argv)), h ++ [Exec argv]).

Definition os_WriteFile (name content : string) (perm : Z) : E (option string) := λ h,
  (Ok (host h (WriteFile name content perm)).2, h ++ [WriteFile name content perm]).

Definition os_MkdirAll (path : string) (perm : Z) : E (option string) := λ h,
  (Ok (host h (MkdirAll path perm)).2, h ++ [MkdirAll path perm]).

Definition log_Printf (line : string) : E unit := λ h, (Ok tt, h ++ [Log line]).

(** [if output, err := cmd.CombinedOutput(); err != nil { return
    fmt.Errorf(msg + "%s - %w", output, err) }] *)
Definition must (msg : string) (argv : list string) : E unit :=
  r ← run argv;
  match r.2 with
  | Some err => fail (msg +:+ r.1 +:+ " - " +:+ err)
  | None => mret tt
  end.

(** ** [net.ParseCIDR]

    The standard library cuts the string at the first slash and fails
    when there is none; the parsing of the two halves is a function of
    the [net] package.  A parsed CIDR is kept by what the appliers print
    of it. *)
Record CIDR := mkCIDR {
  ip_String : string;      (* [ip.String()] *)
  mask_String : string;    (* [net.IP(ipNet.Mask).String()] *)
  mask_ones : Z            (* [ones, _ := ipNet.Mask.Size()] *)
}.

Variable net_parseHalves : string → result CIDR.

Definition ParseCIDR (s : string) : result CIDR :=
  match IndexByte s "/"%char with
  | None => Err ("invalid CIDR address: " +:+ s)
  | Some _ => net_parseHalves s
  end.

(* ------------------------------------------------------------------- *)
(** ** OpenWrt / UCI ([internal/client/openwrt/network.go])             *)
(* ------------------------------------------------------------------- *)

Definition is_delete (args : list string) : bool :=
  match args with
  | _ :: op :: _ => String.eqb op "delete"
  | _ => false
  end.

(** The loop over [commands]: a delete is run with its error ignored,
    any other command must succeed. *)
Fixpoint runCommands (commands : list (list string)) : E unit :=
  match commands with
  | [] => mret tt
  | args :: rest =>
      (if is_delete args then _ ← run args; mret tt
       else
         r ← run args;
         match r.2 with
         | Some err =>
             fail ("failed to run " +:+ fmt_args args +:+ ": " +:+ r.1 +:+ " - " +:+ err)
         | None => mret tt
         end);;
      runCommands rest
  end.

Definition configureInterfaceDHCP (uciInterface : string) : E unit :=
  let prefix := "network." +:+ uciInterface in
  runCommands
    [ ["uci"; "set"; prefix +:+ ".proto=dhcp"];
      ["uci"; "delete"; prefix +:+ ".ipaddr"];
      ["uci"; "delete"; prefix +:+ ".netmask"];
      ["uci"; "delete"; prefix +:+ ".gateway"];
      ["uci"; "delete"; prefix +:+ ".dns"] ].

Definition configureInterfaceStatic (uciInterface : string) (cfg : NetworkConfig)
  : E unit :=
  match ParseCIDR (Address cfg) with
  | Err err => fail ("invalid address format: " +:+ err)
  | Ok cidr =>
      let prefix := "network." +:+ uciInterface in
      let commands :=
        [ ["uci"; "set"; prefix +:+ ".proto=static"];
          ["uci"; "set"; prefix +:+ ".ipaddr=" +:+ ip_String cidr];
          ["uci"; "set"; prefix +:+ ".netmask=" +:+ mask_String cidr] ] in
      let commands :=
        if negb (String.eqb (Gateway cfg) "")
        then commands ++ [["uci"; "set"; prefix +:+ ".gateway=" +:+ Gateway cfg]]
        else commands in
      let commands :=
        if (0 <? List.length (DNS cfg))%nat
        then (commands ++ [["uci"; "delete"; prefix +:+ ".dns"]])
               ++ map (λ dns, ["uci"; "add_list"; prefix +:+ ".dns=" +:+ dns]) (DNS cfg)
        else commands in
      runCommands commands
  end.

Definition ConfigureInterface (uciInterface : string) (cfg : NetworkConfig) : E unit :=
  if DHCP cfg then configureInterfaceDHCP uciInterface
  else configureInterfaceStatic uciInterface cfg.

Definition CommitNetworkChanges : E unit :=
  must "failed to commit network changes: " ["uci"; "commit"; "network"].

Definition log_Configuring (cloudInitName uciName : string) (netCfg : NetworkConfig)
  : string :=
  "Configuring " +:+ cloudInitName +:+ " -> UCI " +:+ uciName +:+ ": dhcp="
    +:+ fmt_bool (DHCP netCfg) +:+ ", address=" +:+ Address netCfg.

Definition log_Warning (uciName err : string) : string :=
  "Warning: Failed to configure " +:+ uciName +:+ ": " +:+ err.

(** The loop of [main] of the OpenWrt client over [cfg.Networks]; the
    list holds the entries of the map in the order the range visits
    them. *)
Fixpoint openwrt_configureEach (networks : list (string * NetworkConfig)) : E unit :=
  match networks with
  | [] => mret tt
  | (cloudInitName, netCfg) :: rest =>
      let uciName := OpenWrtNames.MapInterfaceName cloudInitName in
      log_Printf (log_Configuring cloudInitName uciName netCfg);;
      r ← catch (ConfigureInterface uciName netCfg);
      (match r with
       | Err err => log_Printf (log_Warning uciName err)
       | Ok _ => mret tt
       end);;
      openwrt_configureEach rest
  end.

(** The network step of [main] of the OpenWrt client.  An error stands
    for [log.Fatalf]: the process exits with status 1. *)
Definition openwrt_main_network (networks : list (string * NetworkConfig))
    (single : NetworkConfig) : E unit :=
  if (0 <? List.length networks)%nat then
    log_Printf ("Found " +:+ pretty (List.length networks)
                  +:+ " network interface(s) to configure");;
    openwrt_configureEach networks;;
    wrap "Failed to commit network changes: " CommitNetworkChanges
  else
    log_Printf ("Using single network config: dhcp=" +:+ fmt_bool (DHCP single)
                  +:+ ", address=" +:+ Address single);;
    wrap "Failed to configure network: " (ConfigureInterface "lan" single);;
    wrap "Failed to commit network changes: " CommitNetworkChanges.

(* ------------------------------------------------------------------- *)
(** ** Windows / netsh                                                  *)
(* ------------------------------------------------------------------- *)

Definition win_configureDHCP (adapterName : string) : E unit :=
  must "failed to set DHCP for IP: "
       ["netsh"; "interface"; "ip"; "set"; "address"; adapterName; "dhcp"];;
  must "failed to set DHCP for DNS: "
       ["netsh"; "interface"; "ip"; "set"; "dns"; adapterName; "dhcp"].

(** The loop [for i := 1; i < len(cfg.DNS); i++] from index [i] on. *)
Fixpoint win_addDNS (adapterName : string) (i : nat) (dns : list string) : E unit :=
  match dns with
  | [] => mret tt
  | d :: rest =>
      must ("failed to add DNS " +:+ d +:+ ": ")
           ["netsh"; "interface"; "ip"; "add"; "dns"; adapterName; d;
            "index=" +:+ pretty (i + 1)%nat];;
      win_addDNS adapterName (S i) rest
  end.

Definition win_configureStatic (adapterName : string) (cfg : NetworkConfig) : E unit :=
  match ParseCIDR (Address cfg) with
  | Err err => fail ("invalid address format: " +:+ err)
  | Ok cidr =>
      must "failed to set static IP: "
           ["netsh"; "interface"; "ip"; "set"; "address"; adapterName; "static";
            ip_String cidr; mask_String cidr; Gateway cfg];;
      match DNS cfg with
      | [] => mret tt
      | primary :: others =>
          must "failed to set primary DNS: "
               ["netsh"; "interface"; "ip"; "set"; "dns"; adapterName; "static"; primary];;
          win_addDNS adapterName 1 others
      end
  end.

(** [getPrimaryAdapterName] answers from [net.Interfaces()]; its answer
    is an argument here. *)
Definition win_ConfigureNetwork (getPrimaryAdapterName : result string)
    (cfg : NetworkConfig) : E unit :=
  match getPrimaryAdapterName with
  | Err err => fail ("failed to find network adapter: " +:+ err)
  | Ok adapterName =>
      if DHCP cfg then win_configureDHCP adapterName
      else win_configureStatic adapterName cfg
  end.

(* ------------------------------------------------------------------- *)
(** ** Linux ([internal/client/linux/network.go])

    The appliers for several interfaces take the entries of the map in
    the order the range visits them. *)
(* ------------------------------------------------------------------- *)

Inductive NetworkMethod :=
| NetworkMethodUnknown
| NetworkMethodNetworkManager
| NetworkMethodNetplan
| NetworkMethodIfupdown.

(** The first loop of [getNMConnectionForInterface]: a line whose second
    field is the interface. *)
Fixpoint findByDevice (ifaceName : string) (lines : list string) : option string :=
  match lines with
  | [] => None
  | line :: rest =>
      match Split line ":"%char with
      | name :: device :: _ =>
          if String.eqb device ifaceName then Some name
          else findByDevice ifaceName rest
      | _ => findByDevice ifaceName rest
      end
  end.

(** The second loop: a line whose first field is the interface. *)
Fixpoint findByName (ifaceName : string) (lines : list string) : option string :=
  match lines with
  | [] => None
  | line :: rest =>
      match Split line ":"%char with
      | name :: _ =>
          if String.eqb name ifaceName then Some name
          else findByName ifaceName rest
      | [] => findByName ifaceName rest
      end
  end.

Definition getNMConnectionForInterface (ifaceName : string) : E string :=
  r ← run ["nmcli"; "-t"; "-f"; "NAME,DEVICE"; "connection"; "show"];
  match r.2 with
  | Some err => fail ("failed to list connections: " +:+ err)
  | None =>
      let lines := Split (TrimSpace r.1) (ascii_of_nat 10) in
      match findByDevice ifaceName lines with
      | Some name => mret name
      | None =>
          match findByName ifaceName lines with
          | Some name => mret name
          | None =>
              let connName := "cyber-range-" +:+ ifaceName in
              must "failed to create connection: "
                   ["nmcli"; "connection"; "add"; "type"; "ethernet";
                    "con-name"; connName; "ifname"; ifaceName];;
              mret connName
          end
      end
  end.

(** The loop of [getNMConnectionName]: the first line whose type
    mentions ethernet. *)
Fixpoint findEthernet (lines : list string) : option string :=
  match lines with
  | [] => None
  | line :: rest =>
      match Split line ":"%char with
      | name :: type :: _ =>
          if Contains type "ethernet" then Some name else findEthernet rest
      | _ => findEthernet rest
      end
  end.

Definition getNMConnectionName : E string :=
  r ← run ["nmcli"; "-t"; "-f"; "NAME,TYPE"; "connection"; "show"; "--active"];
  match r.2 with
  | Some err => fail ("failed to list connections: " +:+ err)
  | None =>
      let lines := Split (TrimSpace r.1) (ascii_of_nat 10) in
      match findEthernet lines with
      | Some name => mret name
      | None =>
          match lines with
          | first :: _ =>
              if negb (String.eqb first "") then
                match Split first ":"%char with
                | name :: _ => mret name
                | [] => fail "no active network connection found"
                end
              else fail "no active network connection found"
          | [] => fail "no active network connection found"
          end
      end
  end.

Definition fmt_route (r : Route) : string := To r +:+ " " +:+ Via r.

Definition configureNetworkManager (ifaceName : string) (cfg : NetworkConfig)
  : E unit :=
  connName ←
    (if String.eqb ifaceName "" then
       wrap "failed to find NetworkManager connection: " getNMConnectionName
     else
       wrap ("failed to find connection for " +:+ ifaceName +:+ ": ")
            (getNMConnectionForInterface ifaceName));
  (if DHCP cfg then
     must "nmcli modify failed: "
          ["nmcli"; "connection"; "modify"; connName;
           "ipv4.method"; "auto"; "ipv4.addresses"; "";
           "ipv4.gateway"; ""; "ipv4.dns"; ""]
   else
     match ParseCIDR (Address cfg) with
     | Err err => fail ("invalid address format: " +:+ err)
     | Ok cidr =>
         let address := ip_String cidr +:+ "/" +:+ pretty (mask_ones cidr) in
         let args := ["connection"; "modify"; connName;
                      "ipv4.method"; "manual"; "ipv4.addresses"; address] in
         let args :=
           if negb (String.eqb (Gateway cfg) "")
           then args ++ ["ipv4.gateway"; Gateway cfg] else args in
         let args :=
           if (0 <? List.length (DNS cfg))%nat
           then args ++ ["ipv4.dns"; Join (DNS cfg) ","] else args in
         must "nmcli modify failed: " ("nmcli" :: args)
     end);;
  (if (0 <? List.length (Routes cfg))%nat then
     _ ← run ["nmcli"; "connection"; "modify"; connName; "ipv4.routes"; ""];
     must "nmcli routes failed: "
          ["nmcli"; "connection"; "modify"; connName; "ipv4.routes";
           Join (map fmt_route (Routes cfg)) ", "]
   else mret tt);;
  must "nmcli connection up failed: " ["nmcli"; "connection"; "up"; connName].

Fixpoint configureNetworkManagerAll (networks : list (string * NetworkConfig))
  : E unit :=
  match networks with
  | [] => mret tt
  | (ifaceName, cfg) :: rest =>
      wrap ("failed to configure " +:+ ifaceName +:+ ": ")
           (configureNetworkManager ifaceName cfg);;
      configureNetworkManagerAll rest
  end.

Definition yaml_route (r : Route) : string :=
  "        - to: " +:+ To r +:+ LF +:+ "          via: " +:+ Via r +:+ LF.

Definition yaml_routes (rs : list Route) : string :=
  fold_left (λ content r, content +:+ yaml_route r) rs "".

(** The text [configureNetplanAll] adds for one interface, or the error
    that ends the function. *)
Definition netplanStanza (ifaceName : string) (cfg : NetworkConfig) : result string :=
  let content := "    " +:+ ifaceName +:+ ":" +:+ LF in
  if DHCP cfg then
    let content := content +:+ "      dhcp4: true" +:+ LF in
    Ok (if (0 <? List.length (Routes cfg))%nat
        then content +:+ "      routes:" +:+ LF +:+ yaml_routes (Routes cfg)
        else content)
  else
    let content := content +:+ "      dhcp4: false" +:+ LF in
    let address : result string :=
      if negb (String.eqb (Address cfg) "") then
        match ParseCIDR (Address cfg) with
        | Err err =>
            Err ("invalid address format for " +:+ ifaceName +:+ ": " +:+ err)
        | Ok _ =>
            Ok (content +:+ "      addresses:" +:+ LF
                  +:+ "        - " +:+ Address cfg +:+ LF)
        end
      else Ok content in
    match address with
    | Err e => Err e
    | Ok content =>
        let content :=
          if negb (String.eqb (Gateway cfg) "") || (0 <? List.length (Routes cfg))%nat
          then
            let content := content +:+ "      routes:" +:+ LF in
            let content :=
              if negb (String.eqb (Gateway cfg) "")
              then content +:+ "        - to: default" +:+ LF
                     +:+ "          via: " +:+ Gateway cfg +:+ LF
              else content in
            content +:+ yaml_routes (Routes cfg)
          else content in
        Ok (if (0 <? List.length (DNS cfg))%nat
            then content +:+ "      nameservers:" +:+ LF +:+ "        addresses:" +:+ LF
                   +:+ fold_left (λ c dns, c +:+ "          - " +:+ dns +:+ LF) (DNS cfg) ""
            else content)
    end.

(** The loop that builds the document. *)
Fixpoint netplanDocument (content : string) (networks : list (string * NetworkConfig))
  : result string :=
  match networks with
  | [] => Ok content
  | (ifaceName, cfg) :: rest =>
      match netplanStanza ifaceName cfg with
      | Err e => Err e
      | Ok stanza => netplanDocument (content +:+ stanza) rest
      end
  end.

Definition netplanHeader : string :=
  "# Generated by Cyber Range Configuration Client" +:+ LF
    +:+ "network:" +:+ LF +:+ "  version: 2" +:+ LF +:+ "  ethernets:" +:+ LF.

Definition configureNetplanAll (networks : list (string * NetworkConfig)) : E unit :=
  match netplanDocument netplanHeader networks with
  | Err e => fail e
  | Ok content =>
      werr ← os_WriteFile "/etc/netplan/99-cyber-range.yaml" content 384;
      match werr with
      | Some err => fail ("failed to write netplan config: " +:+ err)
      | None => must "netplan apply failed: " ["netplan"; "apply"]
      end
  end.

Definition ifupdown_routes (rs : list Route) : string :=
  fold_left
    (λ content r,
       content +:+ "    post-up ip route add " +:+ To r +:+ " via " +:+ Via r +:+ LF
               +:+ "    pre-down ip route del " +:+ To r +:+ " via " +:+ Via r +:+ LF)
    rs "".

Definition ifupdownStanza (ifaceName : string) (cfg : NetworkConfig) : result string :=
  let body : result string :=
    if DHCP cfg then
      Ok (LF +:+ "auto " +:+ ifaceName +:+ LF
             +:+ "iface " +:+ ifaceName +:+ " inet dhcp" +:+ LF)
    else
      match ParseCIDR (Address cfg) with
      | Err err =>
          Err ("invalid address format for " +:+ ifaceName +:+ ": " +:+ err)
      | Ok cidr =>
          let content :=
            LF +:+ "auto " +:+ ifaceName +:+ LF
               +:+ "iface " +:+ ifaceName +:+ " inet static" +:+ LF
               +:+ "    address " +:+ ip_String cidr +:+ LF
               +:+ "    netmask " +:+ mask_String cidr +:+ LF in
          let content :=
            if negb (String.eqb (Gateway cfg) "")
            then content +:+ "    gateway " +:+ Gateway cfg +:+ LF else content in
          Ok (if (0 <? List.length (DNS cfg))%nat
              then content +:+ "    dns-nameservers " +:+ Join (DNS cfg) " " +:+ LF
              else content)
      end in
  match body with
  | Err e => Err e
  | Ok content => Ok (content +:+ ifupdown_routes (Routes cfg))
  end.

Fixpoint ifupdownDocument (content : string) (networks : list (string * NetworkConfig))
  : result string :=
  match networks with
  | [] => Ok content
  | (ifaceName, cfg) :: rest =>
      match ifupdownStanza ifaceName cfg with
      | Err e => Err e
      | Ok stanza => ifupdownDocument (content +:+ stanza) rest
      end
  end.

(** The fallback of [configureIfupdownAll]: every interface is taken down
    and up, errors ignored. *)
Fixpoint ifdownup (names : list string) : E unit :=
  match names with
  | [] => mret tt
  | ifaceName :: rest =>
      _ ← run ["ifdown"; ifaceName];
      _ ← run ["ifup"; ifaceName];
      ifdownup rest
  end.

(** [restartOrder] is the order of the second range over the map. *)
Definition configureIfupdownAll (networks : list (string * NetworkConfig))
    (restartOrder : list string) : E unit :=
  match ifupdownDocument ("# Generated by Cyber Range Configuration Client" +:+ LF)
                         networks with
  | Err e => fail e
  | Ok content =>
      merr ← os_MkdirAll "/etc/network/interfaces.d" 493;
      match merr with
      | Some err => fail ("failed to create interfaces.d: " +:+ err)
      | None =>
          werr ← os_WriteFile "/etc/network/interfaces.d/cyber-range" content 420;
          match werr with
          | Some err => fail ("failed to write interfaces config: " +:+ err)
          | None =>
              r ← run ["systemctl"; "restart"; "networking"];
              match r.2 with
              | Some _ => ifdownup restartOrder
              | None => mret tt
              end
          end
      end
  end.

(** [ConfigureAllNetworks], for the method [detectNetworkMethod] found. *)
Definition ConfigureAllNetworks (method : NetworkMethod)
    (networks : list (string * NetworkConfig)) (restartOrder : list string) : E unit :=
  match method with
  | NetworkMethodNetworkManager => configureNetworkManagerAll networks
  | NetworkMethodNetplan => configureNetplanAll networks
  | NetworkMethodIfupdown => configureIfupdownAll networks restartOrder
  | NetworkMethodUnknown => fail "no supported network configuration method found"
  end.

End Appliers.

(* ===================================================================== *)
(** * Package [server]: the legacy single-network parser                  *)
(* ===================================================================== *)

Module ServerLegacy.

(** [parseNetworkConfig]: the first network the range over the map gives,
    or the DHCP default when the range gives none. *)
Definition parseNetworkConfig (yaml_Unmarshal : string → result CloudInitNetwork)
    (range : gmap string NetworkConfig → list (string * NetworkConfig))
    (instance : LXDInstance) : NetworkConfig :=
  match range (Server.parseAllNetworkConfigs yaml_Unmarshal instance) with
  | (_, netCfg) :: _ => netCfg
  | [] => dhcpNetworkConfig
  end.

End ServerLegacy.

(* ===================================================================== *)
(** * The delivery client: startup jitter ([randomDelay])                 *)
(* ===================================================================== *)

Module Startup.

(** A Go [int] or [int64]: 64 bits, two's complement. *)
Definition wrap64 (z : Z) : Z := (z + 2 ^ 63) mod 2 ^ 64 - 2 ^ 63.

(** [rand_Int bound] is [rand.Int(rand.Reader, big.NewInt(bound))]; the
    library panics on a bound that is not positive ([None]).  The fallback
    is [max / 2], rounded towards zero. *)
Definition randomDelay (rand_Int : Z → result Z) (max : Z) : option Z :=
  let bound := wrap64 (max + 1) in
  if (bound <=? 0)%Z then None
  else
    match rand_Int bound with
    | Err _ => Some (Z.quot max 2)
    | Ok n => Some (wrap64 n)
    end.

End Startup.

(* ===================================================================== *)
(** * Choosing the backend and the primary interface                      *)
(* ===================================================================== *)

Section Detection.

Variable host : Host.
Variable net_parseHalves : string → result CIDR.

(** [detectNetworkMethod].  [lookPath] tells whether [exec.LookPath] finds
    a program and [stat] whether [os.Stat] finds a path; [systemctl] is run
    on the host. *)
Definition detectNetworkMethod (lookPath stat : string → bool) : E NetworkMethod :=
  active ←
    (if lookPath "nmcli" then
       r ← run host ["systemctl"; "is-active"; "--quiet"; "NetworkManager"];
       mret (match r.2 with None => true | Some _ => false end)
     else mret false);
  if active : bool then mret NetworkMethodNetworkManager
  else if stat "/etc/netplan" then mret NetworkMethodNetplan
  else if stat "/etc/network/interfaces" then mret NetworkMethodIfupdown
  else mret NetworkMethodUnknown.

(** [ConfigureAllNetworks] of the Linux client as a whole: detection, then
    the applier of the method found. *)
Definition linux_ConfigureAllNetworks (lookPath stat : string → bool)
    (networks : list (string * NetworkConfig)) (restartOrder : list string) : E unit :=
  method ← detectNetworkMethod lookPath stat;
  ConfigureAllNetworks host net_parseHalves method networks restartOrder.

End Detection.

(** An interface that is not the loopback and has a hardware address. *)
Definition usable (iface : Client.Interface) : bool :=
  (Z.land (Client.Flags iface) Client.FlagLoopback =? 0)%Z
  && negb (List.length (Client.HardwareAddr iface) =? 0)%nat.

(** The fallback loop of [getPrimaryInterface] and of
    [getPrimaryAdapterName]: the first usable interface. *)
Fixpoint firstUsable (interfaces : list Client.Interface) : option string :=
  match interfaces with
  | [] => None
  | iface :: rest =>
      if negb (Z.land (Client.Flags iface) Client.FlagLoopback =? 0)%Z then firstUsable rest
      else if (List.length (Client.HardwareAddr iface) =? 0)%nat then firstUsable rest
      else Some (Client.ifName iface)
  end.

(** The first loop of the Linux [getPrimaryInterface]: an interface that is
    usable and up and whose name starts with [eth] or [en]. *)
Fixpoint firstWired (interfaces : list Client.Interface) : option string :=
  match interfaces with
  | [] => None
  | iface :: rest =>
      if negb (Z.land (Client.Flags iface) Client.FlagLoopback =? 0)%Z then firstWired rest
      else if (List.length (Client.HardwareAddr iface) =? 0)%nat then firstWired rest
      else if (Z.land (Client.Flags iface) Client.FlagUp =? 0)%Z then firstWired rest
      else
        let name := Client.ifName iface in
        if HasPrefix name "eth" || HasPrefix name "en" then Some name
        else firstWired rest
  end.

Definition getPrimaryInterface (net_Interfaces : result (list Client.Interface))
  : result string :=
  match net_Interfaces with
  | Err e => Err e
  | Ok interfaces =>
      match firstWired interfaces with
      | Some name => Ok name
      | None =>
          match firstUsable interfaces with
          | Some name => Ok name
          | None => Err "no suitable network interface found"
          end
      end
  end.

(** The first loop of the Windows [getPrimaryAdapterName]: a usable
    interface whose name mentions ethernet or local area. *)
Fixpoint firstEthernet (interfaces : list Client.Interface) : option string :=
  match interfaces with
  | [] => None
  | iface :: rest =>
      if negb (Z.land (Client.Flags iface) Client.FlagLoopback =? 0)%Z then firstEthernet rest
      else if (List.length (Client.HardwareAddr iface) =? 0)%nat then firstEthernet rest
      else
        let name := Client.ifName iface in
        if Contains (ToLower name) "ethernet" || Contains (ToLower name) "local area"
        then Some name
        else firstEthernet rest
  end.

Definition getPrimaryAdapterName (net_Interfaces : result (list Client.Interface))
  : result string :=
  match net_Interfaces with
  | Err e => Err e
  | Ok interfaces =>
      match firstEthernet interfaces with
      | Some name => Ok name
      | None =>
          match firstUsable interfaces with
          | Some name => Ok name
          | None => Err "no suitable network adapter found"
          end
      end
  end.

(* ===================================================================== *)
(** * The server program: cmd/server/main.go                              *)
(* ===================================================================== *)

Module ServerMain.

Record ServerConfig := mkServerConfig {
  Listen : string;
  InstancesFile : string
}.

Section Main.

Variable os_ReadFile : string → result string.
Variable yaml_Unmarshal : string → result ServerConfig.

Definition loadConfig (path : string) : result ServerConfig :=
  match os_ReadFile path with
  | Err e => Err e
  | Ok data =>
      match yaml_Unmarshal data with
      | Err e => Err e
      | Ok cfg =>
          let cfg :=
            if String.eqb (Listen cfg) "" then mkServerConfig ":8080" (InstancesFile cfg)
            else cfg in
          let cfg :=
            if String.eqb (InstancesFile cfg) "" then mkServerConfig (Listen cfg) "instances.json"
            else cfg in
          Ok cfg
      end
  end.

(** The part of [main] that settles the configuration: the file, the
    defaults when it cannot be loaded, the flags, the validation.  [Err]
    is the message of [log.Fatal]. *)
Definition main_config (configPath instancesFile listenAddr : string)
  : result ServerConfig :=
  let cfg :=
    match loadConfig configPath with
    | Ok cfg => cfg
    | Err _ => mkServerConfig ":8080" "instances.json"
    end in
  let cfg :=
    if negb (String.eqb instancesFile "") then mkServerConfig (Listen cfg) instancesFile
    else cfg in
  let cfg :=
    if negb (String.eqb listenAddr "") then mkServerConfig listenAddr (InstancesFile cfg)
    else cfg in
  if String.eqb (InstancesFile cfg) "" then Err "No instances file specified"
  else Ok cfg.

End Main.

(** The idle monitor at a tick of its ticker, at instant [now].  The
    monitor is started only under [if *idleTimeout > 0]: with a timeout of
    zero or less there is no monitor and no tick ([None]).  Durations are
    exact integers. *)
Inductive Tick :=
  | Shutdown
  | KeepRunning (remaining : Z).

Definition idleTick (idleTimeout : Z) (now : Server.Time) (s : Server.Server)
  : option Tick :=
  if (0 <? idleTimeout)%Z then
    let lastActivity := Server.GetLastActivity s in
    let idleTime := (now - lastActivity)%Z in
    if (idleTimeout <=? idleTime)%Z then Some Shutdown
    else Some (KeepRunning (idleTimeout - idleTime)%Z)
  else None.

(** A request as the mux receives it: the instant, the file system at that
    instant, the request. *)
Record Arrival := mkArrival {
  instant : Server.Time;
  disk : string → result string;
  request : Server.Request
}.

Section Serving.

Variable yaml_Unmarshal : string → result CloudInitNetwork.
Variable json_Unmarshal : string → result (list LXDInstance).
Variable json_Encode_fails : ConfigResponse → bool.
Variable mux_unmatched : Server.Request → Server.Response.
Variable range : gmap string NetworkConfig → list (string * NetworkConfig).

Definition serve (a : Arrival) (s : Server.Server) : Server.Server :=
  (Server.ServeHTTP yaml_Unmarshal json_Unmarshal json_Encode_fails mux_unmatched
     (instant a) range (disk a) (request a) s).1.

Definition serveAll (arrivals : list Arrival) (s : Server.Server) : Server.Server :=
  foldl (λ s a, serve a s) s arrivals.

End Serving.

End ServerMain.

(* ===================================================================== *)
(** * Forge: subnet allocations, the command line, the listen address     *)
(* ===================================================================== *)

Module Forge.

Record Allocation := mkAllocation {
  Project : string;
  SubnetOctet : Z;
  AllocatedAt : string
}.

Record SubnetsData := mkSubnetsData {
  Allocations : list Allocation
}.

(** The file [SubnetsFile] as [os.ReadFile] finds it. *)
Inductive File :=
  | Missing
  | Unreadable (err : string)
  | Content (content : string).

(** The [less] handed to [sort.Slice]. *)
Definition less (a b : Allocation) : bool := (SubnetOctet a <? SubnetOctet b)%Z.

Section Subnets.

Variable json_Unmarshal : string → result SubnetsData.
Variable json_MarshalIndent : SubnetsData → result string.
(** [os.WriteFile] on the file as it is: the error, and the file after. *)
Variable os_WriteFile : File → string → option string * File.
(** [sort.Slice], which is not stable. *)
Variable sort_Slice : (Allocation → Allocation → bool) → list Allocation → list Allocation.
(** [time.Now().Format(time.RFC3339)]. *)
Variable now : string.

Definition readSubnetsFile (file : File) : result SubnetsData :=
  match file with
  | Missing => Ok (mkSubnetsData [])
  | Unreadable err => Err ("failed to read subnets file: " +:+ err)
  | Content content =>
      match json_Unmarshal content with
      | Err err => Err ("failed to parse subnets file: " +:+ err)
      | Ok data => Ok data
      end
  end.

Definition writeSubnetsFile (data : SubnetsData) (file : File) : result unit * File :=
  match json_MarshalIndent data with
  | Err err => (Err ("failed to marshal subnets data: " +:+ err), file)
  | Ok content =>
      match os_WriteFile file content with
      | (Some err, file) => (Err ("failed to write subnets file: " +:+ err), file)
      | (None, file) => (Ok tt, file)
      end
  end.

(** The loop over the allocations that returns at the first one of the
    project. *)
Fixpoint findProject (projectName : string) (allocations : list Allocation) : option Z :=
  match allocations with
  | [] => None
  | alloc :: rest =>
      if String.eqb (Project alloc) projectName then Some (SubnetOctet alloc)
      else findProject projectName rest
  end.

Definition GetProjectSubnet (projectName : string) (file : File) : result Z :=
  match readSubnetsFile file with
  | Err err => Err err
  | Ok data =>
      match findProject projectName (Allocations data) with
      | Some octet => Ok octet
      | None => Ok 0%Z
      end
  end.

Definition usedOctets (allocations : list Allocation) : gmap Z bool :=
  foldl (λ used alloc, <[SubnetOctet alloc := true]> used) ∅ allocations.

(** [for nextOctet <= 254 { if !usedOctets[nextOctet] { break }; nextOctet++ }];
    the loop leaves after at most 254 rounds from 1. *)
Fixpoint nextFree (rounds : nat) (used : gmap Z bool) (nextOctet : Z) : Z :=
  match rounds with
  | O => nextOctet
  | S rounds =>
      if (nextOctet <=? 254)%Z then
        if negb (default false (used !! nextOctet)) then nextOctet
        else nextFree rounds used (nextOctet + 1)%Z
      else nextOctet
  end.

Definition AllocateSubnet (projectName : string) (file : File) : result Z * File :=
  match readSubnetsFile file with
  | Err err => (Err err, file)
  | Ok data =>
      match findProject projectName (Allocations data) with
      | Some octet => (Ok octet, file)
      | None =>
          let used := usedOctets (Allocations data) in
          let nextOctet := nextFree 254 used 1 in
          if (254 <? nextOctet)%Z then
            (Err "no available subnet octets (all 1-254 are allocated)", file)
          else
            let allocations :=
              Allocations data ++ [mkAllocation projectName nextOctet now] in
            let data := mkSubnetsData (sort_Slice less allocations) in
            match writeSubnetsFile data file with
            | (Err err, file) => (Err err, file)
            | (Ok _, file) => (Ok nextOctet, file)
            end
      end
  end.

(** The loop of [ReleaseSubnet] on [releasedOctet] and [newAllocations]. *)
Definition release_step (projectName : string) (acc : Z * list Allocation)
    (alloc : Allocation) : Z * list Allocation :=
  if String.eqb (Project alloc) projectName then (SubnetOctet alloc, acc.2)
  else (acc.1, acc.2 ++ [alloc]).

Definition ReleaseSubnet (projectName : string) (file : File) : result Z * File :=
  match readSubnetsFile file with
  | Err err => (Err err, file)
  | Ok data =>
      let '(releasedOctet, newAllocations) :=
        foldl (release_step projectName) (0%Z, []) (Allocations data) in
      if (releasedOctet =? 0)%Z then
        (Err ("no subnet allocation found for project " +:+ projectName), file)
      else
        match writeSubnetsFile (mkSubnetsData newAllocations) file with
        | (Err err, file) => (Err err, file)
        | (Ok _, file) => (Ok releasedOctet, file)
        end
  end.

End Subnets.

(** ** The command line of forge *)

Fixpoint drop_bytes (n : nat) (s : string) : string :=
  match n, s with
  | S n, String _ s' => drop_bytes n s'
  | _, _ => s
  end.

Definition TrimPrefix (s prefix : string) : string :=
  if HasPrefix s prefix then drop_bytes (String.length prefix) s else s.

Definition is_help (arg : string) : bool :=
  String.eqb arg "-help" || String.eqb arg "--help" || String.eqb arg "-h".

Definition is_version (arg : string) : bool :=
  String.eqb arg "-version" || String.eqb arg "--version" || String.eqb arg "-v".

Fixpoint CheckHelp (args : list string) : bool :=
  match args with
  | [] => false
  | arg :: rest => if is_help arg then true else CheckHelp rest
  end.

Record Globals := mkGlobals {
  chdir : string;
  showHelp : bool;
  showVersion : bool;
  command : string;
  commandArgs : list string
}.

Definition noGlobals : Globals := mkGlobals "" false false "" [].

(** The loop of [main] over [os.Args[1:]]. *)
Fixpoint parseArgs (args : list string) (g : Globals) : Globals :=
  match args with
  | [] => g
  | arg :: rest =>
      if HasPrefix arg "-chdir=" then
        parseArgs rest
          (mkGlobals (TrimPrefix arg "-chdir=") (showHelp g) (showVersion g)
                     (command g) (commandArgs g))
      else if is_help arg then
        parseArgs rest
          (mkGlobals (chdir g) true (showVersion g) (command g) (commandArgs g))
      else if is_version arg then
        parseArgs rest
          (mkGlobals (chdir g) (showHelp g) true (command g) (commandArgs g))
      else if String.eqb (command g) "" && negb (HasPrefix arg "-") then
        parseArgs rest
          (mkGlobals (chdir g) (showHelp g) (showVersion g) arg (commandArgs g))
      else
        parseArgs rest
          (mkGlobals (chdir g) (showHelp g) (showVersion g) (command g)
                     (commandArgs g ++ [arg]))
  end.

(** [GetWorkingDir]: [os_Stat] gives whether the path is a directory, or
    the error of [os.Stat]; [os_Getwd] is the result of [os.Getwd]. *)
Definition GetWorkingDir (os_Stat : string → result bool) (os_Getwd : result string)
    (chdir : string) : result string :=
  if negb (String.eqb chdir "") then
    match os_Stat chdir with
    | Err err => Err ("cannot access directory " +:+ chdir +:+ ": " +:+ err)
    | Ok isDir =>
        if negb isDir then Err (chdir +:+ " is not a directory")
        else Ok chdir
    end
  else os_Getwd.

(** The commands that receive the working directory and the arguments. *)
Inductive Subcommand := Init | Validate | Plan | Apply | Destroy.

(** What [main] does with the command line.  [PrintVersion] is the line
    [Forge v1.0.0] with exit status 0, which both the version flag and
    the [version] command produce. *)
Inductive Action :=
  | PrintVersion
  | PrintHelp
  | WorkDirError (msg : string)
  | Run (c : Subcommand) (workDir : string) (commandArgs : list string)
  | Status (workDir : string)
  | UnknownCommand (command : string).

Definition dispatch (command workDir : string) (commandArgs : list string) : Action :=
  if String.eqb command "init" then Run Init workDir commandArgs
  else if String.eqb command "validate" then Run Validate workDir commandArgs
  else if String.eqb command "plan" then Run Plan workDir commandArgs
  else if String.eqb command "apply" then Run Apply workDir commandArgs
  else if String.eqb command "destroy" then Run Destroy workDir commandArgs
  else if String.eqb command "status" then Status workDir
  else if String.eqb command "version" then PrintVersion
  else UnknownCommand command.

Definition main_action (os_Stat : string → result bool) (os_Getwd : result string)
    (args : list string) : Action :=
  let g := parseArgs args noGlobals in
  if showVersion g then PrintVersion
  else if showHelp g || String.eqb (command g) "" || String.eqb (command g) "help"
  then PrintHelp
  else
    match GetWorkingDir os_Stat os_Getwd (chdir g) with
    | Err err => WorkDirError err
    | Ok workDir => dispatch (command g) workDir (commandArgs g)
    end.

(** ** The listen address *)

Definition ParseListenAddress (listen : string) : string * string :=
  if HasPrefix listen ":" then ("", TrimPrefix listen ":")
  else
    match Split listen ":"%char with
    | [ip; port] => (ip, port)
    | _ => (listen, "8080")
    end.

(** [fmt.Sprintf("%s:%s", config.ServerIP, config.ServerPort)] of
    [StartServer]. *)
Definition listenAddr (ServerIP ServerPort : string) : string :=
  ServerIP +:+ ":" +:+ ServerPort.

End Forge.

(* ===================================================================== *)
(** * Definitions used to state the properties                            *)
(* ===================================================================== *)

Fixpoint all_bytes (p : ascii → bool) (s : string) : bool :=
  match s with
  | EmptyString => true
  | String c s' => p c && all_bytes p s'
  end.

(** A byte of a MAC in lower-case colon form: no upper-case letter, no
    hyphen. *)
Definition lower_colon_byte (c : ascii) : bool :=
  negb (is_upper c) && negb (Ascii.eqb c "-"%char).

(** Replacing one byte by another, byte by byte. *)
Definition subst_byte (a b c : ascii) : ascii := if Ascii.eqb a c then b else c.

(** The two spellings of a MAC address [m] a request may carry. *)
Definition upperColonForm (m : string) : string := ToUpper (ReplaceAll m "-" ":").
Definition lowerHyphenForm (m : string) : string := ToLower (ReplaceAll m ":" "-").

(** A request like [r] whose [mac] parameter is [v]. *)
Definition with_mac (r : Server.Request) (v : string) : Server.Request :=
  Server.mkRequest (Server.Method r) (Server.Path r) (<["mac" := [v]]> (Server.Query r)).

(** An instance whose declaration field holds [decl]. *)
Definition declares (inst : LXDInstance) (decl : string) : Prop :=
  map_get (Config inst) "cloud-init.network-config" = decl.

(** A request like [r] sent to the path [p]. *)
Definition at_path (p : string) (r : Server.Request) : Server.Request :=
  Server.mkRequest (Server.Method r) p (Server.Query r).

(** An instance owns a MAC when one of its hardware-address keys holds it,
    up to case. *)
Definition owns (inst : LXDInstance) (mac : string) : Prop :=
  ∃ key value, Config inst !! key = Some value
               ∧ Contains key "hwaddr" = true ∧ EqualFold value mac = true.

(** What reading and decoding the inventory file gives. *)
Definition readInventory (json_Unmarshal : string → result (list LXDInstance))
    (fs : string → result string) (s : Server.Server) : result (list LXDInstance) :=
  match fs (Server.instancesFile s) with
  | Err e => Err e
  | Ok data => json_Unmarshal data
  end.

(** The gateway the parser gives: the declared gateway when it is not
    empty, else the via of the first default route whose via is not empty. *)
Definition usableDefault (r : Route) : bool :=
  Server.isDefaultRoute r && negb (String.eqb (Via r) "").

Definition viaOf (r : option Route) : string :=
  match r with Some r => Via r | None => "" end.

Definition gatewayOf (eth : CloudInitEthernet) : string :=
  if negb (String.eqb (Gateway4 eth) "") then Gateway4 eth
  else viaOf (List.find usableDefault (EthRoutes eth)).

Definition customRoutes (eth : CloudInitEthernet) : list Route :=
  List.filter (λ r, negb (Server.isDefaultRoute r)) (EthRoutes eth).

(** The gateway as the specification words it: the declared gateway when
    present, else the via of the first default route. *)
Definition claimed_gateway (eth : CloudInitEthernet) : string :=
  if negb (String.eqb (Gateway4 eth) "") then Gateway4 eth
  else viaOf (List.find Server.isDefaultRoute (EthRoutes eth)).

(** ** Concrete inputs *)

(** The declaration of section 8 of the specification: one static
    interface with a default route and one extra route. *)
Definition eth_example : CloudInitEthernet :=
  mkCloudInitEthernet false ["10.0.1.10/24"] ""
    [mkRoute "default" "10.0.1.1"; mkRoute "10.0.2.0/24" "10.0.1.5"] ["1.1.1.1"; "8.8.8.8"].

(** A declaration whose first default route names no next hop. *)
Definition eth_two_defaults : CloudInitEthernet :=
  mkCloudInitEthernet false ["10.0.1.10/24"] ""
    [mkRoute "default" ""; mkRoute "0.0.0.0/0" "10.0.1.1"; mkRoute "10.0.2.0/24" "10.0.1.5"] [].

Definition inst_example : LXDInstance :=
  mkLXDInstance "team1-win10"
    (<["volatile.eth-0.hwaddr" := "00:16:3e:4f:e5:74"]>
       (<["cloud-init.network-config" := "version: 2"]> ∅)).

Definition inst_dhcp : LXDInstance :=
  mkLXDInstance "team1-kali"
    (<["volatile.eth0.hwaddr" := "00:16:3e:aa:bb:cc"]>
       (<["cloud-init.network-config" := "  dhcp "]> ∅)).

Definition yaml_example (_ : string) : result CloudInitNetwork :=
  Ok (mkCloudInitNetwork 2 (<["eth-0" := eth_example]> ∅)).

Definition server_example : Server.Server :=
  Server.mkServer "instances.json" [inst_example] 0%Z.

(** A file system with a readable inventory at [instances.json] and
    nothing else, and a decoder that accepts the text [valid]. *)
Definition fs_example (path : string) : result string :=
  if String.eqb path "instances.json" then Ok "valid" else Err "no such file".

Definition json_example (data : string) : result (list LXDInstance) :=
  if String.eqb data "valid" then Ok [inst_dhcp] else Err "unexpected end of JSON input".

Definition fs_broken (path : string) : result string :=
  if String.eqb path "instances.json" then Ok "{" else Err "no such file".

Definition status_request : Server.Request := Server.mkRequest "GET" "/status" ∅.
Definition config_request : Server.Request := Server.mkRequest "GET" "/config" ∅.

(** Interfaces of a host: the loopback, then a wired adapter that is up. *)
Definition interfaces_example : list Client.Interface :=
  [ Client.mkInterface "lo" 5 [];
    Client.mkInterface "eth0" 3
      [Byte.x00; Byte.x16; Byte.x3e; Byte.x4f; Byte.xe5; Byte.x74] ].

Definition InterfaceByName_example (name : string) : result Client.Interface :=
  if String.eqb name "eth1"
  then Ok (Client.mkInterface "eth1" 3
             [Byte.x00; Byte.x16; Byte.x3e; Byte.xaa; Byte.xbb; Byte.xcc])
  else Err "no such network interface".

(** A network on which the first call fails in transport, the second is
    answered 503 and the third is answered 200. *)
Definition net_third_time (k : nat) (serverURL mac : string) : Delivery.HttpOutcome :=
  match k with
  | 0 => Delivery.TransportError "connection refused"
  | 1 => Delivery.HttpResponse 503 "starting"
  | _ => Delivery.HttpResponse 200 "{}"
  end.

(** A network that never answers. *)
Definition net_down (k : nat) (serverURL mac : string) : Delivery.HttpOutcome :=
  Delivery.TransportError "connection refused".

Definition cfg_example : ConfigResponse :=
  mkConfigResponse "team1-win10" dhcpNetworkConfig ∅.

Definition decode_example (body : string) : result ConfigResponse := Ok cfg_example.

Definition url_ok (serverURL : string) : option string := None.

(** A decimal digit. *)
Definition is_digit (c : ascii) : bool :=
  (48 <=? N_of_ascii c)%N && (N_of_ascii c <=? 57)%N.

(** The fallback rule on a suffix. *)
Definition uciFallback (suffix : string) : string :=
  if String.eqb suffix "0" then "wan"
  else if String.eqb suffix "1" then "lan"
  else "lan" +:+ suffix.

(** ** Hosts and batches for the appliers *)

(** A host on which every command and every file operation succeeds,
    with no output. *)
Definition host_ok : Host := λ _ _, ("", None).


(** A host on which every [uci set] fails. *)
Definition host_uci_set_fails : Host := λ _ e,
  match e with
  | Exec ("uci" :: "set" :: _) => ("uci: Invalid argument", Some "exit status 1")
  | _ => ("", None)
  end.

(** The parser of the two halves of a CIDR, on the addresses used below. *)
Definition parseHalves_example (s : string) : result CIDR :=
  if String.eqb s "192.168.1.15/24" then Ok (mkCIDR "192.168.1.15" "255.255.255.0" 24)
  else Err ("invalid CIDR address: " +:+ s).



(** An interface declared with neither DHCP nor an address. *)
Definition unset_example : NetworkConfig := mkNetworkConfig false "" "" [] [].

Definition batch_dhcp : list (string * NetworkConfig) :=
  [("eth0", dhcpNetworkConfig); ("eth1", dhcpNetworkConfig)].


(** A computation only adds to the trace. *)
Definition extends {A} (m : E A) : Prop := ∀ h, ∃ t, (m h).2 = h ++ t.

(** Every hardware-address value of the instance is written with a
    hyphen. *)
Definition hyphenated (inst : LXDInstance) : bool :=
  forallb (λ kv, negb (Contains kv.1 "hwaddr") || Contains kv.2 "-")
          (map_to_list (Config inst)).

(** An instance whose MAC is stored in hyphen form. *)
Definition inst_hyphen : LXDInstance :=
  mkLXDInstance "team1-router"
    (<["volatile.eth0.hwaddr" := "00-16-3e-11-22-33"]> ∅).

(** The primary network and the networks of a configuration body. *)
Definition body_config (b : Server.Body) : option ConfigResponse :=
  match b with Server.ConfigJSON r => Some r | _ => None end.

(** The interfaces [GetPrimaryMAC] accepts: not the loopback, with a
    hardware address, and up. *)
Definition eligible (iface : Client.Interface) : bool :=
  (Z.land (Client.Flags iface) Client.FlagLoopback =? 0)%Z
  && negb (List.length (Client.HardwareAddr iface) =? 0)%nat
  && negb (Z.land (Client.Flags iface) Client.FlagUp =? 0)%Z.

(** A source of random numbers that gives the largest number allowed. *)
Definition rand_largest (bound : Z) : result Z := Ok (bound - 1)%Z.

(** The interfaces the Netplan applier accepts: DHCP, no address, or an
    address that parses; and those the ifupdown applier accepts. *)
Definition netplan_valid (net_parseHalves : string → result CIDR) (cfg : NetworkConfig) : bool :=
  DHCP cfg || String.eqb (Address cfg) "" || is_ok (ParseCIDR net_parseHalves (Address cfg)).

Definition ifupdown_valid (net_parseHalves : string → result CIDR) (cfg : NetworkConfig) : bool :=
  DHCP cfg || is_ok (ParseCIDR net_parseHalves (Address cfg)).

Definition is_Exec (e : Effect) : bool :=
  match e with Exec _ => true | _ => false end.

(** A computation that only runs commands. *)
Definition only_runs {A} (m : E A) : Prop :=
  ∀ h, ∃ t, (m h).2 = h ++ t ∧ Forall (λ e, is_Exec e = true) t.

(** A host on which restarting the networking service fails. *)
Definition host_restart_fails : Host := λ _ e,
  match e with
  | Exec ["systemctl"; "restart"; "networking"] => ("", Some "exit status 1")
  | _ => ("", None)
  end.

(** A host with NetworkManager and a Netplan directory. *)
Definition lookPath_nmcli (file : string) : bool := String.eqb file "nmcli".
Definition stat_netplan (path : string) : bool := String.eqb path "/etc/netplan".

(** A wireless adapter that is up, then a wired one that is down. *)
Definition interfaces_wifi_first : list Client.Interface :=
  [ Client.mkInterface "lo" 5 [];
    Client.mkInterface "wlan0" 3 [Byte.x02; Byte.x00; Byte.x00; Byte.x00; Byte.x00; Byte.x01];
    Client.mkInterface "eth0" 2 [Byte.x00; Byte.x16; Byte.x3e; Byte.x4f; Byte.xe5; Byte.x74] ].

(** Names the Linux client prefers, and names the Windows client prefers. *)
Definition wiredName (name : string) : bool :=
  HasPrefix name "eth" || HasPrefix name "en".

Definition ethernetName (name : string) : bool :=
  Contains (ToLower name) "ethernet" || Contains (ToLower name) "local area".

(** The octets and the projects of a table of allocations. *)
Definition octets (allocations : list Forge.Allocation) : list Z :=
  Forge.SubnetOctet <$> allocations.

Definition projects (allocations : list Forge.Allocation) : list string :=
  Forge.Project <$> allocations.

(** The entries of a project, and the others. *)
Definition entriesOf (projectName : string) (allocations : list Forge.Allocation)
  : list Forge.Allocation :=
  List.filter (λ a, String.eqb (Forge.Project a) projectName) allocations.

Definition entriesNotOf (projectName : string) (allocations : list Forge.Allocation)
  : list Forge.Allocation :=
  List.filter (λ a, negb (String.eqb (Forge.Project a) projectName)) allocations.

Definition lastOctet (allocations : list Forge.Allocation) : Z :=
  default 0%Z (last (octets allocations)).

(** A write that succeeds stores the content; what is marshalled is read
    back; sorting permutes. *)
Definition write_stores (os_WriteFile : Forge.File → string → option string * Forge.File)
  : Prop :=
  ∀ file content, (os_WriteFile file content).1 = None →
                  (os_WriteFile file content).2 = Forge.Content content.

Definition reads_back (json_Unmarshal : string → result Forge.SubnetsData)
    (json_MarshalIndent : Forge.SubnetsData → result string) : Prop :=
  ∀ data content, json_MarshalIndent data = Ok content → json_Unmarshal content = Ok data.

Definition sort_permutes
    (sort_Slice : (Forge.Allocation → Forge.Allocation → bool) →
                  list Forge.Allocation → list Forge.Allocation) : Prop :=
  ∀ less l, sort_Slice less l ≡ₚ l.

(** A table with the octets 1, 2 and 4 taken, and pieces of a host that
    holds it: a sort by insertion, a disk that accepts every write, and a
    codec that knows the contents of two files. *)
Definition table_example : list Forge.Allocation :=
  [ Forge.mkAllocation "alpha" 1 "2025-01-01T00:00:00Z";
    Forge.mkAllocation "beta" 2 "2025-01-02T00:00:00Z";
    Forge.mkAllocation "delta" 4 "2025-01-04T00:00:00Z" ].

Definition table_after : list Forge.Allocation :=
  [ Forge.mkAllocation "alpha" 1 "2025-01-01T00:00:00Z";
    Forge.mkAllocation "beta" 2 "2025-01-02T00:00:00Z";
    Forge.mkAllocation "gamma" 3 "2025-01-05T00:00:00Z";
    Forge.mkAllocation "delta" 4 "2025-01-04T00:00:00Z" ].

Fixpoint insert_sorted (less : Forge.Allocation → Forge.Allocation → bool)
    (a : Forge.Allocation) (l : list Forge.Allocation) : list Forge.Allocation :=
  match l with
  | [] => [a]
  | b :: rest => if less b a then b :: insert_sorted less a rest else a :: l
  end.

Definition sort_example (less : Forge.Allocation → Forge.Allocation → bool)
    (l : list Forge.Allocation) : list Forge.Allocation :=
  foldr (insert_sorted less) [] l.

Definition disk_example (file : Forge.File) (content : string)
  : option string * Forge.File :=
  (None, Forge.Content content).

Definition allocation_eqb (a b : Forge.Allocation) : bool :=
  String.eqb (Forge.Project a) (Forge.Project b)
  && (Forge.SubnetOctet a =? Forge.SubnetOctet b)%Z
  && String.eqb (Forge.AllocatedAt a) (Forge.AllocatedAt b).

Fixpoint table_eqb (l1 l2 : list Forge.Allocation) : bool :=
  match l1, l2 with
  | [], [] => true
  | a :: l1, b :: l2 => allocation_eqb a b && table_eqb l1 l2
  | _, _ => false
  end.

Definition marshal_example (data : Forge.SubnetsData) : result string :=
  if table_eqb (Forge.Allocations data) table_example then Ok "before"
  else if table_eqb (Forge.Allocations data) table_after then Ok "after"
  else Err "unsupported value".

Definition unmarshal_example (content : string) : result Forge.SubnetsData :=
  if String.eqb content "before" then Ok (Forge.mkSubnetsData table_example)
  else if String.eqb content "after" then Ok (Forge.mkSubnetsData table_after)
  else Err "unexpected end of JSON input".

(** The number of bytes [c] in a string. *)
Fixpoint count_byte (c : ascii) (s : string) : nat :=
  match s with
  | EmptyString => 0
  | String b s' => (if Ascii.eqb b c then 1 else 0) + count_byte c s'
  end.

(** A MAC of a record as the claim on reloading counts it: a value that
    the record stores under a hardware-address key, as written in the
    inventory file. *)
Definition storesMAC (inst : LXDInstance) (mac : string) : bool :=
  existsb (λ kv, Contains kv.1 "hwaddr" && String.eqb kv.2 mac)
          (map_to_list (Config inst)).

(** A decoder that gives the record stored in hyphen form. *)
Definition json_hyphen (data : string) : result (list LXDInstance) :=
  if String.eqb data "valid" then Ok [inst_hyphen] else Err "unexpected end of JSON input".

Ltac by_bytes c := destruct c as [[] [] [] [] [] [] [] []]; vm_compute; reflexivity.

(* ===================================================================== *)
(** * Facts about the string functions                                    *)
(* ===================================================================== *)

Section StringFacts.

Lemma lower_byte_idem c : lower_byte (lower_byte c) = lower_byte c.
Proof. by_bytes c. Qed.

Lemma lower_upper_byte c : lower_byte (upper_byte c) = lower_byte c.
Proof. by_bytes c. Qed.

Lemma upper_lower_byte c : upper_byte (lower_byte c) = upper_byte c.
Proof. by_bytes c. Qed.

Lemma is_space_upper_byte c : is_space (upper_byte c) = is_space c.
Proof. by_bytes c. Qed.

Lemma lower_byte_lower_colon c : lower_colon_byte c = true → lower_byte c = c.
Proof.
  unfold lower_colon_byte, lower_byte.
  destruct (is_upper c); [discriminate | reflexivity].
Qed.

Lemma map_bytes_map_bytes f g s :
  map_bytes f (map_bytes g s) = map_bytes (λ c, f (g c)) s.
Proof. induction s as [|c s IH]; simpl; [reflexivity | by rewrite IH]. Qed.

Lemma map_bytes_ext f g s :
  (∀ c, f c = g c) → map_bytes f s = map_bytes g s.
Proof. intros H. induction s as [|c s IH]; simpl; [reflexivity | by rewrite H, IH]. Qed.

Lemma map_bytes_id_on (p : ascii → bool) f s :
  (∀ c, p c = true → f c = c) → all_bytes p s = true → map_bytes f s = s.
Proof.
  intros H. induction s as [|c s IH]; simpl; [reflexivity |].
  intros [Hc Hs]%andb_prop. by rewrite (H c Hc), (IH Hs).
Qed.

Lemma map_bytes_empty f s : map_bytes f s = "" ↔ s = "".
Proof. destruct s; simpl; split; congruence. Qed.

Lemma all_bytes_map_bytes p f s :
  (∀ c, p (f c) = true) → all_bytes p (map_bytes f s) = true.
Proof. intros H. induction s as [|c s IH]; simpl; [reflexivity | by rewrite H, IH]. Qed.

Lemma HasPrefix_empty s : HasPrefix s "" = true.
Proof. by destruct s. Qed.

Lemma ReplaceAll_byte s a b :
  ReplaceAll s (String a "") (String b "") = map_bytes (subst_byte a b) s.
Proof.
  unfold ReplaceAll. induction s as [|c s IH]; simpl; [reflexivity |].
  unfold subst_byte at 1. destruct (Ascii.eqb a c); simpl.
  - by rewrite HasPrefix_empty, IH.
  - by rewrite IH.
Qed.

Lemma ToLower_idem s : ToLower (ToLower s) = ToLower s.
Proof.
  unfold ToLower. rewrite map_bytes_map_bytes.
  apply map_bytes_ext, lower_byte_idem.
Qed.

Lemma ToUpper_ToLower s : ToUpper (ToLower s) = ToUpper s.
Proof.
  unfold ToLower, ToUpper. rewrite map_bytes_map_bytes.
  apply map_bytes_ext, upper_lower_byte.
Qed.

Lemma EqualFold_ToLower s t : EqualFold s t = true ↔ ToLower s = ToLower t.
Proof.
  revert t. induction s as [|a s IH]; intros [|b t]; simpl;
    try (split; [discriminate | discriminate]); [done |].
  rewrite andb_true_iff, IH. unfold ToLower. split.
  - intros [Hab Hst]. apply Ascii.eqb_eq in Hab. simpl. by rewrite Hab, Hst.
  - simpl. intros [= Hab Hst]. split; [by apply Ascii.eqb_eq | done].
Qed.

Lemma EqualFold_refl s : EqualFold s s = true.
Proof. by apply EqualFold_ToLower. Qed.

Lemma TrimLeft_ToUpper s : TrimLeft (ToUpper s) = ToUpper (TrimLeft s).
Proof.
  induction s as [|c s IH]; simpl; [reflexivity |].
  rewrite is_space_upper_byte. destruct (is_space c); [apply IH | reflexivity].
Qed.

Lemma TrimRight_ToUpper s : TrimRight (ToUpper s) = ToUpper (TrimRight s).
Proof.
  induction s as [|c s IH]; simpl; [reflexivity |].
  unfold ToUpper in IH. rewrite IH, is_space_upper_byte.
  destruct (TrimRight s); simpl; [destruct (is_space c) |]; reflexivity.
Qed.

Lemma TrimSpace_ToUpper s : TrimSpace (ToUpper s) = ToUpper (TrimSpace s).
Proof. unfold TrimSpace. by rewrite TrimLeft_ToUpper, TrimRight_ToUpper. Qed.

End StringFacts.

(* ===================================================================== *)
(** * The server                                                          *)
(* ===================================================================== *)

Section ServerFacts.

Import Server.

Variable yaml_Unmarshal : string → result CloudInitNetwork.
Variable json_Unmarshal : string → result (list LXDInstance).
Variable json_Encode_fails : ConfigResponse → bool.
Variable mux_unmatched : Request → Response.

(** ** Normalization *)

Lemma normalizeMAC_bytes m :
  normalizeMAC m = map_bytes (λ c, lower_byte (subst_byte "-" ":" c)) m.
Proof.
  unfold normalizeMAC, ToLower. change "-" with (String "-"%char "").
  change ":" with (String ":"%char ""). by rewrite ReplaceAll_byte, map_bytes_map_bytes.
Qed.

Lemma normalizeMAC_upperColonForm m : normalizeMAC (upperColonForm m) = normalizeMAC m.
Proof.
  unfold upperColonForm, ToUpper. change "-" with (String "-"%char "").
  change ":" with (String ":"%char "").
  rewrite ReplaceAll_byte, !normalizeMAC_bytes, !map_bytes_map_bytes.
  apply map_bytes_ext. intros c. by_bytes c.
Qed.

Lemma normalizeMAC_lowerHyphenForm m : normalizeMAC (lowerHyphenForm m) = normalizeMAC m.
Proof.
  unfold lowerHyphenForm, ToLower. change "-" with (String "-"%char "").
  change ":" with (String ":"%char "").
  rewrite ReplaceAll_byte, !normalizeMAC_bytes, !map_bytes_map_bytes.
  apply map_bytes_ext. intros c. by_bytes c.
Qed.

Lemma normalizeMAC_lower_colon m : all_bytes lower_colon_byte (normalizeMAC m) = true.
Proof.
  rewrite normalizeMAC_bytes. apply all_bytes_map_bytes. intros c. by_bytes c.
Qed.

Lemma normalizeMAC_fixed m :
  all_bytes lower_colon_byte m = true → normalizeMAC m = m.
Proof.
  intros H. rewrite normalizeMAC_bytes.
  apply (map_bytes_id_on lower_colon_byte); [| done].
  intros c Hc. revert Hc. destruct c as [[] [] [] [] [] [] [] []]; vm_compute; congruence.
Qed.

Lemma upperColonForm_empty m : String.eqb (upperColonForm m) "" = String.eqb m "".
Proof.
  unfold upperColonForm. change "-" with (String "-"%char "").
  change ":" with (String ":"%char ""). rewrite ReplaceAll_byte. by destruct m.
Qed.

Lemma lowerHyphenForm_empty m : String.eqb (lowerHyphenForm m) "" = String.eqb m "".
Proof.
  unfold lowerHyphenForm. change "-" with (String "-"%char "").
  change ":" with (String ":"%char ""). rewrite ReplaceAll_byte. by destruct m.
Qed.

Lemma Query_Get_with_mac r v : Query_Get (Query (with_mac r v)) "mac" = v.
Proof. unfold Query_Get, with_mac. simpl. by rewrite lookup_insert_eq. Qed.

(** ** Matching *)

Lemma hasMAC_owns inst mac : hasMAC inst mac = true ↔ owns inst mac.
Proof.
  unfold hasMAC, owns. rewrite existsb_exists. split.
  - intros [[k v] [Hin [Hk Hv]%andb_prop]].
    exists k, v. split; [| done].
    by apply elem_of_map_to_list, list_elem_of_In.
  - intros (k & v & Hl & Hk & Hv). exists (k, v). split.
    + by apply list_elem_of_In, elem_of_map_to_list.
    + simpl. by rewrite Hk, Hv.
Qed.

Lemma findInstanceByMAC_in_Some insts mac inst :
  findInstanceByMAC_in insts mac = Some inst → inst ∈ insts ∧ owns inst mac.
Proof.
  induction insts as [|i insts IH]; simpl; [discriminate |].
  destruct (hasMAC i mac) eqn:Hi.
  - intros [= <-]. split; [left | by apply hasMAC_owns].
  - intros [Hin Ho]%IH. split; [by right | done].
Qed.

Lemma findInstanceByMAC_in_is_Some insts mac :
  is_Some (findInstanceByMAC_in insts mac) ↔ ∃ inst, inst ∈ insts ∧ owns inst mac.
Proof.
  split.
  - intros [inst H]. exists inst. by apply findInstanceByMAC_in_Some.
  - intros (inst & Hin & Ho). induction insts as [|i insts IH]; simpl.
    + by apply elem_of_nil in Hin.
    + destruct (hasMAC i mac) eqn:Hi; [by eexists |].
      apply elem_of_cons in Hin as [-> | Hin]; [| by apply IH].
      apply hasMAC_owns in Ho. congruence.
Qed.

(** C3: the upper-case colon spelling and the lower-case hyphen spelling
    of a MAC address, a string of ASCII bytes, are normalized to the same
    lower-case colon string, so they find the same instance (or both none)
    in every inventory and [HandleConfig] answers both requests alike. *)
Theorem mac_matching_ignores_case_and_separator
    (s : Server) (m : string) (now : Time)
    (range : gmap string NetworkConfig → list (string * NetworkConfig))
    (r : Request) :
  is_ascii m = true →
  normalizeMAC "00:16:3E:4F:E5:74" = "00:16:3e:4f:e5:74"
  ∧ normalizeMAC "00-16-3e-4f-e5-74" = "00:16:3e:4f:e5:74"
  ∧ normalizeMAC (upperColonForm m) = normalizeMAC (lowerHyphenForm m)
  ∧ all_bytes lower_colon_byte (normalizeMAC (upperColonForm m)) = true
  ∧ findInstanceByMAC s (normalizeMAC (upperColonForm m))
    = findInstanceByMAC s (normalizeMAC (lowerHyphenForm m))
  ∧ HandleConfig yaml_Unmarshal json_Encode_fails now range
      (with_mac r (upperColonForm m)) s
    = HandleConfig yaml_Unmarshal json_Encode_fails now range
        (with_mac r (lowerHyphenForm m)) s.
Proof.
  intros _.
  assert (Heq : normalizeMAC (upperColonForm m) = normalizeMAC (lowerHyphenForm m))
    by (by rewrite normalizeMAC_upperColonForm, normalizeMAC_lowerHyphenForm).
  repeat split.
  - exact Heq.
  - apply normalizeMAC_lower_colon.
  - by rewrite Heq.
  - unfold HandleConfig. rewrite !Query_Get_with_mac. simpl.
    rewrite upperColonForm_empty, lowerHyphenForm_empty, Heq. reflexivity.
Qed.

(** ** The parser *)

Lemma fold_processRoute routes nc :
  let nc' := fold_left processRoute routes nc in
  DHCP nc' = DHCP nc ∧ Address nc' = Address nc ∧ DNS nc' = DNS nc
  ∧ Routes nc' = Routes nc ++ List.filter (λ r, negb (isDefaultRoute r)) routes
  ∧ Gateway nc' = if String.eqb (Gateway nc) ""
                  then viaOf (List.find usableDefault routes) else Gateway nc.
Proof.
  revert nc. induction routes as [|r routes IH]; intros nc; simpl.
  - rewrite app_nil_r. repeat split. by destruct (String.eqb_spec (Gateway nc) "").
  - destruct (IH (processRoute nc r)) as (HD & HA & HN & HR & HG).
    rewrite HD, HA, HN, HR, HG. clear HD HA HN HR HG IH.
    unfold processRoute, usableDefault.
    destruct (isDefaultRoute r); simpl.
    + destruct (String.eqb_spec (Gateway nc) "") as [Hg | Hg]; simpl.
      * repeat split. destruct (String.eqb_spec (Via r) ""); simpl; [| done].
        reflexivity.
      * repeat split. by destruct (String.eqb_spec (Gateway nc) "").
    + repeat split. by rewrite <- app_assoc.
Qed.

Lemma parseEthernet_fields eth :
  DHCP (parseEthernet eth) = DHCP4 eth
  ∧ Address (parseEthernet eth) = hd "" (Addresses eth)
  ∧ Gateway (parseEthernet eth) = gatewayOf eth
  ∧ Routes (parseEthernet eth) = customRoutes eth
  ∧ DNS (parseEthernet eth) = NameserverAddresses eth.
Proof.
  unfold parseEthernet, gatewayOf, customRoutes.
  match goal with |- context [fold_left processRoute ?rs ?nc] =>
    destruct (fold_processRoute rs nc) as (HD & HA & _ & HR & HG) end.
  simpl. rewrite HD, HA, HR, HG. clear HD HA HR HG.
  destruct (Addresses eth) as [|a ?], (String.eqb_spec (Gateway4 eth) "") as [-> | Hg];
    simpl; repeat split; try reflexivity;
    by destruct (String.eqb_spec (Gateway4 eth) "").
Qed.

(** C1: every declared interface of a structured declaration gives a
    NetworkConfig whose gateway is the declared gateway when that field
    is not empty, else the via of the first default route that names a
    next hop; whose routes are the declared routes that are not default
    routes, in declared order; and whose DNS list is the declared
    nameserver list.  No route to [default] or [0.0.0.0/0] is kept. *)
Theorem parse_gateway_routes_dns
    (instance : LXDInstance) (cloudInit : CloudInitNetwork)
    (ifaceName : string) (eth : CloudInitEthernet) :
  let decl := map_get (Config instance) "cloud-init.network-config" in
  TrimSpace (ToUpper decl) ≠ "DHCP" →
  yaml_Unmarshal decl = Ok cloudInit →
  Ethernets cloudInit !! ifaceName = Some eth →
  ∃ netConfig,
    parseAllNetworkConfigs yaml_Unmarshal instance !! ifaceName = Some netConfig
    ∧ DHCP netConfig = DHCP4 eth
    ∧ Address netConfig = hd "" (Addresses eth)
    ∧ Gateway netConfig = gatewayOf eth
    ∧ Routes netConfig = customRoutes eth
    ∧ Forall (λ r, isDefaultRoute r = false) (Routes netConfig)
    ∧ DNS netConfig = NameserverAddresses eth.
Proof.
  intros decl Hdhcp Hyaml Heth. exists (parseEthernet eth).
  destruct (parseEthernet_fields eth) as (HD & HA & HG & HR & HN).
  repeat split; try done.
  - unfold parseAllNetworkConfigs. fold decl.
    destruct (String.eqb_spec (TrimSpace (ToUpper decl)) "DHCP"); [done |].
    by rewrite Hyaml, lookup_fmap, Heth.
  - rewrite HR. unfold customRoutes. apply Forall_forall.
    intros r Hr%list_elem_of_In. apply filter_In in Hr as [_ Hr].
    by destruct (isDefaultRoute r).
Qed.

(** With an empty map the response of [HandleConfig] carries the DHCP
    default as its primary network. *)
Lemma HandleConfig_dhcp_default now range r s instance :
  Method r = "GET" → Query_Get (Query r) "mac" ≠ "" →
  findInstanceByMAC s (normalizeMAC (Query_Get (Query r) "mac")) = Some instance →
  parseAllNetworkConfigs yaml_Unmarshal instance = ∅ →
  json_Encode_fails (mkConfigResponse (Name instance) dhcpNetworkConfig ∅) = false →
  (HandleConfig yaml_Unmarshal json_Encode_fails now range r s).2
  = mkResponse StatusOK (ConfigJSON (mkConfigResponse (Name instance) dhcpNetworkConfig ∅)).
Proof.
  intros Hm Hq Hf Hp He. unfold HandleConfig. rewrite Hm. simpl.
  destruct (String.eqb_spec (Query_Get (Query r) "mac") ""); [done |].
  unfold findInstanceByMAC in *. simpl. rewrite Hf, Hp. simpl.
  rewrite map_size_empty. simpl. by rewrite He.
Qed.

(** C9: a declaration whose trimmed value is DHCP up to case gives the
    empty interface map; [HandleConfig] then answers a request that
    resolves to the instance with the DHCP default (no address, no
    gateway, no DNS) as primary network and an empty map of networks. *)
Theorem dhcp_declaration_gives_empty_map (instance : LXDInstance) :
  EqualFold (TrimSpace (map_get (Config instance) "cloud-init.network-config")) "DHCP"
    = true →
  parseAllNetworkConfigs yaml_Unmarshal instance = ∅
  ∧ ∀ now range r s,
      Method r = "GET" → Query_Get (Query r) "mac" ≠ "" →
      findInstanceByMAC s (normalizeMAC (Query_Get (Query r) "mac")) = Some instance →
      json_Encode_fails (mkConfigResponse (Name instance) dhcpNetworkConfig ∅) = false →
      (HandleConfig yaml_Unmarshal json_Encode_fails now range r s).2
      = mkResponse StatusOK
          (ConfigJSON (mkConfigResponse (Name instance) (mkNetworkConfig true "" "" [] []) ∅)).
Proof.
  intros H%EqualFold_ToLower.
  assert (Hempty : parseAllNetworkConfigs yaml_Unmarshal instance = ∅).
  { unfold parseAllNetworkConfigs.
    rewrite TrimSpace_ToUpper, <- ToUpper_ToLower, H. reflexivity. }
  split; [exact Hempty |].
  intros now range r s Hm Hq Hf He. by apply HandleConfig_dhcp_default.
Qed.

(** ** Reload *)

Lemma Contains_byte s a :
  Contains s (String a "") = negb (all_bytes (λ c, negb (Ascii.eqb a c)) s).
Proof.
  induction s as [|c s IH]; [done |].
  cbn [Contains HasPrefix all_bytes]. rewrite HasPrefix_empty, IH, andb_true_r.
  by destruct (Ascii.eqb a c).
Qed.

Lemma EqualFold_lower_colon v n :
  EqualFold v n = true → all_bytes lower_colon_byte n = true →
  all_bytes (λ c, negb (Ascii.eqb "-" c)) v = true.
Proof.
  revert n. induction v as [|a v IH]; intros [|b n]; cbn [EqualFold all_bytes]; try done.
  intros [Hab Hvn]%andb_prop [Hb Hn]%andb_prop.
  rewrite (IH n Hvn Hn), andb_true_r. apply Ascii.eqb_eq in Hab.
  clear -Hab Hb. destruct (Ascii.eqb_spec "-" a) as [<- | ?]; [| done].
  exfalso. revert Hab Hb.
  destruct b as [[] [] [] [] [] [] [] []]; vm_compute; congruence.
Qed.

Lemma hyphenated_not_owned inst m :
  hyphenated inst = true → ¬ owns inst (normalizeMAC m).
Proof.
  intros Hh (k & v & Hl & Hk & Hv).
  unfold hyphenated in Hh. rewrite forallb_forall in Hh.
  specialize (Hh (k, v)). simpl in Hh. rewrite Hk in Hh. simpl in Hh.
  assert (Hin : In (k, v) (map_to_list (Config inst)))
    by (by apply list_elem_of_In, elem_of_map_to_list).
  specialize (Hh Hin). change "-" with (String "-"%char "") in Hh.
  rewrite Contains_byte in Hh.
  by rewrite (EqualFold_lower_colon v _ Hv (normalizeMAC_lower_colon m)) in Hh.
Qed.

Lemma colon_form_normalized v :
  Contains v "-" = false → EqualFold v (normalizeMAC v) = true.
Proof.
  change "-" with (String "-"%char ""). rewrite Contains_byte, negb_false_iff.
  rewrite normalizeMAC_bytes.
  induction v as [|c v IH]; [done |]. cbn [all_bytes map_bytes EqualFold].
  intros [Hc Hv]%andb_prop. rewrite (IH Hv), andb_true_r.
  unfold subst_byte. apply negb_true_iff in Hc. rewrite Hc.
  by rewrite lower_byte_idem, Ascii.eqb_refl.
Qed.

(** The answer of [HandleConfig] to a GET with a MAC, from the lookup. *)
Lemma HandleConfig_GET now range r s :
  Method r = "GET" → Query_Get (Query r) "mac" ≠ "" →
  let resp := (HandleConfig yaml_Unmarshal json_Encode_fails now range r s).2 in
  match findInstanceByMAC s (normalizeMAC (Query_Get (Query r) "mac")) with
  | None => resp = http_Error "Instance not found" StatusNotFound
  | Some inst =>
      resp = http_Error "Internal server error" StatusInternalServerError
      ∨ ∃ cfg, resp = mkResponse StatusOK (ConfigJSON cfg) ∧ Hostname cfg = Name inst
  end.
Proof.
  intros Hm Hq. unfold HandleConfig. rewrite Hm. simpl.
  destruct (String.eqb_spec (Query_Get (Query r) "mac") ""); [done |].
  unfold findInstanceByMAC. cbn [instances updateActivity].
  destruct (findInstanceByMAC_in (instances s) _) as [inst |]; [| done].
  destruct (json_Encode_fails _); [by left |]. right. by eexists.
Qed.

(** C2: when the inventory file is unreadable or malformed, [Reload]
    returns an error and leaves the server as it was, so every MAC and
    every request resolves as before.  When the file decodes to the
    records [recs], [Reload] succeeds and the snapshot is [recs]; a
    request MAC is then resolved exactly when a record of [recs] stores,
    under a hardware-address key, a value equal up to case to the
    normalized request MAC.  The stored values are not normalized: a value
    of ASCII bytes without hyphen is resolved, and a record that stores
    its hardware addresses with hyphens is never resolved. *)
Theorem Reload_all_or_nothing (fs : string → result string) (s : Server) :
  (is_ok (readInventory json_Unmarshal fs s) = false →
     (∃ e, Reload json_Unmarshal fs s = (s, Some e))
     ∧ (∀ mac, findInstanceByMAC (Reload json_Unmarshal fs s).1 mac
               = findInstanceByMAC s mac)
     ∧ ∀ now range r,
         (HandleConfig yaml_Unmarshal json_Encode_fails now range r
            (Reload json_Unmarshal fs s).1).2
         = (HandleConfig yaml_Unmarshal json_Encode_fails now range r s).2)
  ∧ (∀ recs, readInventory json_Unmarshal fs s = Ok recs →
       let s' := (Reload json_Unmarshal fs s).1 in
       (Reload json_Unmarshal fs s).2 = None
       ∧ instances s' = recs
       ∧ (∀ now range r,
            Method r = "GET" → Query_Get (Query r) "mac" ≠ "" →
            let mac := normalizeMAC (Query_Get (Query r) "mac") in
            let resp := (HandleConfig yaml_Unmarshal json_Encode_fails now range r s').2 in
            (resp = http_Error "Instance not found" StatusNotFound
             ↔ ¬ ∃ inst, inst ∈ recs ∧ owns inst mac)
            ∧ (∀ cfg, resp = mkResponse StatusOK (ConfigJSON cfg) →
                 ∃ inst, inst ∈ recs ∧ owns inst mac ∧ Hostname cfg = Name inst))
       ∧ (∀ inst key v,
            inst ∈ recs → Config inst !! key = Some v → Contains key "hwaddr" = true →
            is_ascii v = true → Contains v "-" = false →
            owns inst (normalizeMAC v)
            ∧ is_Some (findInstanceByMAC s' (normalizeMAC v)))
       ∧ (∀ inst m,
            hyphenated inst = true →
            findInstanceByMAC s' (normalizeMAC m) ≠ Some inst)).
Proof.
  split.
  - unfold readInventory, Reload, loadInstances.
    destruct (fs (instancesFile s)) as [data | e]; [| by eauto].
    destruct (json_Unmarshal data) as [insts | e]; [discriminate | by eauto].
  - intros recs Hread s'.
    assert (Hs' : Reload json_Unmarshal fs s
                  = (mkServer (instancesFile s) recs (lastActivity s), None)).
    { unfold readInventory in Hread. unfold Reload, loadInstances.
      destruct (fs (instancesFile s)) as [data | e]; [| discriminate]. by rewrite Hread. }
    subst s'. rewrite Hs'. cbn [fst snd].
    set (s' := mkServer (instancesFile s) recs (lastActivity s)).
    split; [done |]. split; [done |]. split; [| split].
    + intros now range r Hm Hq.
      pose proof (HandleConfig_GET now range r s' Hm Hq) as Hresp. cbv zeta in Hresp.
      set (mac := normalizeMAC (Query_Get (Query r) "mac")) in *.
      set (resp := (HandleConfig yaml_Unmarshal json_Encode_fails now range r s').2) in *.
      pose proof (findInstanceByMAC_in_is_Some recs mac) as Hsome.
      unfold findInstanceByMAC in Hresp. cbn [instances s'] in Hresp.
      destruct (findInstanceByMAC_in recs mac) as [inst |] eqn:Hf.
      * apply findInstanceByMAC_in_Some in Hf as [Hin Ho]. split.
        -- split.
           ++ intros H404 _. rewrite H404 in Hresp.
              by destruct Hresp as [H500 | (cfg & H200 & _)].
           ++ intros Hno. destruct Hno. by exists inst.
        -- intros cfg H200. rewrite H200 in Hresp.
           destruct Hresp as [H500 | (cfg' & [= ->] & Hname)]; [done |]. by exists inst.
      * split.
        -- split; [| done]. intros _ Hex. apply Hsome in Hex. by destruct Hex.
        -- intros cfg H200. rewrite Hresp in H200. discriminate.
    + intros inst key v Hin Hl Hk _ Hv.
      assert (Ho : owns inst (normalizeMAC v)).
      { exists key, v. split; [done |]. split; [done |]. by apply colon_form_normalized. }
      split; [done |]. apply findInstanceByMAC_in_is_Some. by exists inst.
    + intros inst m Hh Hf. apply findInstanceByMAC_in_Some in Hf as [_ Ho].
      by apply (hyphenated_not_owned inst m).
Qed.

(** ** Activity *)

(** C5: every request to [/config] and to [/reload] records the current
    time as [lastActivity], whatever its method and parameters and
    whatever the answer; a request to [/status] leaves the server,
    and so [lastActivity], as it was. *)
Theorem activity_recorded_by_config_and_reload
    (now : Time) (range : gmap string NetworkConfig → list (string * NetworkConfig))
    (fs : string → result string) (r : Request) (s : Server) :
  let serve := ServeHTTP yaml_Unmarshal json_Unmarshal json_Encode_fails mux_unmatched
                 now range fs in
  lastActivity (serve (at_path "/config" r) s).1 = now
  ∧ lastActivity (serve (at_path "/reload" r) s).1 = now
  ∧ (serve (at_path "/status" r) s).1 = s.
Proof.
  unfold ServeHTTP. simpl. repeat split.
  - unfold HandleConfig. simpl.
    destruct (negb _); [done |]. destruct (String.eqb _ ""); [done |].
    destruct (findInstanceByMAC _ _); [| done].
    by destruct (json_Encode_fails _).
  - unfold HandleReload, Reload, loadInstances. simpl.
    destruct (negb _); [done |].
    destruct (fs _) as [data | e]; [| done].
    by destruct (json_Unmarshal data).
  - unfold HandleStatus. simpl. by destruct (negb _).
Qed.

End ServerFacts.

(** The reload endpoint on a file that cannot be loaded: status 500, and
    the snapshot is the one from before. *)
Lemma HandleReload_failure_keeps_snapshot
    (json_Unmarshal : string → result (list LXDInstance))
    (now : Server.Time) (fs : string → result string)
    (r : Server.Request) (s : Server.Server) :
  Server.Method r = "POST" →
  is_ok (readInventory json_Unmarshal fs s) = false →
  Server.Status (Server.HandleReload json_Unmarshal now fs r s).2
    = Server.StatusInternalServerError
  ∧ Server.instances (Server.HandleReload json_Unmarshal now fs r s).1 = Server.instances s.
Proof.
  intros Hm Hbad. unfold Server.HandleReload, Server.Reload, Server.loadInstances, readInventory in *.
  rewrite Hm. simpl.
  destruct (fs (Server.instancesFile s)) as [data | e]; [| done].
  by destruct (json_Unmarshal data).
Qed.

(** The declaration of section 8 of the specification. *)
Example parse_example :
  Server.parseAllNetworkConfigs yaml_example inst_example !! "eth-0"
  = Some (mkNetworkConfig false "10.0.1.10/24" "10.0.1.1" ["1.1.1.1"; "8.8.8.8"]
            [mkRoute "10.0.2.0/24" "10.0.1.5"]).
Proof. vm_compute. reflexivity. Qed.

Lemma parse_gateway_routes_dns_witness :
  ∃ netConfig,
    Server.parseAllNetworkConfigs yaml_example inst_example !! "eth-0" = Some netConfig
    ∧ DHCP netConfig = false
    ∧ Address netConfig = "10.0.1.10/24"
    ∧ Gateway netConfig = "10.0.1.1"
    ∧ Routes netConfig = [mkRoute "10.0.2.0/24" "10.0.1.5"]
    ∧ Forall (λ r, Server.isDefaultRoute r = false) (Routes netConfig)
    ∧ DNS netConfig = ["1.1.1.1"; "8.8.8.8"].
Proof.
  apply (parse_gateway_routes_dns yaml_example inst_example
           (mkCloudInitNetwork 2 (<["eth-0" := eth_example]> ∅)) "eth-0" eth_example).
  - vm_compute. discriminate.
  - reflexivity.
  - reflexivity.
Defined.

(** On a declaration whose first default route names no next hop, the
    gateway is taken from the second default route, not from the first. *)
Lemma parse_gateway_counterexample :
  Gateway (Server.parseEthernet eth_two_defaults) = "10.0.1.1"
  ∧ claimed_gateway eth_two_defaults = ""
  ∧ Gateway (Server.parseEthernet eth_two_defaults) ≠ claimed_gateway eth_two_defaults
  ∧ Routes (Server.parseEthernet eth_two_defaults) = [mkRoute "10.0.2.0/24" "10.0.1.5"].
Proof. vm_compute. repeat split. discriminate. Qed.

Lemma dhcp_declaration_witness :
  EqualFold (TrimSpace (map_get (Config inst_dhcp) "cloud-init.network-config")) "DHCP" = true
  ∧ Server.parseAllNetworkConfigs yaml_example inst_dhcp = ∅
  ∧ (Server.HandleConfig yaml_example (λ _, false) 0%Z map_to_list
       (with_mac config_request "00-16-3E-AA-BB-CC")
       (Server.mkServer "instances.json" [inst_example; inst_dhcp] 0%Z)).2
    = Server.mkResponse 200 (Server.ConfigJSON (mkConfigResponse "team1-kali" dhcpNetworkConfig ∅)).
Proof.
  split; [reflexivity |].
  destruct (dhcp_declaration_gives_empty_map yaml_example (λ _, false) inst_dhcp eq_refl)
    as [Hempty Hresp].
  split; [exact Hempty |].
  apply Hresp; [reflexivity | vm_compute; discriminate | vm_compute; reflexivity | reflexivity].
Defined.

Lemma Reload_all_or_nothing_witness :
  (Server.Reload json_example fs_broken server_example).1 = server_example
  ∧ Server.instances (Server.Reload json_example fs_example server_example).1 = [inst_dhcp]
  ∧ is_Some (Server.findInstanceByMAC
               (Server.Reload json_example fs_example server_example).1
               (Server.normalizeMAC "00:16:3e:aa:bb:cc")).
Proof.
  split; [| split].
  - destruct (Reload_all_or_nothing yaml_example json_example (λ _, false)
                fs_broken server_example) as [Hfail _].
    destruct (Hfail eq_refl) as [[e He] _]. by rewrite He.
  - destruct (Reload_all_or_nothing yaml_example json_example (λ _, false)
                fs_example server_example) as [_ Hok].
    by destruct (Hok [inst_dhcp] eq_refl) as (_ & Hinsts & _).
  - destruct (Reload_all_or_nothing yaml_example json_example (λ _, false)
                fs_example server_example) as [_ Hok].
    destruct (Hok [inst_dhcp] eq_refl) as (_ & _ & _ & Hcolon & _).
    apply (Hcolon inst_dhcp "volatile.eth0.hwaddr" "00:16:3e:aa:bb:cc");
      [left | reflexivity | reflexivity | reflexivity | reflexivity].
Defined.

(** A valid inventory whose one record stores its hardware address with
    hyphens: the reload succeeds and holds the record, the address is one
    the record stores, and a request for it, in either spelling, is
    answered not found. *)
Lemma reloaded_hyphen_record_is_not_resolvable :
  (Server.Reload json_hyphen fs_example server_example).2 = None
  ∧ Server.instances (Server.Reload json_hyphen fs_example server_example).1 = [inst_hyphen]
  ∧ storesMAC inst_hyphen "00-16-3e-11-22-33" = true
  ∧ (Server.HandleConfig yaml_example (λ _, false) 5%Z map_to_list
       (with_mac config_request "00-16-3e-11-22-33")
       (Server.Reload json_hyphen fs_example server_example).1).2
    = Server.http_Error "Instance not found" Server.StatusNotFound
  ∧ (Server.HandleConfig yaml_example (λ _, false) 5%Z map_to_list
       (with_mac config_request "00:16:3E:11:22:33")
       (Server.Reload json_hyphen fs_example server_example).1).2
    = Server.http_Error "Instance not found" Server.StatusNotFound.
Proof. vm_compute. repeat split. Qed.

Lemma mac_matching_ignores_case_and_separator_witness :
  is_ascii "00:16:3E:4F:E5:74" = true
  ∧ Server.normalizeMAC (upperColonForm "00:16:3E:4F:E5:74")
    = Server.normalizeMAC (lowerHyphenForm "00:16:3E:4F:E5:74")
  ∧ Server.HandleConfig yaml_example (λ _, false) 5%Z map_to_list
      (with_mac config_request (upperColonForm "00:16:3E:4F:E5:74")) server_example
    = Server.HandleConfig yaml_example (λ _, false) 5%Z map_to_list
        (with_mac config_request (lowerHyphenForm "00:16:3E:4F:E5:74")) server_example.
Proof.
  split; [reflexivity |].
  destruct (mac_matching_ignores_case_and_separator yaml_example (λ _, false)
              server_example "00:16:3E:4F:E5:74" 5%Z map_to_list config_request eq_refl)
    as (_ & _ & Heq & _ & _ & Hresp).
  split; [exact Heq | exact Hresp].
Defined.

(** A status query at instant 100 on a server last active at instant 0
    leaves [lastActivity] at 0. *)
Lemma status_does_not_record_activity :
  Server.lastActivity (Server.HandleStatus 100%Z status_request server_example).1 ≠ 100%Z.
Proof. vm_compute. discriminate. Qed.

(* ===================================================================== *)
(** * Local MAC discovery                                                 *)
(* ===================================================================== *)

Section ClientFacts.

Import Client.

Lemma hexDigit_at_lower_colon n : lower_colon_byte (hexDigit_at n) = true.
Proof.
  unfold hexDigit_at. generalize (N.to_nat n). intros k.
  do 16 (destruct k as [|k]; [reflexivity |]). reflexivity.
Qed.

Lemma hw_tail_lower_colon a : all_bytes lower_colon_byte (hw_tail a) = true.
Proof.
  induction a as [|b a IH]; [reflexivity |].
  cbn [hw_tail hex_of_byte all_bytes].
  by rewrite !hexDigit_at_lower_colon, IH.
Qed.

Lemma HardwareAddr_String_lower_colon a :
  all_bytes lower_colon_byte (HardwareAddr_String a) = true.
Proof.
  destruct a as [|b a]; [reflexivity |].
  cbn [HardwareAddr_String hex_of_byte all_bytes].
  by rewrite !hexDigit_at_lower_colon, hw_tail_lower_colon.
Qed.

Lemma ToLower_lower_colon s :
  all_bytes lower_colon_byte s = true → ToLower s = s.
Proof. apply map_bytes_id_on, lower_byte_lower_colon. Qed.

(** What the client sends is the text of [HardwareAddr.String] itself. *)
Lemma ToLower_HardwareAddr_String a :
  ToLower (HardwareAddr_String a) = HardwareAddr_String a.
Proof. apply ToLower_lower_colon, HardwareAddr_String_lower_colon. Qed.

Lemma firstValidMAC_lower_colon interfaces mac :
  firstValidMAC interfaces = Ok mac → all_bytes lower_colon_byte mac = true.
Proof.
  induction interfaces as [|iface rest IH]; simpl; [discriminate |].
  repeat (match goal with |- context [if ?b then _ else _] => destruct b end; [done |]).
  match goal with |- context [if ?b then _ else _] => destruct b end; [| done].
  intros [= <-]. rewrite ToLower_HardwareAddr_String.
  apply HardwareAddr_String_lower_colon.
Qed.

(** C10: a MAC address found by [GetPrimaryMAC] or [GetMACByName] is in
    lower-case colon form and is a fixed point of the normalization of
    the server. *)
Theorem discovered_mac_is_normalized :
  (∀ net_Interfaces mac,
     GetPrimaryMAC net_Interfaces = Ok mac →
     all_bytes lower_colon_byte mac = true ∧ Server.normalizeMAC mac = mac)
  ∧ (∀ net_InterfaceByName name mac,
       GetMACByName net_InterfaceByName name = Ok mac →
       all_bytes lower_colon_byte mac = true ∧ Server.normalizeMAC mac = mac).
Proof.
  assert (Hfix : ∀ mac, all_bytes lower_colon_byte mac = true →
                        all_bytes lower_colon_byte mac = true
                        ∧ Server.normalizeMAC mac = mac)
    by (intros mac H; split; [done | by apply normalizeMAC_fixed]).
  split.
  - intros [interfaces | e] mac; simpl; [| discriminate].
    intros H. by apply Hfix, (firstValidMAC_lower_colon interfaces).
  - intros lookup name mac. unfold GetMACByName.
    destruct (lookup name) as [iface | e]; [| discriminate].
    destruct (_ =? _)%nat; [discriminate |].
    intros [= <-]. apply Hfix. rewrite ToLower_HardwareAddr_String.
    apply HardwareAddr_String_lower_colon.
Qed.

End ClientFacts.

Lemma discovered_mac_is_normalized_witness :
  Client.GetPrimaryMAC (Ok interfaces_example) = Ok "00:16:3e:4f:e5:74"
  ∧ Server.normalizeMAC "00:16:3e:4f:e5:74" = "00:16:3e:4f:e5:74"
  ∧ Client.GetMACByName InterfaceByName_example "eth1" = Ok "00:16:3e:aa:bb:cc"
  ∧ Server.normalizeMAC "00:16:3e:aa:bb:cc" = "00:16:3e:aa:bb:cc".
Proof.
  destruct discovered_mac_is_normalized as [Hprimary Hbyname].
  split; [reflexivity |]. split.
  - apply (Hprimary (Ok interfaces_example)). reflexivity.
  - split; [reflexivity |].
    apply (Hbyname InterfaceByName_example "eth1"). reflexivity.
Defined.

(* ===================================================================== *)
(** * The retry loop of the delivery client                               *)
(* ===================================================================== *)

Section DeliveryFacts.

Import Delivery.

Variable url_Parse_error : string → option string.
Variable json_Decode : string → result ConfigResponse.
Variable net : nat → string → string → HttpOutcome.
Variables serverURL mac : string.

Local Abbreviation requestConfig := (requestConfig url_Parse_error json_Decode net serverURL mac).
Local Abbreviation attempt := (attempt url_Parse_error json_Decode net serverURL mac).
Local Abbreviation firstSuccess := (firstSuccess url_Parse_error json_Decode net serverURL mac).

Local Abbreviation in_step := (in_step url_Parse_error serverURL).

Lemma requestConfig_attempt c :
  in_step c →
  (requestConfig c).2 = attempt (attempts c)
  ∧ attempts (requestConfig c).1 = S (attempts c)
  ∧ sleeps (requestConfig c).1 = sleeps c
  ∧ in_step (requestConfig c).1.
Proof.
  unfold Delivery.in_step, Delivery.attempt, Delivery.requestConfig. intros Hc.
  destruct (url_Parse_error serverURL) as [e |]; simpl; [done |].
  rewrite (Hc eq_refl).
  destruct (net _ _ _) as [e | status body]; simpl; [by auto |].
  destruct (negb _); simpl; [by auto |].
  destruct (json_Decode body); simpl; by auto.
Qed.

Lemma transport_error_is_failure c e :
  net (httpCalls c) serverURL mac = TransportError e →
  is_ok (requestConfig c).2 = false.
Proof.
  intros H. unfold Delivery.requestConfig.
  destruct (url_Parse_error serverURL); simpl; [done |]. by rewrite H.
Qed.

Lemma non_2xx_is_failure c status body :
  net (httpCalls c) serverURL mac = HttpResponse status body →
  ¬ (200 ≤ status < 300)%Z →
  is_ok (requestConfig c).2 = false.
Proof.
  intros H Hs. unfold Delivery.requestConfig.
  destruct (url_Parse_error serverURL); simpl; [done |]. rewrite H.
  unfold StatusOK. destruct (Z.eqb_spec status 200) as [-> | _]; [lia | done].
Qed.

Lemma repeat_snoc (d : Z) k : repeat d k ++ [d] = repeat d (S k).
Proof. induction k as [|k IH]; simpl; [done | by rewrite IH]. Qed.

Lemma retryLoop_firstSuccess maxRetries d n :
  ∀ k lastErr c,
    attempts c = k → sleeps c = repeat d (k - 1) → in_step c →
    let r := retryLoop url_Parse_error json_Decode net serverURL mac
               maxRetries d n (Z.of_nat k) lastErr c in
    match firstSuccess n k with
    | Some (j, cfg) =>
        r.2 = Ok cfg ∧ attempts r.1 = S j ∧ sleeps r.1 = repeat d j
    | None =>
        is_ok r.2 = false ∧ attempts r.1 = k + n ∧ sleeps r.1 = repeat d (k + n - 1)
    end.
Proof.
  induction n as [|n IH]; intros k lastErr c Hk Hs Hc; cbn [retryLoop Delivery.firstSuccess].
  - cbn zeta. simpl. rewrite Hk, Hs. repeat split; f_equal; lia.
  - set (c1 := if (0 <? Z.of_nat k)%Z then time_Sleep d c else c).
    assert (Hk1 : attempts c1 = k) by (subst c1; by destruct (0 <? _)%Z).
    assert (Hc1 : in_step c1) by (subst c1; by destruct (0 <? _)%Z).
    assert (Hs1 : sleeps c1 = repeat d k).
    { subst c1. destruct (Z.ltb_spec 0 (Z.of_nat k)); simpl; rewrite Hs.
      - destruct k as [|k]; [lia |]. simpl. rewrite Nat.sub_0_r. apply repeat_snoc.
      - by replace k with 0 by lia. }
    destruct (requestConfig_attempt c1 Hc1) as (Hr & Ha & Hsl & Hin).
    rewrite Hk1 in Hr, Ha. rewrite Hs1 in Hsl.
    destruct (requestConfig c1) as [c2 [cfg | e]] eqn:Hreq; simpl in Hr, Ha, Hsl, Hin.
    + rewrite <- Hr. simpl. by rewrite Ha, Hsl.
    + rewrite <- Hr. cbn zeta.
      replace (Z.of_nat k + 1)%Z with (Z.of_nat (S k)) by lia.
      specialize (IH (S k) (Some e) c2 Ha).
      rewrite Hsl in IH. simpl in IH. rewrite Nat.sub_0_r in IH.
      specialize (IH eq_refl Hin).
      destruct (firstSuccess n (S k)) as [[j cfg] |]; [exact IH |].
      replace (k + S n) with (S (k + n)) by lia. exact IH.
Qed.

Lemma firstSuccess_first n :
  ∀ k j cfg,
    k ≤ j < k + n → attempt j = Ok cfg →
    (∀ i, k ≤ i < j → is_ok (attempt i) = false) →
    firstSuccess n k = Some (j, cfg).
Proof.
  induction n as [|n IH]; intros k j cfg Hj Hok Hfail; simpl; [lia |].
  destruct (decide (j = k)) as [-> | Hne].
  - by rewrite Hok.
  - specialize (Hfail k ltac:(lia)) as Hk.
    destruct (attempt k); [discriminate |].
    apply IH; [lia | done |]. intros i Hi. apply Hfail. lia.
Qed.

Lemma firstSuccess_none n :
  ∀ k, (∀ i, k ≤ i < k + n → is_ok (attempt i) = false) → firstSuccess n k = None.
Proof.
  induction n as [|n IH]; intros k Hfail; simpl; [done |].
  specialize (Hfail k ltac:(lia)) as Hk.
  destruct (attempt k); [discriminate |].
  apply IH. intros i Hi. apply Hfail. lia.
Qed.

Lemma firstSuccess_bound n :
  ∀ k j cfg, firstSuccess n k = Some (j, cfg) → k ≤ j < k + n.
Proof.
  induction n as [|n IH]; intros k j cfg; simpl; [discriminate |].
  destruct (attempt k).
  - intros [= <- _]. lia.
  - intros H%IH. lia.
Qed.

(** C7: with the budget of 10 attempts and the delay of 15 seconds of
    [main], the fetch loop makes at most 10 attempts and sleeps exactly
    15 seconds between two attempts; it returns the configuration of the
    first attempt that succeeds and stops there; a transport error and a
    status outside 2xx make an attempt fail; and when all 10 attempts
    fail the loop returns an error and [main] exits with status 1. *)
Theorem fetch_loop_bounded_retry :
  let run := requestConfigWithRetry url_Parse_error json_Decode net
               serverURL mac 10 (15 * Second) fresh in
  let exit := (main_fetch url_Parse_error json_Decode net serverURL mac fresh).2 in
  (attempts run.1 ≤ 10)%nat
  ∧ sleeps run.1 = repeat (15 * Second)%Z (attempts run.1 - 1)
  ∧ (∀ j cfg,
       j < 10 → attempt j = Ok cfg →
       (∀ i, i < j → is_ok (attempt i) = false) →
       run.2 = Ok cfg ∧ attempts run.1 = S j ∧ exit = Fetched cfg)
  ∧ ((∀ j, j < 10 → is_ok (attempt j) = false) →
     is_ok run.2 = false ∧ attempts run.1 = 10 ∧ exit = Exit 1 ∧ (1 ≠ 0)%Z)
  ∧ (∀ c e, net (httpCalls c) serverURL mac = TransportError e →
            is_ok (requestConfig c).2 = false)
  ∧ (∀ c status body,
       net (httpCalls c) serverURL mac = HttpResponse status body →
       ¬ (200 ≤ status < 300)%Z → is_ok (requestConfig c).2 = false).
Proof.
  intros run exit.
  pose proof (retryLoop_firstSuccess 10 (15 * Second)%Z 10 0 None fresh
                eq_refl eq_refl (λ _, eq_refl)) as Hrun.
  change (retryLoop _ _ _ _ _ _ _ _ _ _ _) with run in Hrun.
  assert (Hexit : exit = match run.2 with Err _ => Exit 1 | Ok cfg => Fetched cfg end).
  { subst exit run. unfold main_fetch. by destruct (requestConfigWithRetry _ _ _ _ _ _ _ _) as [? []]. }
  cbv zeta in Hrun. split; [| split; [| split; [| split; [| split]]]].
  - destruct (firstSuccess 10 0) as [[j cfg] |] eqn:Hfs.
    + apply firstSuccess_bound in Hfs. destruct Hrun as (_ & -> & _). lia.
    + destruct Hrun as (_ & -> & _). lia.
  - destruct (firstSuccess 10 0) as [[j cfg] |] eqn:Hfs.
    + destruct Hrun as (_ & -> & ->). simpl. by rewrite Nat.sub_0_r.
    + by destruct Hrun as (_ & -> & ->).
  - intros j cfg Hj Hok Hfail.
    rewrite (firstSuccess_first 10 0 j cfg) in Hrun;
      [| lia | done | intros i Hi; apply Hfail; lia].
    destruct Hrun as (Hr & Ha & _). rewrite Hexit, Hr. by repeat split.
  - intros Hfail.
    rewrite (firstSuccess_none 10 0) in Hrun by (intros i Hi; apply Hfail; lia).
    destruct Hrun as (Hr & Ha & _). rewrite Hexit. repeat split; try done.
    by destruct run.2.
  - apply transport_error_is_failure.
  - apply non_2xx_is_failure.
Qed.

End DeliveryFacts.

Lemma fetch_loop_bounded_retry_witness :
  (Delivery.requestConfigWithRetry url_ok decode_example net_third_time
     "http://server:8080" "00:16:3e:4f:e5:74" 10 (15 * Delivery.Second) Delivery.fresh).2
  = Ok cfg_example
  ∧ (Delivery.main_fetch url_ok decode_example net_down
       "http://server:8080" "00:16:3e:4f:e5:74" Delivery.fresh).2 = Delivery.Exit 1.
Proof.
  split.
  - destruct (fetch_loop_bounded_retry url_ok decode_example net_third_time
                "http://server:8080" "00:16:3e:4f:e5:74") as (_ & _ & Hfirst & _).
    apply (Hfirst 2 cfg_example); [lia | reflexivity |].
    intros [|[|i]] Hi; [reflexivity | reflexivity | lia].
  - destruct (fetch_loop_bounded_retry url_ok decode_example net_down
                "http://server:8080" "00:16:3e:4f:e5:74") as (_ & _ & _ & Hnone & _).
    apply Hnone. intros j _. reflexivity.
Defined.

(* ===================================================================== *)
(** * The OpenWrt interface names                                         *)
(* ===================================================================== *)

Section OpenWrtNamesFacts.

Import OpenWrtNames.

(** The table is exactly its eight entries. *)
Lemma MapInterfaceName_table :
  MapInterfaceName "eth0" = "wan" ∧ MapInterfaceName "eth-0" = "wan"
  ∧ MapInterfaceName "eth1" = "lan" ∧ MapInterfaceName "eth-1" = "lan"
  ∧ MapInterfaceName "eth2" = "lan2" ∧ MapInterfaceName "eth-2" = "lan2"
  ∧ MapInterfaceName "eth3" = "lan3" ∧ MapInterfaceName "eth-3" = "lan3".
Proof. vm_compute. repeat split. Qed.

Lemma InterfaceMapping_lookup k :
  InterfaceMapping !! k =
    if String.eqb k "eth0" then Some "wan" else if String.eqb k "eth-0" then Some "wan"
    else if String.eqb k "eth1" then Some "lan" else if String.eqb k "eth-1" then Some "lan"
    else if String.eqb k "eth2" then Some "lan2" else if String.eqb k "eth-2" then Some "lan2"
    else if String.eqb k "eth3" then Some "lan3" else if String.eqb k "eth-3" then Some "lan3"
    else None.
Proof.
  repeat match goal with
         | |- context [String.eqb k ?x] =>
             destruct (String.eqb_spec k x) as [-> | ?]; [vm_compute; reflexivity |]
         end.
  unfold InterfaceMapping. simpl. by rewrite !lookup_insert_ne, lookup_empty.
Qed.

(** A table entry agrees with the fallback rule on its suffix. *)
Lemma MapInterfaceName_fallback name :
  MapInterfaceName name =
    match InterfaceMapping !! name with
    | Some uciName => uciName
    | None => uciFallback (ReplaceAll (ReplaceAll (ToLower name) "eth-" "") "eth" "")
    end.
Proof. reflexivity. Qed.

#[local] Arguments String.append !_ _ / : simpl nomatch.

Lemma replace_from_absent a old new s :
  all_bytes (λ c, negb (Ascii.eqb a c)) s = true →
  replace_from (String a old) new 0 s = s.
Proof.
  induction s as [|c s IH]; simpl; [done |].
  intros [Hc Hs]%andb_prop.
  destruct (Ascii.eqb a c); [done |]. simpl. by rewrite IH.
Qed.

Lemma digits_have_no_e d :
  all_bytes is_digit d = true →
  all_bytes (λ c, negb (Ascii.eqb "e" c)) d = true ∧ ToLower d = d.
Proof.
  induction d as [|c d IH]; [done |]. cbn [all_bytes].
  intros [Hc Hd]%andb_prop. destruct (IH Hd) as [He Hl]. split.
  - rewrite He, andb_true_r. clear -Hc. revert Hc.
    destruct c as [[] [] [] [] [] [] [] []]; vm_compute; done.
  - unfold ToLower in *. cbn [map_bytes]. rewrite Hl. f_equal. clear -Hc. revert Hc.
    destruct c as [[] [] [] [] [] [] [] []]; vm_compute; done.
Qed.

(** On [eth<N>] and [eth-<N>] with a decimal [N] the mapping is the rule
    of the table and of the fallback: wan for 0, lan for 1, lan<N>
    otherwise. *)
Lemma MapInterfaceName_eth_digits d :
  all_bytes is_digit d = true →
  MapInterfaceName ("eth" +:+ d) = uciFallback d
  ∧ MapInterfaceName ("eth-" +:+ d) = uciFallback d.
Proof.
  intros Hd. destruct d as [|c d]; [by vm_compute |].
  cbn [all_bytes] in Hd. apply andb_prop in Hd as [Hc Hd].
  destruct (digits_have_no_e d Hd) as [He Hl].
  assert (Hrep : ∀ old, replace_from (String "e" old) "" 0 d = d)
    by (intros old; by apply replace_from_absent).
  rewrite !MapInterfaceName_fallback, !InterfaceMapping_lookup.
  change ("eth" +:+ String c d) with (String "e" (String "t" (String "h" (String c d)))).
  change ("eth-" +:+ String c d)
    with (String "e" (String "t" (String "h" (String "-" (String c d))))).
  unfold ToLower, ReplaceAll, uciFallback in *.
  destruct c as [[] [] [] [] [] [] [] []]; try (vm_compute in Hc; discriminate Hc); clear Hc.
  all: cbn [map_bytes]; rewrite Hl;
    repeat match goal with
           | |- context [lower_byte ?x] =>
               let v := eval vm_compute in (lower_byte x) in change (lower_byte x) with v
           end;
    cbn; rewrite !Hrep.
  all: cbn; rewrite ?Hrep; try done.
  all: destruct d; done.
Qed.

(** C8 at the name [veth5]: the table has no entry, the code lower-cases
    the name and removes every occurrence of [eth-] and [eth], so the
    result is [lanv5]; stripping the prefix, as the rule is worded, leaves
    the name whole and gives [lanveth5].  On [eth5] both give [lan5], and
    on [eth2] both give [lan2]. *)
Theorem MapInterfaceName_removes_every_eth :
  MapInterfaceName "veth5" = "lanv5"
  ∧ MapInterfaceName_documented "veth5" = "lanveth5"
  ∧ MapInterfaceName "eth5" = "lan5" ∧ MapInterfaceName_documented "eth5" = "lan5"
  ∧ MapInterfaceName "eth2" = "lan2" ∧ MapInterfaceName_documented "eth2" = "lan2".
Proof. vm_compute. repeat split. Qed.

End OpenWrtNamesFacts.

(* ===================================================================== *)
(** * The appliers                                                        *)
(* ===================================================================== *)

Section ApplierFacts.

Variable host : Host.
Variable net_parseHalves : string → result CIDR.

Local Abbreviation ParseCIDR' := (ParseCIDR net_parseHalves).
Local Abbreviation ConfigureInterface' := (ConfigureInterface host net_parseHalves).
Local Abbreviation openwrt_configureEach' := (openwrt_configureEach host net_parseHalves).
Local Abbreviation configureNetworkManager' := (configureNetworkManager host net_parseHalves).
Local Abbreviation configureNetworkManagerAll' :=
  (configureNetworkManagerAll host net_parseHalves).
Local Abbreviation netplanStanza' := (netplanStanza net_parseHalves).
Local Abbreviation netplanDocument' := (netplanDocument net_parseHalves).
Local Abbreviation ifupdownStanza' := (ifupdownStanza net_parseHalves).
Local Abbreviation ifupdownDocument' := (ifupdownDocument net_parseHalves).

(** The empty string has no slash. *)
Lemma ParseCIDR_empty : ParseCIDR' "" = Err "invalid CIDR address: ".
Proof. reflexivity. Qed.

(** ** Traces only grow *)





Lemma extends_log line : extends (log_Printf line).
Proof. intros h. by exists [Log line]. Qed.

Lemma extends_catch {A} (m : E A) : extends m → extends (catch m).
Proof. intros Hm h. unfold catch. destruct (Hm h) as [t Ht]. destruct (m h). by exists t. Qed.



(** ** OpenWrt: the loop goes on *)

Lemma openwrt_configureEach_cons name cfg rest h :
  openwrt_configureEach' ((name, cfg) :: rest) h =
    let uci := OpenWrtNames.MapInterfaceName name in
    let r := ConfigureInterface' uci cfg (h ++ [Log (log_Configuring name uci cfg)]) in
    openwrt_configureEach' rest
      match r.1 with
      | Err err => r.2 ++ [Log (log_Warning uci err)]
      | Ok _ => r.2
      end.
Proof.
  cbn [openwrt_configureEach]. unfold mbind, E_bind, log_Printf, catch. simpl.
  by destruct (ConfigureInterface' _ _ _) as [[[] | err] h'].
Qed.

Lemma openwrt_configureEach_ok networks :
  ∀ h, (openwrt_configureEach' networks h).1 = Ok tt.
Proof.
  induction networks as [|[name cfg] rest IH]; intros h; [done |].
  rewrite openwrt_configureEach_cons. apply IH.
Qed.




(** ** NetworkManager: the batch stops at the first failure *)



(** ** Netplan and ifupdown: one bad stanza, no document *)






(** ** What a failure on one interface does to the batch *)


(** ** An interface with neither DHCP nor an address *)

(** C6 on a configuration with [dhcp=false] and an empty address: the
    ifupdown applier, the UCI applier and the netsh applier return the
    error of [net.ParseCIDR] on the empty string, with no effect on the
    host; the NetworkManager applier returns an error too; only the
    Netplan applier accepts the interface. *)
Theorem empty_static_address_is_an_error
    (name uci adapter gateway : string) (dns : list string) (routes : list Route)
    (restartOrder : list string) (h : Trace) :
  let cfg := mkNetworkConfig false "" gateway dns routes in
  configureIfupdownAll host net_parseHalves [(name, cfg)] restartOrder h
    = (Err ("invalid address format for " +:+ name +:+ ": invalid CIDR address: "), h)
  ∧ ConfigureInterface' uci cfg h
    = (Err "invalid address format: invalid CIDR address: ", h)
  ∧ win_ConfigureNetwork host net_parseHalves (Ok adapter) cfg h
    = (Err "invalid address format: invalid CIDR address: ", h)
  ∧ is_ok (configureNetworkManager' name cfg h).1 = false
  ∧ is_ok (netplanStanza' name cfg) = true.
Proof.
  intros cfg. split; [reflexivity |]. split; [reflexivity |]. split; [reflexivity |].
  split; [| reflexivity].
  unfold configureNetworkManager. unfold mbind at 1, E_bind at 1.
  match goal with |- context [match ?m h with _ => _ end] => destruct (m h) as [[conn | e] h1] end;
    [| done].
  by unfold mbind, E_bind, fail.
Qed.

End ApplierFacts.



(* ===================================================================== *)
(** * More on the server                                                  *)
(* ===================================================================== *)

Section ServerMore.

Import Server.

Variable yaml_Unmarshal : string → result CloudInitNetwork.
Variable json_Unmarshal : string → result (list LXDInstance).
Variable json_Encode_fails : ConfigResponse → bool.
Variable mux_unmatched : Request → Response.

(** X1: [findInstanceByMAC] returns the first record of the inventory, in
    inventory order, that owns the MAC: no record before it owns it. *)
Theorem findInstanceByMAC_first_match (s : Server.Server) (mac : string) (inst : LXDInstance) :
  findInstanceByMAC s mac = Some inst ↔
  ∃ before after,
    instances s = before ++ inst :: after
    ∧ owns inst mac
    ∧ Forall (λ i, ¬ owns i mac) before.
Proof.
  unfold findInstanceByMAC. generalize (instances s). intros insts. split.
  - induction insts as [|i insts IH]; simpl; [discriminate |].
    destruct (hasMAC i mac) eqn:Hi.
    + intros [= <-]. exists [], insts. repeat split; [by apply hasMAC_owns | constructor].
    + intros (before & after & -> & Ho & Hb)%IH.
      exists (i :: before), after. repeat split; [done |].
      constructor; [| done]. intros Hown%hasMAC_owns. congruence.
  - intros (before & after & -> & Ho & Hb).
    induction before as [|i before IH]; simpl.
    + apply hasMAC_owns in Ho. by rewrite Ho.
    + apply Forall_cons in Hb as [Hi Hb].
      destruct (hasMAC i mac) eqn:Hh; [by apply hasMAC_owns in Hh | by apply IH].
Qed.

(** X2: The request MAC is normalized, the stored one is not: an instance whose
    hardware-address values are all written with hyphens is never found,
    whatever MAC is asked for. *)
Theorem hyphenated_inventory_mac_never_matches
    (s : Server.Server) (inst : LXDInstance) (m : string) :
  hyphenated inst = true →
  findInstanceByMAC s (normalizeMAC m) ≠ Some inst.
Proof.
  intros Hh Hf. apply findInstanceByMAC_in_Some in Hf as [_ Ho].
  destruct Ho as (k & v & Hl & Hk & Hv).
  unfold hyphenated in Hh. rewrite forallb_forall in Hh.
  specialize (Hh (k, v)). simpl in Hh. rewrite Hk in Hh. simpl in Hh.
  assert (Hin : In (k, v) (map_to_list (Config inst)))
    by (by apply list_elem_of_In, elem_of_map_to_list).
  specialize (Hh Hin). change "-" with (String "-"%char "") in Hh.
  rewrite Contains_byte in Hh.
  by rewrite (EqualFold_lower_colon v _ Hv (normalizeMAC_lower_colon m)) in Hh.
Qed.

(** X3: No request changes the path of the inventory file, and only a POST to
    [/reload] can change the inventory. *)
Theorem only_post_reload_changes_inventory
    (now : Time) (range : gmap string NetworkConfig → list (string * NetworkConfig))
    (fs : string → result string) (r : Request) (s : Server.Server) :
  let s' := (ServeHTTP yaml_Unmarshal json_Unmarshal json_Encode_fails mux_unmatched
               now range fs r s).1 in
  instancesFile s' = instancesFile s
  ∧ (instances s' ≠ instances s → Path r = "/reload" ∧ Method r = "POST").
Proof.
  unfold ServeHTTP.
  destruct (String.eqb_spec (Path r) "/config") as [Hc | Hc].
  { unfold HandleConfig. simpl. destruct (negb _); [done |].
    destruct (String.eqb _ ""); [done |]. destruct (findInstanceByMAC _ _); [| done].
    by destruct (json_Encode_fails _). }
  destruct (String.eqb_spec (Path r) "/reload") as [Hr | Hr].
  { unfold HandleReload, Reload, loadInstances. simpl.
    destruct (String.eqb_spec (Method r) "POST") as [Hm | Hm]; simpl; [| done].
    destruct (fs _) as [data | e]; [| done].
    by destruct (json_Unmarshal data). }
  destruct (String.eqb (Path r) "/status"); [| done].
  unfold HandleStatus. by destruct (negb _).
Qed.

(** X4: [HandleConfig] answers 200 only to a GET with a MAC that an instance
    of the inventory owns after normalization, and then with that
    instance's name and parsed networks; when the encoder does not fail,
    it answers 200 to every such request. *)
Theorem HandleConfig_ok_iff_owned
    (now : Time) (range : gmap string NetworkConfig → list (string * NetworkConfig))
    (r : Request) (s : Server.Server) :
  (∀ resp, json_Encode_fails resp = false) →
  let resp := (HandleConfig yaml_Unmarshal json_Encode_fails now range r s).2 in
  let mac := normalizeMAC (Query_Get (Query r) "mac") in
  (Status resp = 200%Z ↔
     Method r = "GET" ∧ Query_Get (Query r) "mac" ≠ ""
     ∧ ∃ inst, inst ∈ instances s ∧ owns inst mac)
  ∧ (Status resp = 200%Z →
     ∃ inst cfg,
       findInstanceByMAC s mac = Some inst
       ∧ body_config (body resp) = Some cfg
       ∧ Hostname cfg = Name inst
       ∧ Networks cfg = parseAllNetworkConfigs yaml_Unmarshal inst).
Proof.
  intros Henc resp mac. subst resp. unfold HandleConfig. simpl.
  destruct (String.eqb_spec (Method r) "GET") as [Hm | Hm]; simpl.
  2: { split; [split; [discriminate | by intros [? _]] | discriminate]. }
  destruct (String.eqb_spec (Query_Get (Query r) "mac") "") as [Hq | Hq]; simpl.
  { split; [split; [discriminate | by intros (_ & ? & _)] | discriminate]. }
  fold mac. unfold findInstanceByMAC. cbn [instances updateActivity].
  destruct (findInstanceByMAC_in (instances s) mac) as [inst |] eqn:Hf; simpl.
  - rewrite Henc. simpl. split.
    + split; [| done]. intros _. repeat split; try done.
      exists inst. by apply findInstanceByMAC_in_Some.
    + intros _. by exists inst, (mkConfigResponse (Name inst)
        (if (size (parseAllNetworkConfigs yaml_Unmarshal inst) =? 0)%nat
         then dhcpNetworkConfig
         else match range (parseAllNetworkConfigs yaml_Unmarshal inst) with
              | [] => zeroNetworkConfig
              | (_, netCfg) :: _ => netCfg
              end)
        (parseAllNetworkConfigs yaml_Unmarshal inst)).
  - split; [| discriminate]. split; [discriminate |].
    intros (_ & _ & Hex). apply findInstanceByMAC_in_is_Some in Hex.
    rewrite Hf in Hex. by destruct Hex.
Qed.

(** X5: When the declaration is structured, the interfaces of the result are
    exactly the declared ones; when it does not parse, there are none. *)
Theorem parseAllNetworkConfigs_interfaces (instance : LXDInstance) :
  let decl := map_get (Config instance) "cloud-init.network-config" in
  TrimSpace (ToUpper decl) ≠ "DHCP" →
  (∀ cloudInit, yaml_Unmarshal decl = Ok cloudInit →
     dom (parseAllNetworkConfigs yaml_Unmarshal instance) = dom (Ethernets cloudInit))
  ∧ (is_ok (yaml_Unmarshal decl) = false →
     parseAllNetworkConfigs yaml_Unmarshal instance = ∅).
Proof.
  intros decl Hd. unfold parseAllNetworkConfigs. fold decl.
  destruct (String.eqb_spec (TrimSpace (ToUpper decl)) "DHCP"); [done |].
  split.
  - intros ci ->. apply dom_fmap_L.
  - by destruct (yaml_Unmarshal decl).
Qed.

(** X6: When the range visits the entries of the map, the legacy parser gives
    the DHCP default exactly for an instance without networks, otherwise
    the configuration of one of its interfaces; and it is the primary
    network [HandleConfig] puts in its answer. *)
Theorem parseNetworkConfig_primary
    (range : gmap string NetworkConfig → list (string * NetworkConfig))
    (instance : LXDInstance) :
  (∀ m, range m ≡ₚ map_to_list m) →
  let networks := parseAllNetworkConfigs yaml_Unmarshal instance in
  let primary := ServerLegacy.parseNetworkConfig yaml_Unmarshal range instance in
  (networks = ∅ → primary = dhcpNetworkConfig)
  ∧ (networks ≠ ∅ → ∃ ifaceName, networks !! ifaceName = Some primary)
  ∧ ∀ now r s cfg,
      findInstanceByMAC s (normalizeMAC (Query_Get (Query r) "mac")) = Some instance →
      body_config (body (HandleConfig yaml_Unmarshal json_Encode_fails now range r s).2)
        = Some cfg →
      Network cfg = primary.
Proof.
  intros Hrange networks primary. subst primary.
  unfold ServerLegacy.parseNetworkConfig. fold networks.
  pose proof (Hrange networks) as Hperm.
  assert (Hnil : range networks = [] ↔ networks = ∅).
  { split.
    - intros H. rewrite H in Hperm. symmetry in Hperm.
      apply Permutation_nil_r in Hperm. by apply map_to_list_empty_iff.
    - intros ->. rewrite map_to_list_empty in Hperm. by apply Permutation_nil_r. }
  split; [| split].
  - intros H. apply Hnil in H. by rewrite H.
  - intros Hne. destruct (range networks) as [|[name cfg] rest] eqn:Hr.
    + by destruct Hne; apply Hnil.
    + exists name. apply elem_of_map_to_list. rewrite <- Hperm. left.
  - intros now r s cfg Hf. unfold HandleConfig. simpl.
    destruct (negb _); [discriminate |]. destruct (String.eqb _ ""); [discriminate |].
    unfold findInstanceByMAC in *. simpl. rewrite Hf. fold networks.
    destruct (json_Encode_fails _); [discriminate |]. simpl. intros [= <-]. simpl.
    destruct (Nat.eqb_spec (size networks) 0) as [Hz | Hz].
    + apply map_size_empty_iff in Hz. apply Hnil in Hz. by rewrite Hz.
    + destruct (range networks) as [|[name c] rest] eqn:Hr; [| done].
      destruct Hz. apply map_size_empty_iff. by apply Hnil.
Qed.

(** X7: A status query after a resolve reports the instant of the resolve as
    last activity and the time since as idle time; the resolve has not
    changed the number of records. *)
Theorem status_after_config
    (now now' : Time) (range : gmap string NetworkConfig → list (string * NetworkConfig))
    (r r' : Request) (s : Server.Server) :
  Method r' = "GET" →
  (HandleStatus now' r'
     (HandleConfig yaml_Unmarshal json_Encode_fails now range r s).1).2
  = mkResponse StatusOK (StatusJSON (List.length (instances s)) now (now' - now)%Z).
Proof.
  intros Hm. unfold HandleStatus. rewrite Hm. simpl.
  assert (Hs : ∃ resp, HandleConfig yaml_Unmarshal json_Encode_fails now range r s
                       = (updateActivity now s, resp)).
  { unfold HandleConfig. simpl. destruct (negb _); [by eexists |].
    destruct (String.eqb _ ""); [by eexists |].
    destruct (findInstanceByMAC _ _); [| by eexists].
    destruct (json_Encode_fails _); by eexists. }
  destruct Hs as [resp ->]. reflexivity.
Qed.

End ServerMore.

Lemma hyphenated_inventory_mac_never_matches_witness :
  hyphenated inst_hyphen = true
  ∧ Server.findInstanceByMAC (Server.mkServer "instances.json" [inst_hyphen] 0%Z)
      (Server.normalizeMAC "00-16-3E-11-22-33") ≠ Some inst_hyphen.
Proof.
  split; [reflexivity |].
  apply (hyphenated_inventory_mac_never_matches
           (Server.mkServer "instances.json" [inst_hyphen] 0%Z) inst_hyphen
           "00-16-3E-11-22-33").
  reflexivity.
Defined.

Lemma HandleConfig_ok_iff_owned_witness :
  Server.Status
    (Server.HandleConfig yaml_example (λ _, false) 5%Z map_to_list
       (with_mac config_request "00-16-3E-4F-E5-74") server_example).2 = 200%Z.
Proof.
  destruct (HandleConfig_ok_iff_owned yaml_example (λ _, false) 5%Z map_to_list
              (with_mac config_request "00-16-3E-4F-E5-74") server_example
              (λ _, eq_refl)) as [[_ Hok] _].
  apply Hok. split; [reflexivity |]. split; [vm_compute; discriminate |].
  exists inst_example. split; [left |].
  exists "volatile.eth-0.hwaddr", "00:16:3e:4f:e5:74".
  split; [reflexivity |]. split; vm_compute; reflexivity.
Defined.

Lemma parseAllNetworkConfigs_interfaces_witness :
  dom (Server.parseAllNetworkConfigs yaml_example inst_example) = {["eth-0"]}.
Proof.
  destruct (parseAllNetworkConfigs_interfaces yaml_example inst_example) as [Hdom _].
  - vm_compute. discriminate.
  - rewrite (Hdom (mkCloudInitNetwork 2 (<["eth-0" := eth_example]> ∅)) eq_refl).
    simpl. by rewrite dom_insert_L, dom_empty_L, union_empty_r_L.
Defined.

Lemma parseNetworkConfig_primary_witness :
  ∃ ifaceName,
    Server.parseAllNetworkConfigs yaml_example inst_example !! ifaceName
    = Some (ServerLegacy.parseNetworkConfig yaml_example map_to_list inst_example).
Proof.
  destruct (parseNetworkConfig_primary yaml_example (λ _, false) map_to_list inst_example)
    as (_ & Hmember & _).
  - intros m. reflexivity.
  - apply Hmember. intros Hempty.
    apply (f_equal (λ m : gmap string NetworkConfig, m !! "eth-0")) in Hempty.
    vm_compute in Hempty. discriminate.
Defined.

Lemma status_after_config_witness :
  (Server.HandleStatus 9%Z status_request
     (Server.HandleConfig yaml_example (λ _, false) 5%Z map_to_list
        (with_mac config_request "00-16-3E-4F-E5-74") server_example).1).2
  = Server.mkResponse 200 (Server.StatusJSON 1 5%Z 4%Z).
Proof.
  apply (status_after_config yaml_example (λ _, false) 5%Z 9%Z map_to_list
           (with_mac config_request "00-16-3E-4F-E5-74") status_request server_example).
  reflexivity.
Defined.

(* ===================================================================== *)
(** * More on the delivery client                                         *)
(* ===================================================================== *)

Section ClientMore.

Import Client.

Lemma HardwareAddr_String_nonempty a :
  (List.length a =? 0)%nat = false → String.eqb (HardwareAddr_String a) "" = false.
Proof. by destruct a. Qed.

(** X8: [GetPrimaryMAC] gives the address of the first interface, in the order
    of [net.Interfaces], that is up, is not the loopback and has a hardware
    address; it fails exactly when there is no such interface. *)
Theorem GetPrimaryMAC_first_eligible (interfaces : list Interface) :
  (∀ mac,
     GetPrimaryMAC (Ok interfaces) = Ok mac ↔
     ∃ before iface after,
       interfaces = before ++ iface :: after
       ∧ Forall (λ i, eligible i = false) before
       ∧ eligible iface = true
       ∧ mac = HardwareAddr_String (HardwareAddr iface))
  ∧ (is_ok (GetPrimaryMAC (Ok interfaces)) = false ↔
     Forall (λ i, eligible i = false) interfaces).
Proof.
  assert (Hstep : ∀ iface rest,
             firstValidMAC (iface :: rest) =
               if eligible iface then Ok (HardwareAddr_String (HardwareAddr iface))
               else firstValidMAC rest).
  { intros iface rest. cbn [firstValidMAC]. unfold eligible.
    destruct (Z.land (Flags iface) FlagLoopback =? 0)%Z; [| done].
    destruct (List.length (HardwareAddr iface) =? 0)%nat eqn:Hlen; [done |].
    destruct (Z.land (Flags iface) FlagUp =? 0)%Z; [done |]. simpl.
    by rewrite HardwareAddr_String_nonempty, ToLower_HardwareAddr_String. }
  cbn [GetPrimaryMAC]. split.
  - intros mac. induction interfaces as [|iface rest IH].
    + split; [discriminate |]. intros (before & i & after & H & _). by destruct before.
    + rewrite Hstep. destruct (eligible iface) eqn:He.
      * split.
        -- intros [= <-]. exists [], iface, rest. by repeat split.
        -- intros (before & i & after & H & Hb & Hi & ->).
           destruct before as [|b before]; simplify_eq/=; [done |].
           apply Forall_cons in Hb as [Hb _]. congruence.
      * rewrite IH. split.
        -- intros (before & i & after & -> & Hb & Hi & ->).
           exists (iface :: before), i, after. repeat split; [| done]. by constructor.
        -- intros (before & i & after & H & Hb & Hi & ->).
           destruct before as [|b before]; simplify_eq/=; [congruence |].
           apply Forall_cons in Hb as [_ Hb]. by exists before, i, after.
  - induction interfaces as [|iface rest IH]; [by split |].
    rewrite Hstep. destruct (eligible iface) eqn:He.
    + split; [discriminate |]. intros [Hi _]%Forall_cons. congruence.
    + rewrite IH. split; [by constructor | by intros [_ ?]%Forall_cons].
Qed.

End ClientMore.

Section DeliveryMore.

Import Delivery.

Variable url_Parse_error : string → option string.
Variable json_Decode : string → result ConfigResponse.
Variable net : nat → string → string → HttpOutcome.
Variables serverURL mac : string.

Local Abbreviation requestConfig' := (requestConfig url_Parse_error json_Decode net serverURL mac).
Local Abbreviation attempt' := (attempt url_Parse_error json_Decode net serverURL mac).
Local Abbreviation retryLoop' := (retryLoop url_Parse_error json_Decode net serverURL mac).
Local Abbreviation in_step' := (in_step url_Parse_error serverURL).

(** X9: An attempt succeeds exactly when the URL parses, the answer has status
    200 and its body decodes; so an answer with another 2xx status is a
    failure.  When the URL does not parse, no request is sent. *)
Theorem requestConfig_ok_iff (c : Client) (cfg : ConfigResponse) :
  ((requestConfig' c).2 = Ok cfg ↔
     url_Parse_error serverURL = None
     ∧ ∃ body, net (httpCalls c) serverURL mac = HttpResponse 200 body
               ∧ json_Decode body = Ok cfg)
  ∧ (url_Parse_error serverURL ≠ None → httpCalls (requestConfig' c).1 = httpCalls c)
  ∧ (url_Parse_error serverURL = None → httpCalls (requestConfig' c).1 = S (httpCalls c)).
Proof.
  unfold requestConfig. destruct (url_Parse_error serverURL) as [e |]; simpl.
  { split; [split; [discriminate | by intros [? _]] | by split]. }
  split; [| split; [done |]].
  - destruct (net (httpCalls c) serverURL mac) as [e | status body]; simpl.
    { split; [discriminate | by intros (_ & ? & ? & _)]. }
    unfold StatusOK. destruct (Z.eqb_spec status 200) as [-> | Hs]; simpl.
    + destruct (json_Decode body) as [cfg' | e] eqn:Hd; simpl.
      * split; [intros [= <-]; split; [done | by exists body] |].
        intros (_ & b & [= <-] & Hb). congruence.
      * split; [discriminate |]. intros (_ & b & [= <-] & Hb). congruence.
    + split; [discriminate |]. intros (_ & b & [= ? _] & _). done.
  - intros _. by destruct (net _ _ _) as [|? ?]; simpl;
      [| destruct (negb _); [| destruct (json_Decode _)]].
Qed.

Lemma retryLoop_any maxRetries d n :
  ∀ k lastErr c,
    attempts c = k → sleeps c = repeat d (k - 1) → in_step' c →
    let r := retryLoop' maxRetries d n (Z.of_nat k) lastErr c in
    (attempts r.1 ≤ k + n)%nat ∧ sleeps r.1 = repeat d (attempts r.1 - 1).
Proof.
  intros k lastErr c Hk Hs Hc.
  pose proof (retryLoop_firstSuccess url_Parse_error json_Decode net serverURL mac
                maxRetries d n k lastErr c Hk Hs Hc) as H.
  cbv zeta in *.
  destruct (firstSuccess _ _ _ _ _ n k) as [[j cfg] |] eqn:Hfs.
  - apply firstSuccess_bound in Hfs. destruct H as (_ & -> & ->). simpl.
    rewrite Nat.sub_0_r. split; [lia | done].
  - destruct H as (_ & -> & ->). split; [lia | done].
Qed.

(** X10: Whatever the budget and the delay, the loop makes at most the budget
    of attempts and sleeps the delay once between two consecutive attempts
    (59 sleeps at most for the 60 attempts of the Linux client); with a
    budget of zero or less it makes no attempt at all and returns an error
    that carries no cause. *)
Theorem retry_any_budget (maxRetries retryDelay : Z) :
  let run := requestConfigWithRetry url_Parse_error json_Decode net
               serverURL mac maxRetries retryDelay fresh in
  (attempts run.1 ≤ Z.to_nat maxRetries)%nat
  ∧ sleeps run.1 = repeat retryDelay (attempts run.1 - 1)
  ∧ ((maxRetries ≤ 0)%Z →
     run = (fresh, Err ("failed after " +:+ pretty maxRetries +:+ " retries: %!w(<nil>)"))).
Proof.
  intros run. subst run. unfold requestConfigWithRetry.
  destruct (retryLoop_any maxRetries retryDelay (Z.to_nat maxRetries) 0 None fresh
              eq_refl eq_refl (λ _, eq_refl)) as [Ha Hs].
  split; [exact Ha |]. split; [exact Hs |].
  intros Hle. by replace (Z.to_nat maxRetries) with 0 by lia.
Qed.

(** The error of an attempt, if it failed. *)
Lemma retryLoop_last_error maxRetries d n :
  ∀ k lastErr c e,
    attempts c = k → in_step' c →
    (∀ i, k ≤ i < k + S n → is_ok (attempt' i) = false) →
    attempt' (k + n) = Err e →
    (retryLoop' maxRetries d (S n) (Z.of_nat k) lastErr c).2
    = Err ("failed after " +:+ pretty maxRetries +:+ " retries: " +:+ e).
Proof.
  induction n as [|n IH]; intros k lastErr c e Hk Hc Hfail He.
  - cbn [retryLoop]. set (c1 := if (0 <? Z.of_nat k)%Z then time_Sleep d c else c).
    assert (Hk1 : attempts c1 = k) by (subst c1; by destruct (0 <? _)%Z).
    assert (Hc1 : in_step' c1) by (subst c1; by destruct (0 <? _)%Z).
    destruct (requestConfig_attempt url_Parse_error json_Decode net serverURL mac c1 Hc1) as (Hr & _).
    rewrite Hk1 in Hr. rewrite Nat.add_0_r in He. rewrite He in Hr.
    destruct (requestConfig' c1) as [c2 r]. simpl in Hr. by subst r.
  - cbn [retryLoop]. set (c1 := if (0 <? Z.of_nat k)%Z then time_Sleep d c else c).
    assert (Hk1 : attempts c1 = k) by (subst c1; by destruct (0 <? _)%Z).
    assert (Hc1 : in_step' c1) by (subst c1; by destruct (0 <? _)%Z).
    destruct (requestConfig_attempt url_Parse_error json_Decode net serverURL mac c1 Hc1) as (Hr & Ha & _ & Hin).
    rewrite Hk1 in Hr, Ha. specialize (Hfail k ltac:(lia)) as Hfk.
    destruct (requestConfig' c1) as [c2 r]. simpl in Hr, Ha, Hin. subst r.
    destruct (attempt' k) as [? | e0]; [discriminate |].
    replace (Z.of_nat k + 1)%Z with (Z.of_nat (S k)) by lia.
    apply (IH (S k) (Some e0) c2 e); [done | done | intros i Hi; apply Hfail; lia |].
    by replace (S k + n) with (k + S n) by lia.
Qed.

(** X11: When every attempt of a positive budget fails, the error returned
    names the budget and carries the error of the last attempt. *)
Theorem retry_exhausted_reports_last_error (n : nat) (retryDelay : Z) (e : string) :
  (∀ i, i < S n → is_ok (attempt' i) = false) →
  attempt' n = Err e →
  (requestConfigWithRetry url_Parse_error json_Decode net serverURL mac
     (Z.of_nat (S n)) retryDelay fresh).2
  = Err ("failed after " +:+ pretty (Z.of_nat (S n)) +:+ " retries: " +:+ e).
Proof.
  intros Hfail He. unfold requestConfigWithRetry. rewrite Nat2Z.id.
  apply (retryLoop_last_error (Z.of_nat (S n)) retryDelay n 0 None fresh e);
    [done | done | intros i Hi; apply Hfail; lia | done].
Qed.

End DeliveryMore.

(** X12: For a maximum between 0 and the largest [int] but one, and a random
    source that keeps to its bound, the delay lies between 0 and the
    maximum, also when the source fails and the fallback is taken. *)
Theorem randomDelay_in_range (rand_Int : Z → result Z) (max : Z) :
  (0 ≤ max < 2 ^ 63 - 1)%Z →
  (∀ bound n, (0 < bound)%Z → rand_Int bound = Ok n → (0 ≤ n < bound)%Z) →
  ∃ delay, Startup.randomDelay rand_Int max = Some delay ∧ (0 ≤ delay ≤ max)%Z.
Proof.
  intros Hmax Hrand. unfold Startup.randomDelay.
  assert (Hw : ∀ z, (- 2 ^ 63 ≤ z < 2 ^ 63)%Z → Startup.wrap64 z = z).
  { intros z Hz. unfold Startup.wrap64. rewrite Z.mod_small; lia. }
  rewrite (Hw (max + 1)%Z) by lia.
  destruct (Z.leb_spec (max + 1) 0); [lia |].
  destruct (rand_Int (max + 1)%Z) as [n | e] eqn:Hn.
  - apply Hrand in Hn; [| lia]. exists (Startup.wrap64 n).
    split; [done |]. rewrite Hw; lia.
  - exists (Z.quot max 2). split; [done |].
    split; [apply Z.quot_pos; lia |]. apply Z.quot_le_upper_bound; lia.
Qed.

Lemma randomDelay_in_range_witness :
  ∃ delay, Startup.randomDelay rand_largest 30 = Some delay ∧ (0 ≤ delay ≤ 30)%Z.
Proof.
  apply (randomDelay_in_range rand_largest 30).
  - split; [lia | reflexivity].
  - intros bound n Hb [= <-]. lia.
Defined.

Lemma retry_exhausted_reports_last_error_witness :
  (Delivery.requestConfigWithRetry url_ok decode_example net_down
     "http://server:8080" "00:16:3e:4f:e5:74" 3 (60 * Delivery.Second) Delivery.fresh).2
  = Err "failed after 3 retries: request failed: connection refused".
Proof.
  apply (retry_exhausted_reports_last_error url_ok decode_example net_down
           "http://server:8080" "00:16:3e:4f:e5:74" 2 (60 * Delivery.Second)
           "request failed: connection refused").
  - intros i _. reflexivity.
  - reflexivity.
Defined.

(* ===================================================================== *)
(** * More on the OpenWrt client                                          *)
(* ===================================================================== *)

Section OpenWrtMore.

Import OpenWrtNames.

Variable host : Host.
Variable net_parseHalves : string → result CIDR.

Lemma uciFallback_shape x :
  uciFallback x = "wan" ∨ HasPrefix (uciFallback x) "lan" = true.
Proof.
  unfold uciFallback. destruct (String.eqb x "0"); [by left |].
  destruct (String.eqb x "1"); right; [reflexivity |].
  change (HasPrefix ("lan" +:+ x) "lan") with (HasPrefix x ""). apply HasPrefix_empty.
Qed.

(** X13: The table adds nothing to the fallback rule: on every name of
    ASCII bytes the mapping is the rule applied to the lower-cased name
    without its [eth-] and [eth] parts.  So the mapping does not depend on
    the case of the name, and its result is [wan] or starts with [lan]. *)
Theorem MapInterfaceName_is_the_fallback_rule (cloudInitName : string) :
  is_ascii cloudInitName = true →
  MapInterfaceName cloudInitName
    = uciFallback (ReplaceAll (ReplaceAll (ToLower cloudInitName) "eth-" "") "eth" "")
  ∧ MapInterfaceName (ToUpper cloudInitName) = MapInterfaceName cloudInitName
  ∧ MapInterfaceName (ToLower cloudInitName) = MapInterfaceName cloudInitName
  ∧ (MapInterfaceName cloudInitName = "wan"
     ∨ HasPrefix (MapInterfaceName cloudInitName) "lan" = true).
Proof.
  intros _.
  assert (Hrule : ∀ name, MapInterfaceName name
            = uciFallback (ReplaceAll (ReplaceAll (ToLower name) "eth-" "") "eth" "")).
  { intros name. rewrite MapInterfaceName_fallback, InterfaceMapping_lookup.
    repeat match goal with
           | |- context [String.eqb name ?x] =>
               destruct (String.eqb_spec name x) as [-> | ?]; [vm_compute; reflexivity |]
           end.
    reflexivity. }
  split; [apply Hrule |]. split; [| split].
  - rewrite !Hrule. do 3 f_equal. unfold ToLower, ToUpper.
    rewrite map_bytes_map_bytes. apply map_bytes_ext, lower_upper_byte.
  - rewrite !Hrule. by rewrite ToLower_idem.
  - rewrite Hrule. apply uciFallback_shape.
Qed.

Lemma must_result msg argv h :
  must host msg argv h =
    match (host h (Exec argv)).2 with
    | Some err => (Err (msg +:+ (host h (Exec argv)).1 +:+ " - " +:+ err), h ++ [Exec argv])
    | None => (Ok tt, h ++ [Exec argv])
    end.
Proof. unfold must, mbind, E_bind, run. simpl. by destruct (host h (Exec argv)).2. Qed.

(** X14: Switching an interface to DHCP fails only when setting the protocol
    fails, and then nothing else is run; otherwise the four static options
    are deleted, whatever the deletions answer. *)
Theorem configureInterfaceDHCP_ignores_delete_errors (uciInterface : string) (h : Trace) :
  let prefix := "network." +:+ uciInterface in
  let set := ["uci"; "set"; prefix +:+ ".proto=dhcp"] in
  configureInterfaceDHCP host uciInterface h =
    match (host h (Exec set)).2 with
    | Some err =>
        (Err ("failed to run " +:+ fmt_args set +:+ ": "
                +:+ (host h (Exec set)).1 +:+ " - " +:+ err),
         h ++ [Exec set])
    | None =>
        (Ok tt,
         h ++ [Exec set;
               Exec ["uci"; "delete"; prefix +:+ ".ipaddr"];
               Exec ["uci"; "delete"; prefix +:+ ".netmask"];
               Exec ["uci"; "delete"; prefix +:+ ".gateway"];
               Exec ["uci"; "delete"; prefix +:+ ".dns"]])
    end.
Proof.
  intros prefix set. unfold configureInterfaceDHCP. fold prefix. fold set.
  cbn [runCommands]. unfold mbind, E_bind, run, fail, mret, E_ret. simpl.
  destruct (host h (Exec set)).2; [done |]. simpl. by rewrite <- !app_assoc.
Qed.

(** X15: With at least one network in the answer, the network step of [main]
    succeeds exactly when the commit succeeds: the commit is always the
    last command, and no failure of an interface makes the step fail. *)
Theorem openwrt_network_step_depends_on_commit_only
    (networks : list (string * NetworkConfig)) (single : NetworkConfig) (h : Trace) :
  networks ≠ [] →
  let found := Log ("Found " +:+ pretty (List.length networks)
                      +:+ " network interface(s) to configure") in
  let h1 := (openwrt_configureEach host net_parseHalves networks (h ++ [found])).2 in
  let commit := Exec ["uci"; "commit"; "network"] in
  (openwrt_main_network host net_parseHalves networks single h).2 = h1 ++ [commit]
  ∧ (is_ok (openwrt_main_network host net_parseHalves networks single h).1 = true
     ↔ (host h1 commit).2 = None).
Proof.
  intros Hne found h1 commit. subst h1 found. unfold openwrt_main_network.
  destruct networks as [|n rest]; [done |].
  change (0 <? List.length (n :: rest))%nat with true. cbv iota.
  set (found := Log _).
  pose proof (openwrt_configureEach_ok host net_parseHalves (n :: rest) (h ++ [found])) as Hok.
  set (each := openwrt_configureEach host net_parseHalves (n :: rest)) in *.
  unfold mbind, E_bind, log_Printf. cbv beta iota. fold found.
  destruct (each (h ++ [found])) as [r h1]. simpl in Hok. subst r. cbv beta iota.
  unfold wrap, CommitNetworkChanges. rewrite must_result. fold commit. cbn [snd].
  destruct (host h1 commit).2; simpl; split; done.
Qed.

End OpenWrtMore.

Lemma MapInterfaceName_is_the_fallback_rule_witness :
  is_ascii "Eth-2" = true
  ∧ OpenWrtNames.MapInterfaceName "Eth-2" = "lan2"
  ∧ OpenWrtNames.MapInterfaceName (ToUpper "Eth-2") = OpenWrtNames.MapInterfaceName "Eth-2"
  ∧ OpenWrtNames.MapInterfaceName (ToLower "Eth-2") = OpenWrtNames.MapInterfaceName "Eth-2".
Proof.
  split; [reflexivity |].
  destruct (MapInterfaceName_is_the_fallback_rule "Eth-2" eq_refl) as (Hrule & Hup & Hlow & _).
  split; [by rewrite Hrule | by split].
Defined.

Lemma openwrt_network_step_depends_on_commit_only_witness :
  is_ok (openwrt_main_network host_uci_set_fails parseHalves_example
           batch_dhcp unset_example []).1 = true.
Proof.
  destruct (openwrt_network_step_depends_on_commit_only host_uci_set_fails
              parseHalves_example batch_dhcp unset_example []) as [_ Hiff].
  - discriminate.
  - apply Hiff. reflexivity.
Defined.

(* ===================================================================== *)
(** * More on the appliers                                                *)
(* ===================================================================== *)

Section ApplierMore.

Variable host : Host.
Variable net_parseHalves : string → result CIDR.

Local Abbreviation ParseCIDR' := (ParseCIDR net_parseHalves).
Local Abbreviation netplanStanza' := (netplanStanza net_parseHalves).
Local Abbreviation netplanDocument' := (netplanDocument net_parseHalves).
Local Abbreviation ifupdownStanza' := (ifupdownStanza net_parseHalves).
Local Abbreviation ifupdownDocument' := (ifupdownDocument net_parseHalves).

(** X16: In DHCP mode no applier looks at the address, the gateway or the DNS
    list of the configuration (the UCI and netsh appliers look at nothing
    else either); and in static mode the UCI and netsh appliers never
    apply the extra routes. *)
Theorem dhcp_ignores_static_fields
    (name : string) (adapter : result string)
    (a a' g g' : string) (d d' : list string) (r r' : list Route) :
  ConfigureInterface host net_parseHalves name (mkNetworkConfig true a g d r)
    = ConfigureInterface host net_parseHalves name (mkNetworkConfig true a' g' d' r')
  ∧ win_ConfigureNetwork host net_parseHalves adapter (mkNetworkConfig true a g d r)
    = win_ConfigureNetwork host net_parseHalves adapter (mkNetworkConfig true a' g' d' r')
  ∧ configureNetworkManager host net_parseHalves name (mkNetworkConfig true a g d r)
    = configureNetworkManager host net_parseHalves name (mkNetworkConfig true a' g' d' r)
  ∧ netplanStanza' name (mkNetworkConfig true a g d r)
    = netplanStanza' name (mkNetworkConfig true a' g' d' r)
  ∧ ifupdownStanza' name (mkNetworkConfig true a g d r)
    = ifupdownStanza' name (mkNetworkConfig true a' g' d' r)
  ∧ ConfigureInterface host net_parseHalves name (mkNetworkConfig false a g d r)
    = ConfigureInterface host net_parseHalves name (mkNetworkConfig false a g d r')
  ∧ win_ConfigureNetwork host net_parseHalves adapter (mkNetworkConfig false a g d r)
    = win_ConfigureNetwork host net_parseHalves adapter (mkNetworkConfig false a g d r').
Proof. repeat split. Qed.

(** ** Netplan *)

Lemma netplanStanza_ok_iff name cfg :
  is_ok (netplanStanza' name cfg) = netplan_valid net_parseHalves cfg.
Proof.
  unfold netplanStanza, netplan_valid. destruct (DHCP cfg); [done |]. simpl.
  destruct (String.eqb (Address cfg) ""); [done |]. simpl.
  by destruct (ParseCIDR' (Address cfg)).
Qed.

Lemma netplanDocument_ok_iff networks :
  ∀ content,
    is_ok (netplanDocument' content networks) = true
    ↔ Forall (λ nc, netplan_valid net_parseHalves nc.2 = true) networks.
Proof.
  induction networks as [|[name cfg] rest IH]; intros content; cbn [netplanDocument].
  - split; [constructor | done].
  - rewrite Forall_cons. simpl. rewrite <- (netplanStanza_ok_iff name cfg).
    destruct (netplanStanza' name cfg) as [stanza | e]; simpl.
    + rewrite IH. tauto.
    + split; [discriminate | by intros [? _]].
Qed.

(** X17: The Netplan applier builds a document exactly when every interface is
    on DHCP, has no address, or has an address that parses.  It then
    writes the one file, and runs [netplan apply] only when the file was
    written; it succeeds exactly when both succeed. *)
Theorem netplan_writes_then_applies (networks : list (string * NetworkConfig)) (h : Trace) :
  (is_ok (netplanDocument' netplanHeader networks) = true
   ↔ Forall (λ nc, netplan_valid net_parseHalves nc.2 = true) networks)
  ∧ ∀ content,
      netplanDocument' netplanHeader networks = Ok content →
      let write := WriteFile "/etc/netplan/99-cyber-range.yaml" content 384 in
      let apply := Exec ["netplan"; "apply"] in
      let r := configureNetplanAll host net_parseHalves networks h in
      r.2 = (if (host h write).2 is Some _ then h ++ [write] else h ++ [write; apply])
      ∧ (is_ok r.1 = true ↔ (host h write).2 = None ∧ (host (h ++ [write]) apply).2 = None).
Proof.
  split; [apply netplanDocument_ok_iff |].
  intros content Hdoc write apply r. subst r. unfold configureNetplanAll. rewrite Hdoc.
  unfold mbind, E_bind, os_WriteFile. cbv beta iota. fold write.
  destruct (host h write).2 as [err |]; simpl.
  - split; [done |]. split; [discriminate | by intros [? _]].
  - rewrite must_result. fold apply. rewrite <- app_assoc. simpl.
    destruct (host (h ++ [write]) apply).2; simpl.
    + split; [done |]. split; [discriminate | by intros [_ ?]].
    + by split.
Qed.

(** ** ifupdown *)

Lemma ifdownup_trace names :
  ∀ h, ifdownup host names h
       = (Ok tt, h ++ flat_map (λ n, [Exec ["ifdown"; n]; Exec ["ifup"; n]]) names).
Proof.
  induction names as [|n names IH]; intros h; cbn [ifdownup flat_map].
  - unfold mret, E_ret. by rewrite app_nil_r.
  - unfold mbind, E_bind, run. cbv beta iota. rewrite IH. by rewrite <- !app_assoc.
Qed.

Lemma ifupdownStanza_ok_iff name cfg :
  is_ok (ifupdownStanza' name cfg) = ifupdown_valid net_parseHalves cfg.
Proof.
  unfold ifupdownStanza, ifupdown_valid. destruct (DHCP cfg); [done |]. simpl.
  by destruct (ParseCIDR' (Address cfg)).
Qed.

Lemma ifupdownDocument_ok_iff networks :
  ∀ content,
    is_ok (ifupdownDocument' content networks) = true
    ↔ Forall (λ nc, ifupdown_valid net_parseHalves nc.2 = true) networks.
Proof.
  induction networks as [|[name cfg] rest IH]; intros content; cbn [ifupdownDocument].
  - split; [constructor | done].
  - rewrite Forall_cons. simpl. rewrite <- (ifupdownStanza_ok_iff name cfg).
    destruct (ifupdownStanza' name cfg) as [stanza | e]; simpl.
    + rewrite IH. tauto.
    + split; [discriminate | by intros [? _]].
Qed.

(** X18: Once the directory is made and the file is written, the ifupdown
    applier succeeds whatever the restart answers: when restarting the
    networking service fails, every interface is taken down and up, errors
    ignored; when it succeeds, nothing more is run. *)
Theorem ifupdown_restart_failure_is_ignored
    (networks : list (string * NetworkConfig)) (restartOrder : list string)
    (h : Trace) (content : string) :
  let mkdir := MkdirAll "/etc/network/interfaces.d" 493 in
  let write := WriteFile "/etc/network/interfaces.d/cyber-range" content 420 in
  let restart := Exec ["systemctl"; "restart"; "networking"] in
  ifupdownDocument' ("# Generated by Cyber Range Configuration Client" +:+ LF) networks
    = Ok content →
  (host h mkdir).2 = None →
  (host (h ++ [mkdir]) write).2 = None →
  configureIfupdownAll host net_parseHalves networks restartOrder h
  = (Ok tt,
     h ++ [mkdir; write; restart]
       ++ (if (host (h ++ [mkdir; write]) restart).2 is Some _
           then flat_map (λ n, [Exec ["ifdown"; n]; Exec ["ifup"; n]]) restartOrder
           else [])).
Proof.
  intros mkdir write restart Hdoc Hmk Hw. unfold configureIfupdownAll. rewrite Hdoc.
  unfold mbind, E_bind, os_MkdirAll, os_WriteFile, run. cbv beta iota.
  fold mkdir. rewrite Hmk. cbv beta iota. fold write. rewrite Hw. cbv beta iota.
  fold restart. rewrite <- !app_assoc. simpl.
  destruct (host (h ++ [mkdir; write]) restart).2.
  - rewrite ifdownup_trace. by rewrite <- ?app_assoc.
  - reflexivity.
Qed.

End ApplierMore.

Lemma ifupdown_restart_failure_is_ignored_witness :
  configureIfupdownAll host_restart_fails parseHalves_example
    [("eth0", dhcpNetworkConfig)] ["eth0"] []
  = (Ok tt,
     [ MkdirAll "/etc/network/interfaces.d" 493;
       WriteFile "/etc/network/interfaces.d/cyber-range"
         ("# Generated by Cyber Range Configuration Client" +:+ LF +:+ LF
            +:+ "auto eth0" +:+ LF +:+ "iface eth0 inet dhcp" +:+ LF) 420;
       Exec ["systemctl"; "restart"; "networking"];
       Exec ["ifdown"; "eth0"]; Exec ["ifup"; "eth0"] ]).
Proof.
  apply (ifupdown_restart_failure_is_ignored host_restart_fails parseHalves_example
           [("eth0", dhcpNetworkConfig)] ["eth0"] []); reflexivity.
Defined.

(* ===================================================================== *)
(** * Choosing the interface and the backend                              *)
(* ===================================================================== *)

Section SelectionFacts.

Import Client.

Lemma firstUsable_Some interfaces name :
  firstUsable interfaces = Some name →
  ∃ iface, iface ∈ interfaces ∧ ifName iface = name ∧ usable iface = true.
Proof.
  induction interfaces as [|i rest IH]; cbn [firstUsable]; [discriminate |].
  unfold usable at 1.
  destruct (Z.land (Flags i) FlagLoopback =? 0)%Z eqn:Hl; simpl.
  - destruct (List.length (HardwareAddr i) =? 0)%nat eqn:Hm; simpl.
    + intros (iface & ? & ?)%IH. exists iface. split; [by right | done].
    + intros [= <-]. exists i. split; [left |]. unfold usable. by rewrite Hl, Hm.
  - intros (iface & ? & ?)%IH. exists iface. split; [by right | done].
Qed.

Lemma firstUsable_None interfaces :
  firstUsable interfaces = None ↔ Forall (λ i, usable i = false) interfaces.
Proof.
  induction interfaces as [|i rest IH]; cbn [firstUsable]; [by split |].
  rewrite Forall_cons. unfold usable at 1.
  destruct (Z.land (Flags i) FlagLoopback =? 0)%Z; simpl; [| by rewrite IH; tauto].
  destruct (List.length (HardwareAddr i) =? 0)%nat; simpl; [by rewrite IH; tauto |].
  split; [discriminate | by intros [? _]].
Qed.

Lemma firstWired_step i rest :
  firstWired (i :: rest) =
    if eligible i && wiredName (ifName i) then Some (ifName i) else firstWired rest.
Proof.
  cbn [firstWired]. unfold eligible, wiredName.
  destruct (Z.land (Flags i) FlagLoopback =? 0)%Z; simpl; [| done].
  destruct (List.length (HardwareAddr i) =? 0)%nat; simpl; [done |].
  by destruct (Z.land (Flags i) FlagUp =? 0)%Z.
Qed.

Lemma firstEthernet_step i rest :
  firstEthernet (i :: rest) =
    if usable i && ethernetName (ifName i) then Some (ifName i) else firstEthernet rest.
Proof.
  cbn [firstEthernet]. unfold usable, ethernetName.
  destruct (Z.land (Flags i) FlagLoopback =? 0)%Z; simpl; [| done].
  by destruct (List.length (HardwareAddr i) =? 0)%nat.
Qed.

Lemma eligible_usable i : eligible i = true → usable i = true.
Proof. unfold eligible, usable. by intros [? _]%andb_prop. Qed.

(** A preference loop finds a preferred interface when there is one, and
    what it finds is preferred. *)
Lemma preferred_loop (preferred : Interface → bool) (loop : list Interface → option string) :
  (∀ i rest, loop (i :: rest) = if preferred i then Some (ifName i) else loop rest) →
  loop [] = None →
  ∀ interfaces,
    (∀ name, loop interfaces = Some name →
       ∃ iface, iface ∈ interfaces ∧ ifName iface = name ∧ preferred iface = true)
    ∧ ((∃ iface, iface ∈ interfaces ∧ preferred iface = true) → is_Some (loop interfaces)).
Proof.
  intros Hstep Hnil interfaces. induction interfaces as [|i rest [IH1 IH2]].
  - split; [by rewrite Hnil | intros (? & []%elem_of_nil & _)].
  - rewrite Hstep. destruct (preferred i) eqn:Hp; split.
    + intros name [= <-]. exists i. split; [left | done].
    + by eexists.
    + intros name (iface & ? & ?)%IH1. exists iface. split; [by right | done].
    + intros (iface & [-> | Hin]%elem_of_cons & Hpi); [congruence |].
      apply IH2. by exists iface.
Qed.

(** X19: The Linux client picks an interface that is not the loopback and has a
    hardware address, and fails exactly when there is none.  When some
    interface that is up has a name starting with [eth] or [en], the
    interface picked has such a name; otherwise the first usable interface
    is taken, up or not. *)
Theorem getPrimaryInterface_choice (interfaces : list Interface) :
  (∀ name, getPrimaryInterface (Ok interfaces) = Ok name →
     ∃ iface, iface ∈ interfaces ∧ ifName iface = name ∧ usable iface = true)
  ∧ (is_ok (getPrimaryInterface (Ok interfaces)) = false
     ↔ Forall (λ i, usable i = false) interfaces)
  ∧ ((∃ iface, iface ∈ interfaces ∧ eligible iface = true ∧ wiredName (ifName iface) = true) →
     ∃ name, getPrimaryInterface (Ok interfaces) = Ok name ∧ wiredName name = true)
  ∧ (Forall (λ i, eligible i && wiredName (ifName i) = false) interfaces →
     getPrimaryInterface (Ok interfaces)
     = match firstUsable interfaces with
       | Some name => Ok name
       | None => Err "no suitable network interface found"
       end).
Proof.
  destruct (preferred_loop (λ i, eligible i && wiredName (ifName i)) firstWired
              firstWired_step eq_refl interfaces) as [Hsome Hex].
  cbn [getPrimaryInterface]. split; [| split; [| split]].
  - intros name. destruct (firstWired interfaces) as [n |] eqn:Hw.
    + intros [= <-]. destruct (Hsome n eq_refl) as (iface & ? & ? & [He _]%andb_prop).
      exists iface. by repeat split; [| | apply eligible_usable].
    + destruct (firstUsable interfaces) as [n |] eqn:Hu; [| discriminate].
      intros [= <-]. by apply firstUsable_Some.
  - destruct (firstWired interfaces) as [n |] eqn:Hw.
    + split; [discriminate |]. intros Hall.
      destruct (Hsome n eq_refl) as (iface & Hin & _ & [He%eligible_usable _]%andb_prop).
      rewrite Forall_forall in Hall. specialize (Hall iface Hin). simpl in Hall. congruence.
    + rewrite <- firstUsable_None. by destruct (firstUsable interfaces).
  - intros (iface & Hin & He & Hn).
    destruct Hex as [n Hw]; [exists iface; by rewrite He, Hn |].
    rewrite Hw. exists n. split; [done |].
    by destruct (Hsome n Hw) as (? & _ & <- & [_ ?]%andb_prop).
  - intros Hall. destruct (firstWired interfaces) as [n |] eqn:Hw; [| done].
    destruct (Hsome n eq_refl) as (iface & Hin & _ & Hp).
    rewrite Forall_forall in Hall. specialize (Hall iface Hin). simpl in Hall. congruence.
Qed.

(** X20: The Windows client picks an adapter that is not the loopback and has a
    hardware address, up or not, and fails exactly when there is none.
    When some such adapter has a name that mentions ethernet or local area
    (in any case), the adapter picked has such a name. *)
Theorem getPrimaryAdapterName_choice (interfaces : list Interface) :
  (∀ name, getPrimaryAdapterName (Ok interfaces) = Ok name →
     ∃ iface, iface ∈ interfaces ∧ ifName iface = name ∧ usable iface = true)
  ∧ (is_ok (getPrimaryAdapterName (Ok interfaces)) = false
     ↔ Forall (λ i, usable i = false) interfaces)
  ∧ ((∃ iface, iface ∈ interfaces ∧ usable iface = true ∧ ethernetName (ifName iface) = true) →
     ∃ name, getPrimaryAdapterName (Ok interfaces) = Ok name ∧ ethernetName name = true).
Proof.
  destruct (preferred_loop (λ i, usable i && ethernetName (ifName i)) firstEthernet
              firstEthernet_step eq_refl interfaces) as [Hsome Hex].
  cbn [getPrimaryAdapterName]. split; [| split].
  - intros name. destruct (firstEthernet interfaces) as [n |] eqn:Hw.
    + intros [= <-]. destruct (Hsome n eq_refl) as (iface & ? & ? & [He _]%andb_prop).
      by exists iface.
    + destruct (firstUsable interfaces) as [n |] eqn:Hu; [| discriminate].
      intros [= <-]. by apply firstUsable_Some.
  - destruct (firstEthernet interfaces) as [n |] eqn:Hw.
    + split; [discriminate |]. intros Hall.
      destruct (Hsome n eq_refl) as (iface & Hin & _ & [He _]%andb_prop).
      rewrite Forall_forall in Hall. specialize (Hall iface Hin). simpl in Hall. congruence.
    + rewrite <- firstUsable_None. by destruct (firstUsable interfaces).
  - intros (iface & Hin & He & Hn).
    destruct Hex as [n Hw]; [exists iface; by rewrite He, Hn |].
    rewrite Hw. exists n. split; [done |].
    by destruct (Hsome n Hw) as (? & _ & <- & [_ ?]%andb_prop).
Qed.

End SelectionFacts.

Section DetectionFacts.

Variable host : Host.
Variable net_parseHalves : string → result CIDR.

(** ** Computations that only run commands *)

Lemma only_runs_ret {A} (a : A) : only_runs (mret a : E A).
Proof. intros h. exists []. by rewrite app_nil_r. Qed.

Lemma only_runs_fail {A} e : only_runs (fail e : E A).
Proof. intros h. exists []. by rewrite app_nil_r. Qed.

Lemma only_runs_bind {A B} (m : E A) (f : A → E B) :
  only_runs m → (∀ a, only_runs (f a)) → only_runs (m ≫= f).
Proof.
  intros Hm Hf h. unfold mbind, E_bind. destruct (Hm h) as (t & Ht & Hall).
  destruct (m h) as [[a | e] h1]; simpl in *; subst h1.
  - destruct (Hf a (h ++ t)) as (t' & Ht' & Hall'). exists (t ++ t').
    rewrite Ht', app_assoc. split; [done | by apply Forall_app].
  - by exists t.
Qed.

Lemma only_runs_run argv : only_runs (run host argv).
Proof. intros h. exists [Exec argv]. split; [done | by repeat constructor]. Qed.

Lemma only_runs_wrap {A} prefix (m : E A) : only_runs m → only_runs (wrap prefix m).
Proof.
  intros Hm h. unfold wrap. destruct (Hm h) as (t & Ht & Hall).
  exists t. by destruct (m h) as [[] ?].
Qed.

Lemma only_runs_must msg argv : only_runs (must host msg argv).
Proof.
  apply only_runs_bind; [apply only_runs_run |].
  intros r. destruct r.2; [apply only_runs_fail | apply only_runs_ret].
Qed.

Lemma only_runs_configureNetworkManager name cfg :
  only_runs (configureNetworkManager host net_parseHalves name cfg).
Proof.
  unfold configureNetworkManager.
  apply only_runs_bind.
  { destruct (String.eqb name ""); apply only_runs_wrap.
    - unfold getNMConnectionName. apply only_runs_bind; [apply only_runs_run |].
      intros r. destruct r.2; [apply only_runs_fail |].
      destruct (findEthernet _); [apply only_runs_ret |].
      destruct (Split _ _) as [|first ?]; [apply only_runs_fail |].
      destruct (negb _); [| apply only_runs_fail].
      destruct (Split first _); [apply only_runs_fail | apply only_runs_ret].
    - unfold getNMConnectionForInterface. apply only_runs_bind; [apply only_runs_run |].
      intros r. destruct r.2; [apply only_runs_fail |].
      destruct (findByDevice _ _); [apply only_runs_ret |].
      destruct (findByName _ _); [apply only_runs_ret |].
      apply only_runs_bind; [apply only_runs_must | intros; apply only_runs_ret]. }
  intros connName. apply only_runs_bind.
  { destruct (DHCP cfg); [apply only_runs_must |].
    destruct (ParseCIDR _ _); [apply only_runs_must | apply only_runs_fail]. }
  intros _. apply only_runs_bind; [| intros; apply only_runs_must].
  destruct (0 <? _)%nat; [| apply only_runs_ret].
  apply only_runs_bind; [apply only_runs_run | intros; apply only_runs_must].
Qed.

Lemma only_runs_configureNetworkManagerAll networks :
  only_runs (configureNetworkManagerAll host net_parseHalves networks).
Proof.
  induction networks as [|[name cfg] rest IH]; cbn [configureNetworkManagerAll];
    [apply only_runs_ret |].
  apply only_runs_bind; [| by intros].
  apply only_runs_wrap, only_runs_configureNetworkManager.
Qed.

(** X21: Detection never fails and follows a fixed priority: NetworkManager
    when [nmcli] is installed and the service is active, else Netplan when
    its directory exists, else ifupdown when its file exists; [systemctl]
    is asked only when [nmcli] is installed.  With NetworkManager active
    the Linux client only runs commands: it writes no file, whatever
    directories exist.  With no method found it fails without touching
    the host. *)
Theorem detectNetworkMethod_priority
    (lookPath stat : string → bool)
    (networks : list (string * NetworkConfig)) (restartOrder : list string) (h : Trace) :
  let probe := Exec ["systemctl"; "is-active"; "--quiet"; "NetworkManager"] in
  let active := lookPath "nmcli" && bool_decide ((host h probe).2 = None) in
  let h1 := if lookPath "nmcli" then h ++ [probe] else h in
  let method :=
    if active then NetworkMethodNetworkManager
    else if stat "/etc/netplan" then NetworkMethodNetplan
    else if stat "/etc/network/interfaces" then NetworkMethodIfupdown
    else NetworkMethodUnknown in
  let configure := linux_ConfigureAllNetworks host net_parseHalves lookPath stat
                     networks restartOrder h in
  detectNetworkMethod host lookPath stat h = (Ok method, h1)
  ∧ (active = true →
     ∃ t, configure.2 = h ++ t ∧ Forall (λ e, is_Exec e = true) t)
  ∧ (method = NetworkMethodUnknown →
     configure = (Err "no supported network configuration method found", h1)).
Proof.
  intros probe active h1 method configure.
  assert (Hdetect : detectNetworkMethod host lookPath stat h = (Ok method, h1)).
  { subst method active h1. unfold detectNetworkMethod.
    destruct (lookPath "nmcli"); unfold mbind, E_bind, run; cbv beta iota; fold probe; simpl.
    - destruct (host h probe).2; simpl; [| done].
      by destruct (stat "/etc/netplan"), (stat "/etc/network/interfaces").
    - by destruct (stat "/etc/netplan"), (stat "/etc/network/interfaces"). }
  split; [exact Hdetect |].
  assert (Hrun : configure
                 = ConfigureAllNetworks host net_parseHalves method networks restartOrder h1).
  { subst configure. unfold linux_ConfigureAllNetworks, mbind, E_bind. by rewrite Hdetect. }
  rewrite Hrun. clear Hrun Hdetect. split.
  - intros Ha. subst method. rewrite Ha. cbn [ConfigureAllNetworks].
    destruct (only_runs_configureNetworkManagerAll networks h1) as (t & -> & Hall).
    subst h1 active. apply andb_prop in Ha as [-> _].
    exists (probe :: t). rewrite <- app_assoc. split; [done | by constructor].
  - by intros ->.
Qed.

(** ** The DNS servers of the netsh applier *)

Lemma win_addDNS_trace adapterName dns :
  (∀ h e, (host h e).2 = None) →
  ∀ i h,
    win_addDNS host adapterName i dns h
    = (Ok tt,
       h ++ imap (λ k d, Exec ["netsh"; "interface"; "ip"; "add"; "dns"; adapterName; d;
                               "index=" +:+ pretty (i + k + 1)%nat]) dns).
Proof.
  intros Hok. induction dns as [|d dns IH]; intros i h; cbn [win_addDNS imap].
  - unfold mret, E_ret. by rewrite app_nil_r.
  - unfold mbind, E_bind. rewrite must_result, Hok. rewrite IH, <- app_assoc.
    rewrite Nat.add_0_r. do 3 f_equal. apply imap_ext. intros k x _. simpl.
    by replace (S (i + k + 1)) with (i + S k + 1) by lia.
Qed.

(** X22: On a host where every command succeeds, the static netsh applier sets
    the address, then the first DNS server with [set dns], then every
    further server with [add dns], the k-th server of the list at
    [index=k]. *)
Theorem win_configureStatic_dns_indexes
    (adapterName : string) (cfg : NetworkConfig) (cidr : CIDR) (h : Trace) :
  (∀ h e, (host h e).2 = None) →
  ParseCIDR net_parseHalves (Address cfg) = Ok cidr →
  win_configureStatic host net_parseHalves adapterName cfg h
  = (Ok tt,
     h ++ Exec ["netsh"; "interface"; "ip"; "set"; "address"; adapterName; "static";
                ip_String cidr; mask_String cidr; Gateway cfg]
       :: match DNS cfg with
          | [] => []
          | primary :: others =>
              Exec ["netsh"; "interface"; "ip"; "set"; "dns"; adapterName; "static"; primary]
              :: imap (λ k d, Exec ["netsh"; "interface"; "ip"; "add"; "dns"; adapterName; d;
                                    "index=" +:+ pretty (k + 2)%nat]) others
          end).
Proof.
  intros Hok Hcidr. unfold win_configureStatic. rewrite Hcidr.
  unfold mbind at 1, E_bind at 1. rewrite must_result, Hok.
  destruct (DNS cfg) as [|primary others]; [done |].
  unfold mbind, E_bind. rewrite must_result, Hok, (win_addDNS_trace _ _ Hok).
  rewrite <- !app_assoc. simpl. do 4 f_equal. apply imap_ext. intros k x _. simpl.
  by replace (S (k + 1)) with (k + 2) by lia.
Qed.

End DetectionFacts.

Lemma win_configureStatic_dns_indexes_witness :
  win_configureStatic host_ok parseHalves_example "Ethernet"
    (mkNetworkConfig false "192.168.1.15/24" "192.168.1.1" ["1.1.1.1"; "8.8.8.8"; "9.9.9.9"] [])
    []
  = (Ok tt,
     [ Exec ["netsh"; "interface"; "ip"; "set"; "address"; "Ethernet"; "static";
             "192.168.1.15"; "255.255.255.0"; "192.168.1.1"];
       Exec ["netsh"; "interface"; "ip"; "set"; "dns"; "Ethernet"; "static"; "1.1.1.1"];
       Exec ["netsh"; "interface"; "ip"; "add"; "dns"; "Ethernet"; "8.8.8.8"; "index=2"];
       Exec ["netsh"; "interface"; "ip"; "add"; "dns"; "Ethernet"; "9.9.9.9"; "index=3"] ]).
Proof.
  apply (win_configureStatic_dns_indexes host_ok parseHalves_example "Ethernet"
           (mkNetworkConfig false "192.168.1.15/24" "192.168.1.1"
              ["1.1.1.1"; "8.8.8.8"; "9.9.9.9"] [])
           (mkCIDR "192.168.1.15" "255.255.255.0" 24) []).
  - intros h e. reflexivity.
  - reflexivity.
Defined.

(* ===================================================================== *)
(** * The server program                                                  *)
(* ===================================================================== *)

Section ServerMainFacts.

Import Server ServerMain.

Lemma loadConfig_complete
    (os_ReadFile : string → result string)
    (yaml_Unmarshal : string → result ServerConfig) (path : string) (cfg : ServerConfig) :
  loadConfig os_ReadFile yaml_Unmarshal path = Ok cfg →
  InstancesFile cfg ≠ "" ∧ Listen cfg ≠ "".
Proof.
  unfold loadConfig. destruct (os_ReadFile path); [| discriminate].
  destruct (yaml_Unmarshal _) as [[l f] |]; [| discriminate]. simpl.
  destruct (String.eqb_spec l ""); simpl;
    destruct (String.eqb_spec f ""); simpl; by intros [= <-].
Qed.

(** X23: Whatever the configuration file and the flags, [main] gets past its
    validation: the instances file and the listen address it ends with are
    never empty, so the fatal exit for a missing instances file cannot
    happen.  A flag that is not empty wins; without the flag the value of
    the loaded file stands, or the built-in one when the file cannot be
    loaded. *)
Theorem main_config_is_always_complete
    (os_ReadFile : string → result string)
    (yaml_Unmarshal : string → result ServerConfig)
    (configPath instancesFile listenAddr : string) :
  let loaded :=
    match loadConfig os_ReadFile yaml_Unmarshal configPath with
    | Ok file => file
    | Err _ => mkServerConfig ":8080" "instances.json"
    end in
  ∃ cfg,
    main_config os_ReadFile yaml_Unmarshal configPath instancesFile listenAddr = Ok cfg
    ∧ InstancesFile cfg ≠ "" ∧ Listen cfg ≠ ""
    ∧ InstancesFile cfg
      = (if String.eqb instancesFile "" then InstancesFile loaded else instancesFile)
    ∧ Listen cfg = (if String.eqb listenAddr "" then Listen loaded else listenAddr).
Proof.
  intros loaded.
  assert (Hloaded : InstancesFile loaded ≠ "" ∧ Listen loaded ≠ "").
  { subst loaded.
    destruct (loadConfig os_ReadFile yaml_Unmarshal configPath) as [file |] eqn:Hl;
      [by eapply loadConfig_complete | done]. }
  unfold main_config. fold loaded. destruct Hloaded as [Hf Hl].
  destruct (String.eqb_spec instancesFile ""), (String.eqb_spec listenAddr ""); simpl.
  - destruct (String.eqb_spec (InstancesFile loaded) ""); [done |]. by eexists.
  - destruct (String.eqb_spec (InstancesFile loaded) ""); [done |]. by eexists.
  - destruct (String.eqb_spec instancesFile ""); [done |]. by eexists.
  - destruct (String.eqb_spec instancesFile ""); [done |]. by eexists.
Qed.

Section Monitor.

Variable yaml_Unmarshal : string → result CloudInitNetwork.
Variable json_Unmarshal : string → result (list LXDInstance).
Variable json_Encode_fails : ConfigResponse → bool.
Variable mux_unmatched : Request → Response.
Variable range : gmap string NetworkConfig → list (string * NetworkConfig).

Local Abbreviation serve' :=
  (serve yaml_Unmarshal json_Unmarshal json_Encode_fails mux_unmatched range).
Local Abbreviation serveAll' :=
  (serveAll yaml_Unmarshal json_Unmarshal json_Encode_fails mux_unmatched range).

Lemma serve_lastActivity (a : Arrival) (s : Server.Server) :
  lastActivity (serve' a s)
  = if String.eqb (Path (request a)) "/config" || String.eqb (Path (request a)) "/reload"
    then instant a else lastActivity s.
Proof.
  unfold serve, ServeHTTP.
  destruct (String.eqb (Path (request a)) "/config"); simpl.
  { unfold HandleConfig. simpl. destruct (negb _); [done |].
    destruct (String.eqb _ ""); [done |].
    destruct (findInstanceByMAC _ _); [| done].
    by destruct (json_Encode_fails _). }
  destruct (String.eqb (Path (request a)) "/reload"); simpl.
  { unfold HandleReload. destruct (negb _); [done |].
    unfold Reload, loadInstances. simpl.
    destruct (disk a _); [| done]. by destruct (json_Unmarshal _). }
  destruct (String.eqb (Path (request a)) "/status"); [| done].
  unfold HandleStatus. by destruct (negb _).
Qed.

(** X24: With a positive idle timeout, the idle monitor shuts the server down
    at a tick exactly when the time since the last activity has reached
    the timeout; with a timeout of zero or less no monitor runs, whatever
    the requests.  A request to /config or /reload restarts the count from
    its own instant; requests to any other path, /status among them, in
    any number, leave the decision of the monitor as it was: polling the
    status does not keep the server alive. *)
Theorem status_polls_do_not_postpone_shutdown
    (idleTimeout : Z) (now : Time) (s : Server.Server) :
  ((idleTimeout ≤ 0)%Z → idleTick idleTimeout now s = None)
  ∧ ((0 < idleTimeout)%Z →
     idleTick idleTimeout now s
     = Some (if (idleTimeout <=? now - lastActivity s)%Z then Shutdown
             else KeepRunning (idleTimeout - (now - lastActivity s))%Z))
  ∧ (∀ a, Path (request a) = "/config" ∨ Path (request a) = "/reload" →
       idleTick idleTimeout now (serve' a s)
       = if (0 <? idleTimeout)%Z then
           Some (if (idleTimeout <=? now - instant a)%Z then Shutdown
                 else KeepRunning (idleTimeout - (now - instant a))%Z)
         else None)
  ∧ (∀ arrivals,
       Forall (λ a, Path (request a) ≠ "/config" ∧ Path (request a) ≠ "/reload") arrivals →
       idleTick idleTimeout now (serveAll' arrivals s) = idleTick idleTimeout now s).
Proof.
  split; [| split; [| split]].
  - intros Hn. unfold idleTick. by destruct (Z.ltb_spec 0 idleTimeout); [lia |].
  - intros Hp. unfold idleTick, GetLastActivity.
    destruct (Z.ltb_spec 0 idleTimeout); [| lia].
    by destruct (idleTimeout <=? now - lastActivity s)%Z.
  - intros a Hp. unfold idleTick, GetLastActivity. rewrite serve_lastActivity.
    destruct (0 <? idleTimeout)%Z; [| done].
    destruct Hp as [-> | ->]; simpl; by destruct (idleTimeout <=? now - instant a)%Z.
  - intros arrivals Hall. revert s. induction Hall as [|a rest [Hc Hr] _ IH]; intros s; [done |].
    unfold serveAll in *. cbn [foldl]. rewrite IH.
    unfold idleTick, GetLastActivity. rewrite serve_lastActivity.
    destruct (String.eqb_spec (Path (request a)) "/config"); [done |].
    by destruct (String.eqb_spec (Path (request a)) "/reload").
Qed.

End Monitor.

End ServerMainFacts.

(* ===================================================================== *)
(** * Forge: the table of subnet allocations                              *)
(* ===================================================================== *)

Section ForgeFacts.

Import Forge.

Variable json_Unmarshal : string → result SubnetsData.
Variable json_MarshalIndent : SubnetsData → result string.
Variable os_WriteFile : File → string → option string * File.
Variable sort_Slice : (Allocation → Allocation → bool) → list Allocation → list Allocation.
Variable now : string.

Local Abbreviation readSubnetsFile' := (readSubnetsFile json_Unmarshal).
Local Abbreviation writeSubnetsFile' := (writeSubnetsFile json_MarshalIndent os_WriteFile).
Local Abbreviation GetProjectSubnet' := (GetProjectSubnet json_Unmarshal).
Local Abbreviation AllocateSubnet' :=
  (AllocateSubnet json_Unmarshal json_MarshalIndent os_WriteFile sort_Slice now).
Local Abbreviation ReleaseSubnet' :=
  (ReleaseSubnet json_Unmarshal json_MarshalIndent os_WriteFile).

(** ** The loops *)

Lemma foldl_used_lookup allocations (used : gmap Z bool) o :
  default false
    (foldl (λ used alloc, <[SubnetOctet alloc := true]> used) used allocations !! o) = true
  ↔ default false (used !! o) = true ∨ o ∈ octets allocations.
Proof.
  revert used. induction allocations as [|a rest IH]; intros used; cbn [foldl octets fmap list_fmap].
  - split; [by left | intros [? | []%elem_of_nil]; done].
  - rewrite IH. fold (octets rest). rewrite elem_of_cons.
    destruct (decide (SubnetOctet a = o)) as [<- | Hne].
    + rewrite lookup_insert_eq. simpl. tauto.
    + rewrite lookup_insert_ne by done. split; [tauto |]. intros [? | [? | ?]]; [tauto | done | tauto].
Qed.

Lemma usedOctets_lookup allocations o :
  default false (usedOctets allocations !! o) = true ↔ o ∈ octets allocations.
Proof.
  unfold usedOctets. rewrite foldl_used_lookup, lookup_empty. simpl.
  split; [by intros [? | ?] | by right].
Qed.

Lemma nextFree_spec (used : gmap Z bool) rounds n :
  (1 ≤ n ≤ 255)%Z → (255 - n ≤ Z.of_nat rounds)%Z →
  let r := nextFree rounds used n in
  (n ≤ r ≤ 255)%Z
  ∧ (∀ o, (n ≤ o < r)%Z → default false (used !! o) = true)
  ∧ ((r ≤ 254)%Z → default false (used !! r) = false).
Proof.
  revert n. induction rounds as [|rounds IH]; intros n Hn Hr; cbn [nextFree].
  - repeat split; lia.
  - destruct (Z.leb_spec n 254); [| repeat split; lia].
    destruct (default false (used !! n)) eqn:Hu; simpl.
    + destruct (IH (n + 1)%Z) as (Hb & Hall & Hfree); [lia | lia |].
      split; [lia |]. split; [| done].
      intros o Ho. destruct (decide (o = n)) as [-> | ?]; [done |]. apply Hall. lia.
    + repeat split; [lia | lia | lia | done].
Qed.

Lemma findProject_None projectName allocations :
  findProject projectName allocations = None ↔ projectName ∉ projects allocations.
Proof.
  induction allocations as [|a rest IH]; cbn [findProject projects fmap list_fmap].
  - split; [intros _ []%elem_of_nil | done].
  - fold (projects rest). rewrite not_elem_of_cons.
    destruct (String.eqb_spec (Project a) projectName); [split; [done | by intros [? _]] |].
    rewrite IH. split; [by split | by intros [_ ?]].
Qed.

Lemma findProject_app projectName l1 l2 :
  findProject projectName (l1 ++ l2)
  = match findProject projectName l1 with
    | Some octet => Some octet
    | None => findProject projectName l2
    end.
Proof.
  induction l1 as [|a l1 IH]; cbn [findProject app]; [done |].
  by destruct (String.eqb (Project a) projectName).
Qed.

(** With one entry per project, the octet found for a project does not
    depend on the order of the table. *)
Lemma findProject_Permutation projectName l l' :
  l ≡ₚ l' → NoDup (projects l) → findProject projectName l = findProject projectName l'.
Proof.
  induction 1 as [| a l l' Hp IH | a b l | l l' l'' Hp IH Hp' IH']; intros Hnd.
  - done.
  - cbn [findProject]. destruct (String.eqb (Project a) projectName); [done |].
    apply IH. by apply NoDup_cons_1_2 in Hnd.
  - cbn [findProject].
    destruct (String.eqb_spec (Project a) projectName) as [Ha | Ha],
             (String.eqb_spec (Project b) projectName) as [Hb | Hb]; try done.
    exfalso. cbn in Hnd. apply NoDup_cons_1_1 in Hnd. apply Hnd. rewrite elem_of_cons. left. congruence.
  - rewrite IH by done. apply IH'. unfold projects. by rewrite <- Hp.
Qed.

Lemma findProject_entriesNotOf projectName p allocations :
  p ≠ projectName →
  findProject p (entriesNotOf projectName allocations) = findProject p allocations.
Proof.
  intros Hne. induction allocations as [|a rest IH]; [done |].
  cbn [entriesNotOf List.filter findProject]. fold (entriesNotOf projectName rest).
  destruct (String.eqb_spec (Project a) projectName) as [Ha | Ha]; simpl.
  - destruct (String.eqb_spec (Project a) p); [congruence | done].
  - cbn [findProject]. by rewrite IH.
Qed.

Lemma findProject_entriesNotOf_self projectName allocations :
  findProject projectName (entriesNotOf projectName allocations) = None.
Proof.
  induction allocations as [|a rest IH]; [done |].
  cbn [entriesNotOf List.filter]. fold (entriesNotOf projectName rest).
  destruct (String.eqb_spec (Project a) projectName) as [Ha | Ha]; simpl; [done |].
  cbn [findProject]. by destruct (String.eqb_spec (Project a) projectName).
Qed.

Lemma last_cons_default (r x : Z) (l : list Z) :
  default x (last l) = default r (last (x :: l)).
Proof.
  revert r x. induction l as [|y l IH]; intros r x; [done |].
  change (last (x :: y :: l)) with (last (y :: l)).
  by rewrite <- (IH r y), <- (IH x y).
Qed.

Lemma release_loop projectName allocations released kept :
  foldl (release_step projectName) (released, kept) allocations
  = (default released (last (octets (entriesOf projectName allocations))),
     kept ++ entriesNotOf projectName allocations).
Proof.
  revert released kept. induction allocations as [|a rest IH]; intros released kept.
  - simpl. by rewrite app_nil_r.
  - cbn [foldl entriesOf entriesNotOf List.filter]. unfold release_step at 2.
    fold (entriesOf projectName rest). fold (entriesNotOf projectName rest).
    destruct (String.eqb (Project a) projectName); simpl; rewrite IH.
    + f_equal. fold (octets (entriesOf projectName rest)).
      apply last_cons_default.
    + by rewrite <- app_assoc.
Qed.

Lemma writeSubnetsFile_Ok data file file' :
  write_stores os_WriteFile →
  writeSubnetsFile' data file = (Ok tt, file') →
  ∃ content, json_MarshalIndent data = Ok content ∧ file' = Content content.
Proof.
  intros Hw. unfold writeSubnetsFile.
  destruct (json_MarshalIndent data) as [content |]; [| discriminate].
  specialize (Hw file content).
  destruct (os_WriteFile file content) as [[err |] f]; [discriminate |].
  intros [= <-]. exists content. split; [done |]. by apply Hw.
Qed.

Lemma NoDup_snoc' {A} (l : list A) (x : A) : NoDup l → x ∉ l → NoDup (l ++ [x]).
Proof.
  intros Hl Hx. apply NoDup_app. split; [done |]. split; [| apply NoDup_singleton].
  intros y Hy Hin. apply list_elem_of_singleton in Hin. by subst y.
Qed.

Lemma nextOctet_spec allocations :
  let r := nextFree 254 (usedOctets allocations) 1 in
  (1 ≤ r ≤ 255)%Z
  ∧ (∀ o, (1 ≤ o < r)%Z → o ∈ octets allocations)
  ∧ ((r ≤ 254)%Z → r ∉ octets allocations).
Proof.
  destruct (nextFree_spec (usedOctets allocations) 254 1) as (Hb & Hall & Hfree); [lia | lia |].
  split; [done |]. split.
  - intros o Ho. apply usedOctets_lookup. by apply Hall.
  - intros Hr Hin%usedOctets_lookup. rewrite Hfree in Hin by done. discriminate.
Qed.

Lemma findProject_Some_all projectName octet allocations :
  (∀ a, a ∈ allocations → Project a = projectName → SubnetOctet a = octet) →
  projectName ∈ projects allocations →
  findProject projectName allocations = Some octet.
Proof.
  induction allocations as [|a rest IH]; intros Hall Hin; [by apply elem_of_nil in Hin |].
  cbn [findProject]. destruct (String.eqb_spec (Project a) projectName) as [Ha | Ha].
  - f_equal. apply Hall; [left | done].
  - apply IH.
    + intros b Hb. apply Hall. by right.
    + cbn in Hin. apply elem_of_cons in Hin as [Hin | Hin]; [congruence | done].
Qed.

Lemma findProject_new projectName octet time allocations l :
  projectName ∉ projects allocations →
  l ≡ₚ allocations ++ [mkAllocation projectName octet time] →
  findProject projectName l = Some octet.
Proof.
  intros Hnew Hp. apply findProject_Some_all.
  - intros a Ha Hproj. rewrite Hp in Ha. apply elem_of_app in Ha as [Ha | Ha].
    + destruct Hnew. unfold projects. rewrite <- Hproj. by apply list_elem_of_fmap_2.
    + apply list_elem_of_singleton in Ha. by subst a.
  - unfold projects. rewrite Hp, fmap_app. apply elem_of_app. right. simpl. left.
Qed.

(** X25: For a project without an entry, [AllocateSubnet] hands out the
    smallest octet of 1..254 that no entry of the table holds, and writes
    the table with the new entry added and sorted; when every octet of
    1..254 is held it fails and leaves the file alone. *)
Theorem AllocateSubnet_smallest_free
    (projectName : string) (file : File) (data : SubnetsData) :
  readSubnetsFile' file = Ok data →
  projectName ∉ projects (Allocations data) →
  ((∀ o, (1 ≤ o ≤ 254)%Z → o ∈ octets (Allocations data)) →
     AllocateSubnet' projectName file
     = (Err "no available subnet octets (all 1-254 are allocated)", file))
  ∧ (∀ o, (1 ≤ o ≤ 254)%Z → o ∉ octets (Allocations data) →
       (∀ o', (1 ≤ o' < o)%Z → o' ∈ octets (Allocations data)) →
       AllocateSubnet' projectName file
       = match writeSubnetsFile'
                 (mkSubnetsData
                    (sort_Slice less
                       (Allocations data ++ [mkAllocation projectName o now])))
                 file with
         | (Err err, file') => (Err err, file')
         | (Ok _, file') => (Ok o, file')
         end).
Proof.
  intros Hread Hnew%findProject_None. unfold AllocateSubnet. rewrite Hread, Hnew.
  destruct (nextOctet_spec (Allocations data)) as (Hb & Hall & Hfree).
  set (r := nextFree 254 (usedOctets (Allocations data)) 1) in *. cbv zeta.
  split.
  - intros Hfull. destruct (Z.ltb_spec 254 r); [done |].
    destruct Hfree; [lia |]. apply Hfull. lia.
  - intros o Ho Hofree Hbelow.
    assert (r = o) as ->.
    { destruct (Z.lt_trichotomy r o) as [Hlt | [-> | Hgt]]; [| done |].
      - destruct Hfree; [lia |]. apply Hbelow. lia.
      - destruct Hofree. apply Hall. lia. }
    destruct (Z.ltb_spec 254 o); [lia | done].
Qed.

(** X26: What [AllocateSubnet] returns is what a later lookup finds, and
    allocating again for the same project returns the same octet and
    leaves the file as it is. *)
Theorem AllocateSubnet_then_lookup
    (projectName : string) (file file' : File) (octet : Z) :
  write_stores os_WriteFile →
  reads_back json_Unmarshal json_MarshalIndent →
  sort_permutes sort_Slice →
  AllocateSubnet' projectName file = (Ok octet, file') →
  GetProjectSubnet' projectName file' = Ok octet
  ∧ AllocateSubnet' projectName file' = (Ok octet, file').
Proof.
  intros Hw Hrb Hsort. unfold AllocateSubnet at 1.
  destruct (readSubnetsFile' file) as [data |] eqn:Hread; [| discriminate].
  destruct (findProject projectName (Allocations data)) as [o |] eqn:Hfind.
  - intros [= <- <-]. unfold GetProjectSubnet, AllocateSubnet. by rewrite Hread, Hfind.
  - cbv zeta. destruct (254 <? _)%Z; [discriminate |].
    destruct (writeSubnetsFile' _ file) as [[[] | err] f] eqn:Hwrite; [| discriminate].
    intros [= <- <-].
    apply writeSubnetsFile_Ok in Hwrite as (content & Hm%Hrb & ->); [| done].
    unfold GetProjectSubnet, AllocateSubnet, readSubnetsFile. rewrite Hm. cbn [Allocations].
    erewrite findProject_new; [done | by apply findProject_None | apply Hsort].
Qed.

(** X27: A table with one entry per project and one project per octet stays
    so through an allocation, and no other project changes octet. *)
Theorem AllocateSubnet_keeps_octets_distinct
    (projectName : string) (file file' : File) (data : SubnetsData) (octet : Z) :
  write_stores os_WriteFile →
  reads_back json_Unmarshal json_MarshalIndent →
  sort_permutes sort_Slice →
  readSubnetsFile' file = Ok data →
  NoDup (octets (Allocations data)) →
  NoDup (projects (Allocations data)) →
  AllocateSubnet' projectName file = (Ok octet, file') →
  ∃ data',
    readSubnetsFile' file' = Ok data'
    ∧ NoDup (octets (Allocations data'))
    ∧ NoDup (projects (Allocations data'))
    ∧ (∀ p, p ≠ projectName → GetProjectSubnet' p file' = GetProjectSubnet' p file).
Proof.
  intros Hw Hrb Hsort Hread Hoct Hproj. unfold AllocateSubnet. rewrite Hread.
  destruct (findProject projectName (Allocations data)) as [o |] eqn:Hfind.
  - intros [= <- <-]. by exists data.
  - cbv zeta. destruct (nextOctet_spec (Allocations data)) as (Hb & Hall & Hfree).
    set (r := nextFree 254 (usedOctets (Allocations data)) 1) in *.
    destruct (Z.ltb_spec 254 r); [discriminate |].
    destruct (writeSubnetsFile' _ file) as [[[] | err] f] eqn:Hwrite; [| discriminate].
    intros [= <- <-].
    apply writeSubnetsFile_Ok in Hwrite as (content & Hm%Hrb & ->); [| done].
    set (new := mkAllocation projectName r now) in *.
    set (sorted := sort_Slice less (Allocations data ++ [new])) in *.
    assert (Hp : sorted ≡ₚ Allocations data ++ [new]) by apply Hsort.
    assert (Hnd : NoDup (projects (Allocations data ++ [new]))).
    { unfold projects. rewrite fmap_app. apply NoDup_snoc'; [done |].
      by apply findProject_None in Hfind. }
    exists (mkSubnetsData sorted). unfold readSubnetsFile at 1. rewrite Hm.
    split; [done |]. cbn [Allocations]. split; [| split].
    + unfold octets. rewrite Hp, fmap_app. apply NoDup_snoc'; [done |]. by apply Hfree.
    + unfold projects. rewrite Hp. exact Hnd.
    + intros p Hne. unfold GetProjectSubnet. rewrite Hread.
      unfold readSubnetsFile. rewrite Hm. cbn [Allocations].
      rewrite <- (findProject_Permutation p _ _ (symmetry Hp)).
      * rewrite findProject_app. cbn [findProject new Project].
        destruct (String.eqb_spec projectName p); [congruence |].
        by destruct (findProject p (Allocations data)).
      * exact Hnd.
Qed.

(** X28: [ReleaseSubnet] drops every entry of the project and returns the octet
    of the last of them; when that octet is 0, in particular when the
    project has no entry, it fails and leaves the file alone, so a project
    recorded with octet 0 cannot be released.  After a release the lookup
    of the project gives 0 and every other project keeps its octet. *)
Theorem ReleaseSubnet_drops_the_project
    (projectName : string) (file : File) (data : SubnetsData) :
  readSubnetsFile' file = Ok data →
  let released := lastOctet (entriesOf projectName (Allocations data)) in
  ReleaseSubnet' projectName file
  = (if (released =? 0)%Z then
       (Err ("no subnet allocation found for project " +:+ projectName), file)
     else
       match writeSubnetsFile'
               (mkSubnetsData (entriesNotOf projectName (Allocations data))) file with
       | (Err err, file') => (Err err, file')
       | (Ok _, file') => (Ok released, file')
       end)
  ∧ (write_stores os_WriteFile →
     reads_back json_Unmarshal json_MarshalIndent →
     ∀ octet file',
       ReleaseSubnet' projectName file = (Ok octet, file') →
       octet ≠ 0%Z
       ∧ GetProjectSubnet' projectName file' = Ok 0%Z
       ∧ (∀ p, p ≠ projectName → GetProjectSubnet' p file' = GetProjectSubnet' p file)).
Proof.
  intros Hread released.
  assert (Hrel : ReleaseSubnet' projectName file
    = (if (released =? 0)%Z then
         (Err ("no subnet allocation found for project " +:+ projectName), file)
       else
         match writeSubnetsFile'
                 (mkSubnetsData (entriesNotOf projectName (Allocations data))) file with
         | (Err err, file') => (Err err, file')
         | (Ok _, file') => (Ok released, file')
         end)).
  { unfold ReleaseSubnet. rewrite Hread, release_loop. done. }
  split; [exact Hrel |].
  intros Hw Hrb octet file'. rewrite Hrel.
  destruct (Z.eqb_spec released 0); [discriminate |].
  destruct (writeSubnetsFile' _ file) as [[[] | err] f] eqn:Hwrite; [| discriminate].
  intros [= <- <-]. split; [done |].
  apply writeSubnetsFile_Ok in Hwrite as (content & Hm%Hrb & ->); [| done].
  unfold GetProjectSubnet. rewrite Hread. unfold readSubnetsFile. rewrite Hm.
  cbn [Allocations]. split.
  - by rewrite findProject_entriesNotOf_self.
  - intros p Hne. by rewrite findProject_entriesNotOf.
Qed.

End ForgeFacts.

(** ** The example host *)

Lemma write_stores_example : write_stores disk_example.
Proof. by intros file content _. Qed.

Lemma allocation_eqb_eq a b : allocation_eqb a b = true → a = b.
Proof.
  destruct a as [p o t], b as [p' o' t']. unfold allocation_eqb. simpl.
  intros [[Hp%String.eqb_eq Ho%Z.eqb_eq]%andb_prop Ht%String.eqb_eq]%andb_prop.
  by subst.
Qed.

Lemma table_eqb_eq l1 l2 : table_eqb l1 l2 = true → l1 = l2.
Proof.
  revert l2. induction l1 as [|a l1 IH]; intros [|b l2]; simpl; try done.
  intros [->%allocation_eqb_eq ->%IH]%andb_prop. done.
Qed.

Lemma reads_back_example : reads_back unmarshal_example marshal_example.
Proof.
  intros [l] content. unfold marshal_example. cbn [Forge.Allocations].
  destruct (table_eqb l table_example) eqn:H1.
  { apply table_eqb_eq in H1 as ->. by intros [= <-]. }
  destruct (table_eqb l table_after) eqn:H2; [| discriminate].
  apply table_eqb_eq in H2 as ->. by intros [= <-].
Qed.

Lemma insert_sorted_Permutation less a l : insert_sorted less a l ≡ₚ a :: l.
Proof.
  induction l as [|b rest IH]; cbn [insert_sorted]; [done |].
  destruct (less b a); [| done]. rewrite IH. apply perm_swap.
Qed.

Lemma sort_permutes_example : sort_permutes sort_example.
Proof.
  intros less l. unfold sort_example. induction l as [|a rest IH]; cbn [foldr]; [done |].
  by rewrite insert_sorted_Permutation, IH.
Qed.

Lemma AllocateSubnet_smallest_free_witness :
  Forge.AllocateSubnet unmarshal_example marshal_example disk_example sort_example
    "2025-01-05T00:00:00Z" "gamma" (Forge.Content "before")
  = (Ok 3%Z, Forge.Content "after").
Proof.
  refine (eq_trans
            (proj2 (AllocateSubnet_smallest_free unmarshal_example marshal_example
                      disk_example sort_example "2025-01-05T00:00:00Z" "gamma"
                      (Forge.Content "before") (Forge.mkSubnetsData table_example)
                      eq_refl _) 3%Z _ _ _) _).
  - apply (bool_decide_unpack _). vm_compute. exact I.
  - lia.
  - apply (bool_decide_unpack _). vm_compute. exact I.
  - intros o' Ho'. assert (o' = 1 ∨ o' = 2)%Z as [-> | ->] by lia;
      apply (bool_decide_unpack _); vm_compute; exact I.
  - reflexivity.
Defined.

Lemma AllocateSubnet_then_lookup_witness :
  Forge.GetProjectSubnet unmarshal_example "gamma" (Forge.Content "after") = Ok 3%Z
  ∧ Forge.AllocateSubnet unmarshal_example marshal_example disk_example sort_example
      "2025-01-05T00:00:00Z" "gamma" (Forge.Content "after")
    = (Ok 3%Z, Forge.Content "after").
Proof.
  apply (AllocateSubnet_then_lookup unmarshal_example marshal_example disk_example
           sort_example "2025-01-05T00:00:00Z" "gamma"
           (Forge.Content "before") (Forge.Content "after") 3%Z
           write_stores_example reads_back_example sort_permutes_example).
  reflexivity.
Defined.

Lemma AllocateSubnet_keeps_octets_distinct_witness :
  ∃ data',
    Forge.readSubnetsFile unmarshal_example (Forge.Content "after") = Ok data'
    ∧ NoDup (octets (Forge.Allocations data'))
    ∧ NoDup (projects (Forge.Allocations data'))
    ∧ (∀ p, p ≠ "gamma" →
         Forge.GetProjectSubnet unmarshal_example p (Forge.Content "after")
         = Forge.GetProjectSubnet unmarshal_example p (Forge.Content "before")).
Proof.
  apply (AllocateSubnet_keeps_octets_distinct unmarshal_example marshal_example
           disk_example sort_example "2025-01-05T00:00:00Z" "gamma"
           (Forge.Content "before") (Forge.Content "after")
           (Forge.mkSubnetsData table_example) 3%Z
           write_stores_example reads_back_example sort_permutes_example eq_refl).
  - apply (bool_decide_unpack _). vm_compute. exact I.
  - apply (bool_decide_unpack _). vm_compute. exact I.
  - reflexivity.
Defined.

Lemma ReleaseSubnet_drops_the_project_witness :
  Forge.ReleaseSubnet unmarshal_example marshal_example disk_example
    "gamma" (Forge.Content "after")
  = (Ok 3%Z, Forge.Content "before").
Proof.
  exact (proj1 (ReleaseSubnet_drops_the_project unmarshal_example marshal_example
                  disk_example "gamma" (Forge.Content "after")
                  (Forge.mkSubnetsData table_after) eq_refl)).
Defined.

(* ===================================================================== *)
(** * Forge: the command line and the listen address                      *)
(* ===================================================================== *)

Section ForgeCommandLine.

Import Forge.

Lemma CheckHelp_snoc l arg : CheckHelp (l ++ [arg]) = CheckHelp l || is_help arg.
Proof.
  induction l as [|a l IH]; cbn [CheckHelp app].
  - by destruct (is_help arg).
  - by destruct (is_help a).
Qed.

Lemma is_help_not_chdir arg : is_help arg = true → HasPrefix arg "-chdir=" = false.
Proof.
  unfold is_help.
  destruct (String.eqb_spec arg "-help") as [-> |]; [done |].
  destruct (String.eqb_spec arg "--help") as [-> |]; [done |].
  by destruct (String.eqb_spec arg "-h") as [-> |].
Qed.

Lemma is_version_not_chdir arg : is_version arg = true → HasPrefix arg "-chdir=" = false.
Proof.
  unfold is_version.
  destruct (String.eqb_spec arg "-version") as [-> |]; [done |].
  destruct (String.eqb_spec arg "--version") as [-> |]; [done |].
  by destruct (String.eqb_spec arg "-v") as [-> |].
Qed.

Lemma is_version_not_help arg : is_version arg = true → is_help arg = false.
Proof.
  unfold is_version.
  destruct (String.eqb_spec arg "-version") as [-> |]; [done |].
  destruct (String.eqb_spec arg "--version") as [-> |]; [done |].
  by destruct (String.eqb_spec arg "-v") as [-> |].
Qed.

Lemma parseArgs_globals args g :
  let g' := parseArgs args g in
  CheckHelp (commandArgs g') = CheckHelp (commandArgs g)
  ∧ showHelp g' = showHelp g || CheckHelp args
  ∧ showVersion g' = showVersion g || existsb is_version args
  ∧ (HasPrefix (command g) "-" = false → HasPrefix (command g') "-" = false).
Proof.
  revert g. induction args as [|arg rest IH]; intros g; cbn [parseArgs CheckHelp existsb].
  - by rewrite !orb_false_r.
  - destruct (HasPrefix arg "-chdir=") eqn:Hc.
    { destruct (is_help arg) eqn:Hh; [apply is_help_not_chdir in Hh; congruence |].
      destruct (is_version arg) eqn:Hv; [apply is_version_not_chdir in Hv; congruence |].
      destruct (IH (mkGlobals (TrimPrefix arg "-chdir=") (showHelp g) (showVersion g)
                      (command g) (commandArgs g))) as (-> & -> & -> & H4).
      done. }
    destruct (is_help arg) eqn:Hh.
    { destruct (is_version arg) eqn:Hv; [apply is_version_not_help in Hv; congruence |].
      destruct (IH (mkGlobals (chdir g) true (showVersion g) (command g) (commandArgs g)))
        as (-> & -> & -> & H4).
      cbn [commandArgs showHelp showVersion command]. by rewrite orb_true_r. }
    destruct (is_version arg) eqn:Hv.
    { destruct (IH (mkGlobals (chdir g) (showHelp g) true (command g) (commandArgs g)))
        as (-> & -> & -> & H4).
      cbn [commandArgs showHelp showVersion command]. by rewrite orb_true_r. }
    destruct (String.eqb (command g) "" && negb (HasPrefix arg "-")) eqn:Hcmd.
    { destruct (IH (mkGlobals (chdir g) (showHelp g) (showVersion g) arg (commandArgs g)))
        as (-> & -> & -> & H4).
      cbn [commandArgs showHelp showVersion command] in *.
      apply andb_prop in Hcmd as [_ Hdash%negb_true_iff].
      split; [done |]. split; [done |]. split; [done |]. intros _. by apply H4. }
    destruct (IH (mkGlobals (chdir g) (showHelp g) (showVersion g) (command g)
                    (commandArgs g ++ [arg]))) as (-> & -> & -> & H4).
    cbn [commandArgs showHelp showVersion command] in *.
    by rewrite CheckHelp_snoc, Hh, orb_false_r.
Qed.

(** X29: The loop over the command line takes every help flag for itself,
    wherever it stands: the arguments handed to a command never contain
    one, so the check for help in the commands never succeeds, and a
    command line with a help flag prints the help of forge (or the
    version) and runs nothing.  The version is printed exactly when a
    version flag is present, or when, without a help flag, the command is
    [version] and the working directory is found.  A command that is
    reported unknown is not empty, is not [help] and does not start with a
    dash. *)
Theorem forge_takes_every_help_flag
    (os_Stat : string → result bool) (os_Getwd : result string) (args : list string) :
  let g := parseArgs args noGlobals in
  let action := main_action os_Stat os_Getwd args in
  (action = PrintVersion ↔
     existsb is_version args = true
     ∨ (CheckHelp args = false ∧ command g = "version"
        ∧ is_ok (GetWorkingDir os_Stat os_Getwd (chdir g)) = true))
  ∧ (CheckHelp args = true →
     action = (if existsb is_version args then PrintVersion else PrintHelp))
  ∧ (∀ c workDir cargs,
       action = Run c workDir cargs →
       CheckHelp args = false ∧ existsb is_version args = false
       ∧ cargs = commandArgs g ∧ CheckHelp cargs = false
       ∧ GetWorkingDir os_Stat os_Getwd (chdir g) = Ok workDir)
  ∧ (∀ cmd,
       action = UnknownCommand cmd →
       cmd = command g ∧ cmd ≠ "" ∧ cmd ≠ "help" ∧ HasPrefix cmd "-" = false).
Proof.
  intros g action. subst action. unfold main_action. fold g.
  destruct (parseArgs_globals args noGlobals) as (Hargs & Hhelp & Hversion & Hdash).
  cbn [noGlobals commandArgs showHelp showVersion command CheckHelp orb] in *.
  specialize (Hdash eq_refl). fold g in Hargs, Hhelp, Hversion, Hdash.
  rewrite Hhelp, Hversion.
  destruct (existsb is_version args).
  { split; [split; [by left | done] |]. split; [done |]. split; discriminate. }
  destruct (CheckHelp args); simpl.
  { split; [split; [discriminate | by intros [? | (? & _)]] |].
    split; [done |]. split; discriminate. }
  destruct (String.eqb_spec (command g) "") as [He | He]; simpl.
  { split; [split; [discriminate | intros [? | (_ & Hc & _)]; [done | congruence]] |].
    split; [discriminate |]. split; discriminate. }
  destruct (String.eqb_spec (command g) "help") as [Hh | Hh].
  { split; [split; [discriminate | intros [? | (_ & Hc & _)]; [done | congruence]] |].
    split; [discriminate |]. split; discriminate. }
  destruct (GetWorkingDir os_Stat os_Getwd (chdir g)) as [workDir | err].
  2: { split; [split; [discriminate | by intros [? | (_ & _ & ?)]] |].
       split; [discriminate |]. split; discriminate. }
  unfold dispatch.
  repeat match goal with
         | |- context [String.eqb (command g) ?c] =>
             destruct (String.eqb_spec (command g) c)
         end;
    (split; [split; [try discriminate; try (intros _; by right)
                    | intros [? | (_ & Hc & _)]; [done | congruence]] |]);
    (split; [discriminate |]);
    (split; [try discriminate; intros c' w' a' [= <- <- <-]; done
            | try discriminate; intros cmd [= <-]; done]).
Qed.

(** ** ParseListenAddress *)

Lemma string_append_assoc (a b c : string) : (a +:+ b) +:+ c = a +:+ (b +:+ c).
Proof.
  induction a as [|x a IH]; [done |].
  change (String x ((a +:+ b) +:+ c) = String x (a +:+ (b +:+ c))). by rewrite IH.
Qed.

Lemma string_append_nil (a : string) : a +:+ "" = a.
Proof.
  induction a as [|x a IH]; [done |].
  change (String x (a +:+ "") = String x a). by rewrite IH.
Qed.

Lemma rev_app_append (s acc : string) :
  String.rev_app s acc = String.rev_app s "" +:+ acc.
Proof.
  revert acc. induction s as [|c s IH]; intros acc; cbn [String.rev_app]; [done |].
  rewrite (IH (String c acc)), (IH (String c "")). by rewrite string_append_assoc.
Qed.

Lemma rev_String (c : ascii) (s : string) :
  String.rev (String c s) = String.rev s +:+ String c "".
Proof. unfold String.rev. cbn [String.rev_app]. apply rev_app_append. Qed.

Lemma split_byte_no_sep sep cur s :
  count_byte sep s = 0 → split_byte sep cur s = [String.rev cur +:+ s].
Proof.
  revert cur. induction s as [|c s IH]; intros cur; cbn [count_byte split_byte].
  - intros _. by rewrite string_append_nil.
  - destruct (Ascii.eqb c sep); [discriminate |]. intros Hs. rewrite (IH _ Hs).
    rewrite rev_String.
    by rewrite string_append_assoc.
Qed.

Lemma split_byte_sep sep cur a b :
  count_byte sep a = 0 →
  split_byte sep cur (a +:+ String sep b)
  = (String.rev cur +:+ a) :: split_byte sep EmptyString b.
Proof.
  revert cur. induction a as [|c a IH]; intros cur; cbn [count_byte].
  - intros _. change ("" +:+ String sep b) with (String sep b). cbn [split_byte].
    rewrite Ascii.eqb_refl. by rewrite string_append_nil.
  - change (String c a +:+ String sep b) with (String c (a +:+ String sep b)).
    cbn [split_byte]. destruct (Ascii.eqb c sep); [discriminate |]. intros Ha.
    rewrite (IH _ Ha).
    rewrite rev_String.
    by rewrite string_append_assoc.
Qed.

Lemma split_byte_length sep cur s :
  List.length (split_byte sep cur s) = S (count_byte sep s).
Proof.
  revert cur. induction s as [|c s IH]; intros cur; cbn [count_byte split_byte]; [done |].
  destruct (Ascii.eqb c sep); cbn [List.length]; by rewrite IH.
Qed.

(** X30: The listen address that [StartServer] formats from an IP and a port
    without colons is parsed back into that IP and that port, also when
    the IP is empty.  An address that does not start with a colon and has
    no colon, or more than one (an IPv6 address with a port), is taken
    whole as the IP, with port 8080. *)
Theorem ParseListenAddress_round_trip :
  (∀ ip port,
     count_byte ":" ip = 0 → count_byte ":" port = 0 →
     ParseListenAddress (listenAddr ip port) = (ip, port))
  ∧ (∀ port, ParseListenAddress (":" +:+ port) = ("", port))
  ∧ (∀ listen,
       HasPrefix listen ":" = false → count_byte ":" listen ≠ 1 →
       ParseListenAddress listen = (listen, "8080")).
Proof.
  assert (Hport : ∀ port, ParseListenAddress (":" +:+ port) = ("", port)).
  { intros port. unfold ParseListenAddress, TrimPrefix.
    change (":" +:+ port) with (String ":" port). cbn [HasPrefix].
    rewrite Ascii.eqb_refl, HasPrefix_empty. done. }
  split; [| split; [exact Hport |]].
  - intros ip port Hip Hp. unfold listenAddr.
    destruct ip as [|c ip]; [apply Hport |].
    unfold ParseListenAddress.
    change (String c ip +:+ ":" +:+ port) with (String c (ip +:+ String ":" port)).
    cbn [count_byte] in Hip. cbn [HasPrefix].
    rewrite Ascii.eqb_sym. destruct (Ascii.eqb c ":") eqn:Hc; [discriminate |]. simpl.
    unfold Split. cbn [split_byte]. rewrite Hc.
    rewrite split_byte_sep by done. rewrite split_byte_no_sep by done. done.
  - intros listen Hpre Hn. unfold ParseListenAddress. rewrite Hpre.
    pose proof (split_byte_length ":" EmptyString listen) as Hlen. unfold Split.
    destruct (split_byte ":" "" listen) as [|a [|b [|c rest]]]; try done.
    cbn in Hlen. congruence.
Qed.

End ForgeCommandLine.

(* ===================================================================== *)
(** * Examples of the choices                                             *)
(* ===================================================================== *)

(** A wireless adapter that is up is taken when the only wired interface
    is down. *)
Lemma getPrimaryInterface_choice_witness :
  getPrimaryInterface (Ok interfaces_wifi_first) = Ok "wlan0".
Proof.
  refine (proj2 (proj2 (proj2 (getPrimaryInterface_choice interfaces_wifi_first))) _).
  repeat constructor.
Defined.

(** With NetworkManager active, a Netplan directory changes nothing. *)
Lemma detectNetworkMethod_priority_witness :
  detectNetworkMethod host_ok lookPath_nmcli stat_netplan []
  = (Ok NetworkMethodNetworkManager,
     [Exec ["systemctl"; "is-active"; "--quiet"; "NetworkManager"]])
  ∧ ∃ t,
      (linux_ConfigureAllNetworks host_ok parseHalves_example lookPath_nmcli stat_netplan
         batch_dhcp ["eth0"; "eth1"] []).2 = [] ++ t
      ∧ Forall (λ e, is_Exec e = true) t.
Proof.
  destruct (detectNetworkMethod_priority host_ok parseHalves_example
              lookPath_nmcli stat_netplan batch_dhcp ["eth0"; "eth1"] [])
    as (Hdetect & Hruns & _).
  split; [exact Hdetect | apply Hruns; reflexivity].
Defined.
